(** * KnowYourCity data tools: extraction and normalisation core

    A shallow embedding of [tools/download_nigeria_settlements.py] and
    [tools/extract_atlas_of_informality.py], together with the parts of the
    Python runtime those two scripts rely on (exceptions, binary64 floats,
    [str] methods, [json.loads], [datetime.strptime]).

    Conventions.
    - A Python [str] is a Rocq [string] holding its UTF-8 encoding; every
      operation used by the scripts that looks at ASCII characters only
      (searching for a marker, splitting on ["T"], digits, signs) acts on that
      encoding exactly as it acts on the code points.  Decimal digits outside
      ASCII, which [float()], [int()] and the regex class [\d] also accept,
      are not modelled: such text is treated as non-numeric.
    - A Python [float] is an IEEE-754 binary64 value, [spec_float] with
      precision 53 and maximal exponent 1024, rounded to nearest even.
    - A computation that may raise is a [result]: [Ok v] or [Raise e]. *)

From Stdlib Require Import ZArith List String Ascii Bool Lia Sorted.
From Stdlib Require Import Floats.SpecFloat.
Import ListNotations.

Local Open Scope string_scope.
Local Open Scope list_scope.
Local Open Scope Z_scope.

Set Warnings "-register-all".

(* ================================================================== *)
(** * Exceptions and the error monad *)
(* ================================================================== *)

Inductive exn : Type :=
| ValueError (msg : string)
| JSONDecodeError                 (* json.JSONDecodeError, a ValueError *)
| TypeError
| OverflowError
| KeyError (key : string)
| AttributeError
| ZeroDivisionError
| RequestException (msg : string) (* requests.RequestException and subclasses *).

(** [isinstance(e, ValueError)], as tested by [except ValueError]. *)
Definition is_ValueError (e : exn) : bool :=
  match e with
  | ValueError _ | JSONDecodeError => true
  | _ => false
  end.

(** [isinstance(e, (TypeError, ValueError))]. *)
Definition is_TypeError_or_ValueError (e : exn) : bool :=
  match e with
  | TypeError => true
  | _ => is_ValueError e
  end.

Definition is_RequestException (e : exn) : bool :=
  match e with
  | RequestException _ => true
  | _ => false
  end.

Inductive result (A : Type) : Type :=
| Ok (a : A)
| Raise (e : exn).
Arguments Ok {A} a.
Arguments Raise {A} e.

Definition bind {A B : Type} (c : result A) (k : A -> result B) : result B :=
  match c with
  | Ok a => k a
  | Raise e => Raise e
  end.

Notation "x <- c ;; k" := (bind c (fun x => k))
  (at level 61, c at next level, right associativity).
Notation "' p <- c ;; k" := (bind c (fun x => let 'p := x in k))
  (at level 61, p pattern, c at next level, right associativity).

Definition returns {A : Type} (c : result A) : bool :=
  match c with
  | Ok _ => true
  | Raise _ => false
  end.

(** [for x in xs: acc = body(acc, x)] where the body may raise. *)
Fixpoint for_each {A S : Type} (body : S -> A -> result S) (xs : list A) (acc : S)
  : result S :=
  match xs with
  | [] => Ok acc
  | x :: rest => acc' <- body acc x ;; for_each body rest acc'
  end.

(* ================================================================== *)
(** * Binary64 floats *)
(* ================================================================== *)

Module F.

Definition float : Type := spec_float.

Definition prec : Z := 53.
Definition emax : Z := 1024.

Definition mul : float -> float -> float := SFmul prec emax.
Definition div : float -> float -> float := SFdiv prec emax.
Definition sub : float -> float -> float := SFsub prec emax.

(** IEEE comparison, as performed by [==] and [<] on floats. *)
Definition eqb : float -> float -> bool := SFeqb.
Definition ltb : float -> float -> bool := SFltb.

Definition is_nan (x : float) : bool :=
  match x with S754_nan => true | _ => false end.
Definition is_inf (x : float) : bool :=
  match x with S754_infinity _ => true | _ => false end.
Definition is_finite (x : float) : bool :=
  match x with S754_zero _ | S754_finite _ _ _ => true | _ => false end.
Definition is_zero (x : float) : bool :=
  match x with S754_zero _ => true | _ => false end.

(** The nearest float to an integer, without the overflow check. *)
Definition nearest (z : Z) : float := binary_normalize prec emax z 0 false.

(** [float(n)] for a Python [int]: correctly rounded, and
    [OverflowError: int too large to convert to float] beyond the range. *)
Definition of_int (z : Z) : result float :=
  let r := nearest z in
  if is_inf r then Raise OverflowError else Ok r.

(** [math.pi = 0x1.921fb54442d18p+1]. *)
Definition pi : float := S754_finite false 7074237752028440 (-51).

Definition zero : float := S754_zero false.
Definition inf : float := S754_infinity false.
Definition nan : float := S754_nan.

(** The float nearest to [m * 10^e10] with sign [neg]: what the correctly
    rounding [strtod] of CPython returns for a decimal literal. *)
Definition of_decimal (neg : bool) (m : Z) (e10 : Z) : float :=
  match m with
  | Zpos p =>
      if 0 <=? e10
      then binary_normalize prec emax (cond_Zopp neg (Zpos p * 10 ^ e10)) 0 false
      else SFdiv prec emax (S754_finite neg p 0)
                           (S754_finite false (Z.to_pos (10 ^ (- e10))) 0)
  | _ => S754_zero neg
  end.

(** Round the rational [m / 2^k] to the nearest integer, ties to even. *)
Definition round_half_even (m : Z) (k : Z) : Z :=
  let d := 2 ^ k in
  let q := m / d in
  let r := m mod d in
  match 2 * r ?= d with
  | Lt => q
  | Gt => q + 1
  | Eq => if Z.even q then q else q + 1
  end.

(** [round(x)] for a float [x] and no [ndigits]: an [int], ties to even;
    infinities and NaN raise. *)
Definition round (x : float) : result Z :=
  match x with
  | S754_nan => Raise (ValueError "cannot convert float NaN to integer")
  | S754_infinity _ => Raise OverflowError
  | S754_zero _ => Ok 0
  | S754_finite s m e =>
      Ok (cond_Zopp s (if 0 <=? e then Zpos m * 2 ^ e
                       else round_half_even (Zpos m) (- e)))
  end.

(** Truth value of a float: [x != 0.0]. *)
Definition truthy (x : float) : bool := negb (is_zero x).

End F.

Abbreviation float := F.float.

(* ================================================================== *)
(** * Python [str] *)
(* ================================================================== *)

Module Str.

Definition chars : string -> list ascii := list_ascii_of_string.
Definition of_chars : list ascii -> string := string_of_list_ascii.

Definition code (c : ascii) : Z := Z.of_N (N_of_ascii c).
Definition chr (z : Z) : ascii := ascii_of_N (Z.to_N z).

Definition in_range (lo hi : Z) (c : ascii) : bool :=
  (lo <=? code c) && (code c <=? hi).

Definition is_digit (c : ascii) : bool := in_range 48 57 c.
Definition digit_val (c : ascii) : Z := code c - 48.

Fixpoint prefix (p s : list ascii) : option (list ascii) :=
  match p, s with
  | [], _ => Some s
  | a :: p', b :: s' => if Ascii.eqb a b then prefix p' s' else None
  | _ :: _, [] => None
  end.

(** First occurrence of [needle]: the text before it and the text after. *)
Fixpoint find (needle s : list ascii) : option (list ascii * list ascii) :=
  match prefix needle s with
  | Some rest => Some ([], rest)
  | None =>
      match s with
      | [] => None
      | c :: s' =>
          match find needle s' with
          | Some (before, rest) => Some (c :: before, rest)
          | None => None
          end
      end
  end.

(** [needle in s]. *)
Definition contains (needle s : string) : bool :=
  match find (chars needle) (chars s) with
  | Some _ => true
  | None => false
  end.

(** [s.split(sep, 1)[0]]: the text before the first [sep], all of [s] when
    there is none. *)
Definition split_first (sep s : string) : string :=
  match find (chars sep) (chars s) with
  | Some (before, _) => of_chars before
  | None => s
  end.

(** The characters for which [str.isspace] holds, in UTF-8: U+0009..000D,
    U+001C..0020, U+0085, U+00A0, U+1680, U+2000..200A, U+2028, U+2029,
    U+202F, U+205F, U+3000. *)
Definition ascii_spaces : list (list ascii) :=
  map (fun z => [chr z]) [9; 10; 11; 12; 13; 28; 29; 30; 31; 32].

Definition wide_spaces : list (list ascii) :=
  map (map chr)
       [ [194; 133]; [194; 160]; [225; 154; 128];
         [226; 128; 128]; [226; 128; 129]; [226; 128; 130]; [226; 128; 131];
         [226; 128; 132]; [226; 128; 133]; [226; 128; 134]; [226; 128; 135];
         [226; 128; 136]; [226; 128; 137]; [226; 128; 138];
         [226; 128; 168]; [226; 128; 169]; [226; 128; 175];
         [226; 129; 159]; [227; 128; 128] ].

Definition unicode_spaces : list (list ascii) := ascii_spaces ++ wide_spaces.

(** Remove one leading token out of [toks], if any. *)
Fixpoint drop_token (toks : list (list ascii)) (s : list ascii)
  : option (list ascii) :=
  match toks with
  | [] => None
  | t :: toks' =>
      match t, prefix t s with
      | _ :: _, Some rest => Some rest
      | _, _ => drop_token toks' s
      end
  end.

Fixpoint lstrip_tokens (fuel : nat) (toks : list (list ascii)) (s : list ascii)
  : list ascii :=
  match fuel with
  | O => s
  | S n =>
      match drop_token toks s with
      | Some rest => lstrip_tokens n toks rest
      | None => s
      end
  end.

Definition strip_tokens (toks : list (list ascii)) (s : list ascii) : list ascii :=
  let l := lstrip_tokens (List.length s) toks s in
  rev (lstrip_tokens (List.length l) (map (@rev ascii) toks) (rev l)).

(** [s.strip()]. *)
Definition strip (s : string) : string :=
  of_chars (strip_tokens unicode_spaces (chars s)).

(** [s.strip("_")]. *)
Definition strip_underscores (s : string) : string :=
  of_chars (strip_tokens [["_"%char]] (chars s)).

Definition lower_char (c : ascii) : ascii :=
  if in_range 65 90 c then chr (code c + 32) else c.

(** [s.lower()] on the ASCII letters.  The scripts only compare the result
    with ASCII words or keep its runs of [a-z0-9]; apart from U+212A (Kelvin
    sign) and U+0130 no character outside ASCII lowers to an ASCII one, so
    that is all of [lower] they can observe. *)
Definition lower (s : string) : string := of_chars (map lower_char (chars s)).

Definition is_ascii (s : list ascii) : bool :=
  forallb (fun c => code c <? 128) s.

(** Code points of a UTF-8 string, each as its own encoded string: what
    iterating over a [str] yields.  A byte [10xxxxxx] continues a character. *)
Definition is_continuation (c : ascii) : bool := in_range 128 191 c.

Fixpoint code_points (s : list ascii) : list (list ascii) :=
  match s with
  | [] => []
  | c :: s' =>
      match code_points s' with
      | [] => [[c]]
      | cp :: cps =>
          match cp with
          | d :: _ => if is_continuation d then (c :: cp) :: cps else [c] :: cp :: cps
          | [] => [c] :: cps
          end
      end
  end.

Definition iter (s : string) : list string := map of_chars (code_points (chars s)).

(** Decimal numeral of a non-negative integer, zero-padded to [width]. *)
Fixpoint digits_of (fuel : nat) (z : Z) (acc : list ascii) : list ascii :=
  match fuel with
  | O => acc
  | S n =>
      let acc' := chr (48 + z mod 10) :: acc in
      if z <? 10 then acc' else digits_of n (z / 10) acc'
  end.

Definition decimal (z : Z) : list ascii := digits_of (Z.to_nat (Z.log2 z) + 1) z [].

Definition pad (width : nat) (l : list ascii) : list ascii :=
  repeat "0"%char (width - List.length l) ++ l.

End Str.

(* ================================================================== *)
(** * Python values, [float()], [json.loads] *)
(* ================================================================== *)

(** The values [json.loads] produces: [None], [bool], [int], [float], [str],
    [list] and [dict] (insertion-ordered, keys are strings). *)
Inductive value : Type :=
| VNone
| VBool (b : bool)
| VInt (z : Z)
| VFloat (f : float)
| VStr (s : string)
| VList (l : list value)
| VDict (d : list (string * value)).

Module Py.

(** Truth value, as tested by [if], [not] and [or]. *)
Definition truthy (v : value) : bool :=
  match v with
  | VNone => false
  | VBool b => b
  | VInt z => negb (z =? 0)
  | VFloat f => F.truthy f
  | VStr s => negb (String.eqb s EmptyString)
  | VList l => match l with [] => false | _ => true end
  | VDict d => match d with [] => false | _ => true end
  end.

(** [a or b]. *)
Definition or_ (a b : value) : value := if truthy a then a else b.

Fixpoint assoc (k : string) (d : list (string * value)) : option value :=
  match d with
  | [] => None
  | (k', v) :: d' => if String.eqb k k' then Some v else assoc k d'
  end.

(** [d[k] = v]: a known key keeps its place, a new one goes last. *)
Fixpoint dict_set (k : string) (v : value) (d : list (string * value))
  : list (string * value) :=
  match d with
  | [] => [(k, v)]
  | (k', v') :: d' =>
      if String.eqb k k' then (k', v) :: d' else (k', v') :: dict_set k v d'
  end.

(** [dict(pairs)]. *)
Definition dict_of_pairs (pairs : list (string * value)) : list (string * value) :=
  fold_left (fun d kv => dict_set (fst kv) (snd kv) d) pairs [].

(** [obj.get(key, default)]; only a [dict] has the method. *)
Definition get_default (obj : value) (key : string) (default : value)
  : result value :=
  match obj with
  | VDict d => Ok (match assoc key d with Some v => v | None => default end)
  | _ => Raise AttributeError
  end.

(** [obj.get(key)]. *)
Definition get (obj : value) (key : string) : result value :=
  get_default obj key VNone.

(** [obj[key]] with a string key. *)
Definition getitem (obj : value) (key : string) : result value :=
  match obj with
  | VDict d =>
      match assoc key d with
      | Some v => Ok v
      | None => Raise (KeyError key)
      end
  | _ => Raise TypeError
  end.

(** What [for x in obj] iterates over; scalars are not iterable. *)
Definition iterate (obj : value) : result (list value) :=
  match obj with
  | VList l => Ok l
  | VStr s => Ok (map VStr (Str.iter s))
  | VDict d => Ok (map (fun kv => VStr (fst kv)) d)
  | _ => Raise TypeError
  end.

(** [a, b = obj]. *)
Definition unpack2 (obj : value) : result (value * value) :=
  items <- iterate obj ;;
  match items with
  | [a; b] => Ok (a, b)
  | [] | [_] => Raise (ValueError "not enough values to unpack")
  | _ => Raise (ValueError "too many values to unpack")
  end.

(** ** [float(text)] *)

(** The text seen by the numeric parser: ASCII characters as they are, every
    white-space character outside ASCII as a blank and every other character
    outside ASCII as a question mark. *)
Fixpoint to_ascii_spaces (fuel : nat) (s : list ascii) : list ascii :=
  match fuel with
  | O => []
  | S n =>
      match s with
      | [] => []
      | c :: s' =>
          match Str.drop_token Str.wide_spaces s with
          | Some rest => " "%char :: to_ascii_spaces n rest
          | None =>
              if Str.code c <? 128 then c :: to_ascii_spaces n s'
              else if Str.is_continuation c then to_ascii_spaces n s'
              else "?"%char :: to_ascii_spaces n s'
          end
      end
  end.

Definition numeric_text (s : list ascii) : list ascii :=
  if Str.is_ascii s then s else to_ascii_spaces (List.length s) s.

(** Underscores may only stand between two digits; they are removed. *)
Fixpoint remove_underscores (prev : ascii) (s : list ascii) : option (list ascii) :=
  match s with
  | [] => if Ascii.eqb prev "_" then None else Some []
  | c :: s' =>
      if Ascii.eqb c "_"
      then if Str.is_digit prev then remove_underscores c s' else None
      else if Ascii.eqb prev "_" && negb (Str.is_digit c) then None
      else option_map (cons c) (remove_underscores c s')
  end.

Fixpoint span (p : ascii -> bool) (s : list ascii) : list ascii * list ascii :=
  match s with
  | c :: s' => if p c then let '(a, b) := span p s' in (c :: a, b) else ([], s)
  | [] => ([], [])
  end.

Definition digits_value (ds : list ascii) : Z :=
  fold_left (fun acc c => 10 * acc + Str.digit_val c) ds 0.

Definition sign (s : list ascii) : bool * list ascii :=
  match s with
  | c :: s' =>
      if Ascii.eqb c "-" then (true, s')
      else if Ascii.eqb c "+" then (false, s')
      else (false, s)
  | [] => (false, [])
  end.

(** An exponent part [e], [E] followed by an optional sign and digits; when
    the digits are missing the exponent is not consumed. *)
Definition exponent (s : list ascii) : Z * list ascii :=
  match s with
  | c :: s' =>
      if Ascii.eqb c "e" || Ascii.eqb c "E" then
        let '(neg, s1) := sign s' in
        match span Str.is_digit s1 with
        | ([], _) => (0, s)
        | (ds, rest) => (if neg then - digits_value ds else digits_value ds, rest)
        end
      else (0, s)
  | [] => (0, [])
  end.

(** A decimal numeral: sign, digits with an optional point, exponent.  At
    least one digit is required.  Returns the float and the unread text. *)
Definition strtod (s : list ascii) : option (float * list ascii) :=
  let '(neg, s1) := sign s in
  let '(ip, s2) := span Str.is_digit s1 in
  let '(fp, s3) :=
    match s2 with
    | c :: s2' => if Ascii.eqb c "." then span Str.is_digit s2' else ([], s2)
    | [] => ([], [])
    end in
  match ip ++ fp with
  | [] => None
  | ds =>
      let '(e, rest) := exponent s3 in
      Some (F.of_decimal neg (digits_value ds) (e - Z.of_nat (List.length fp)), rest)
  end.

(** [inf], [infinity] and [nan] in any case, with an optional sign. *)
Definition inf_or_nan (s : list ascii) : option (float * list ascii) :=
  let '(neg, s1) := sign s in
  let low := map Str.lower_char s1 in
  match Str.prefix (Str.chars "inf") low with
  | Some rest =>
      match Str.prefix (Str.chars "inity") rest with
      | Some rest' => Some (S754_infinity neg, rest')
      | None => Some (S754_infinity neg, rest)
      end
  | None =>
      match Str.prefix (Str.chars "nan") low with
      | Some rest => Some (S754_nan, rest)
      | None => None
      end
  end.

Definition float_of_chars (s : list ascii) : option float :=
  let s0 := numeric_text s in
  match (if existsb (Ascii.eqb "_") s0 then remove_underscores "000" s0 else Some s0) with
  | None => None
  | Some s1 =>
      let s2 := Str.strip_tokens (map (fun z => [Str.chr z]) [9; 10; 11; 12; 13; 32]) s1 in
      match (match strtod s2 with Some r => Some r | None => inf_or_nan s2 end) with
      | Some (x, []) => Some x
      | _ => None
      end
  end.

(** [float(v)]. *)
Definition float_ (v : value) : result float :=
  match v with
  | VFloat f => Ok f
  | VInt z => F.of_int z
  | VBool b => Ok (if b then F.nearest 1 else F.zero)
  | VStr s =>
      match float_of_chars (Str.chars s) with
      | Some x => Ok x
      | None => Raise (ValueError "could not convert string to float")
      end
  | VNone | VList _ | VDict _ => Raise TypeError
  end.

(** ** Arithmetic on [int] and [float] operands *)

Inductive num : Type :=
| NInt (z : Z)
| NFloat (f : float).

(** [a * b]: an [int] operand is converted when the other is a [float]. *)
Definition mul (a b : num) : result num :=
  match a, b with
  | NInt x, NInt y => Ok (NInt (x * y))
  | NInt x, NFloat g => f <- F.of_int x ;; Ok (NFloat (F.mul f g))
  | NFloat f, NInt y => g <- F.of_int y ;; Ok (NFloat (F.mul f g))
  | NFloat f, NFloat g => Ok (NFloat (F.mul f g))
  end.

(** [int(round(a))]. *)
Definition int_round (a : num) : result Z :=
  match a with
  | NInt z => Ok z
  | NFloat f => F.round f
  end.

(** The float an operand of [/] stands for when the other one is a float. *)
Definition operand (v : value) : result float :=
  match v with
  | VFloat f => Ok f
  | VInt z => F.of_int z
  | VBool b => Ok (if b then F.nearest 1 else F.zero)
  | VNone | VStr _ | VList _ | VDict _ => Raise TypeError
  end.

(** [a / b] on floats. *)
Definition truediv (a b : float) : result float :=
  if F.is_zero b then Raise ZeroDivisionError else Ok (F.div a b).

(** [v == text] for a string constant [text]. *)
Definition eq_str (v : value) (text : string) : bool :=
  match v with
  | VStr s => String.eqb s text
  | _ => false
  end.

(** ** Float objects

    [==] on tuples first asks whether two items are the same object.  For
    floats the answer only matters for NaN.  [float(x)] returns a float
    argument itself and makes a new object otherwise; in a decoded JSON
    document every NaN is the one [NaN] constant of the decoder, and every
    other float is an object of its own. *)
Inductive fobj : Type :=
| Fresh (x : float)
| SharedNaN.

Definition val (o : fobj) : float :=
  match o with
  | Fresh x => x
  | SharedNaN => F.nan
  end.

(** [float(v)] for an entry [v] of a decoded document, as an object. *)
Definition float_obj (v : value) : result fobj :=
  match v with
  | VFloat f => Ok (if F.is_nan f then SharedNaN else Fresh f)
  | _ => x <- float_ v ;; Ok (Fresh x)
  end.

(** [a is b or a == b] for two float objects held by different tuples. *)
Definition same_or_equal (a b : fobj) : bool :=
  match a, b with
  | SharedNaN, SharedNaN => true
  | _, _ => F.eqb (val a) (val b)
  end.

(** ** [str()], [in], [.items()] *)

(** [str(v)]: a string is itself, [None], the booleans and the integers have
    their literal; the text of a float, a list or a dict is left to
    [other]. *)
Definition str_ (other : value -> string) (v : value) : string :=
  match v with
  | VStr s => s
  | VNone => "None"
  | VBool true => "True"
  | VBool false => "False"
  | VInt z =>
      if z <? 0 then Str.of_chars ("-"%char :: Str.decimal (- z))
      else Str.of_chars (Str.decimal z)
  | VFloat _ | VList _ | VDict _ => other v
  end.

(** [key in container] for a string [key]: a key of a dict, an element of a
    list, a part of a string; other values are not containers. *)
Definition contains (container : value) (key : string) : result bool :=
  match container with
  | VDict d => Ok (match assoc key d with Some _ => true | None => false end)
  | VList l => Ok (existsb (fun v => eq_str v key) l)
  | VStr s => Ok (Str.contains key s)
  | VNone | VBool _ | VInt _ | VFloat _ => Raise TypeError
  end.

(** [obj.items()]; only a [dict] has the method. *)
Definition items (obj : value) : result (list (string * value)) :=
  match obj with
  | VDict d => Ok d
  | _ => Raise AttributeError
  end.

End Py.

(** ** [json.loads]

    The decoder of CPython's [json] package with its default settings
    (strict strings, [NaN], [Infinity] and [-Infinity] accepted, the last of
    several equal keys wins), for documents within the limits of the
    interpreter; every failure of the syntax is a [JSONDecodeError]. *)

Module Json.

Definition quote : ascii := Str.chr 34.
Definition backslash : ascii := Str.chr 92.

Definition is_ws (c : ascii) : bool :=
  let z := Str.code c in (z =? 32) || (z =? 9) || (z =? 10) || (z =? 13).

Fixpoint skip_ws (s : list ascii) : list ascii :=
  match s with
  | c :: s' => if is_ws c then skip_ws s' else s
  | [] => []
  end.

Definition hex_val (c : ascii) : option Z :=
  if Str.is_digit c then Some (Str.code c - 48)
  else if Str.in_range 97 102 c then Some (Str.code c - 87)
  else if Str.in_range 65 70 c then Some (Str.code c - 55)
  else None.

Definition hex4 (a b c d : ascii) : option Z :=
  match hex_val a, hex_val b, hex_val c, hex_val d with
  | Some x, Some y, Some z, Some w => Some (((x * 16 + y) * 16 + z) * 16 + w)
  | _, _, _, _ => None
  end.

(** UTF-8 encoding of a code point. *)
Definition utf8 (cp : Z) : list ascii :=
  let tail k := Str.chr (128 + (cp / 64 ^ k) mod 64) in
  if cp <? 128 then [Str.chr cp]
  else if cp <? 2048 then [Str.chr (192 + cp / 64); tail 0]
  else if cp <? 65536 then [Str.chr (224 + cp / 4096); tail 1; tail 0]
  else [Str.chr (240 + cp / 262144); tail 2; tail 1; tail 0].

Definition simple_escape (c : ascii) : option ascii :=
  let z := Str.code c in
  if (z =? 34) || (z =? 92) || (z =? 47) then Some c
  else if z =? 98 then Some (Str.chr 8)
  else if z =? 102 then Some (Str.chr 12)
  else if z =? 110 then Some (Str.chr 10)
  else if z =? 114 then Some (Str.chr 13)
  else if z =? 116 then Some (Str.chr 9)
  else None.

(** The body of a string literal, after its opening quote; [acc] holds the
    decoded characters so far, last first. *)
Fixpoint scanstring (s : list ascii) (acc : list ascii)
  : option (string * list ascii) :=
  match s with
  | [] => None
  | c :: s1 =>
      if Ascii.eqb c quote then Some (Str.of_chars (rev acc), s1)
      else if Ascii.eqb c backslash then
        match s1 with
        | [] => None
        | e :: s2 =>
            if Ascii.eqb e "u" then
              match s2 with
              | h1 :: h2 :: h3 :: h4 :: s3 =>
                  match hex4 h1 h2 h3 h4 with
                  | None => None
                  | Some hi =>
                      let single := scanstring s3 (rev (utf8 hi) ++ acc) in
                      if (55296 <=? hi) && (hi <=? 56319) then
                        match s3 with
                        | b :: u :: k1 :: k2 :: k3 :: k4 :: s4 =>
                            if Ascii.eqb b backslash && Ascii.eqb u "u" then
                              match hex4 k1 k2 k3 k4 with
                              | None => None
                              | Some lo =>
                                  if (56320 <=? lo) && (lo <=? 57343)
                                  then scanstring s4
                                         (rev (utf8 (65536 + (hi - 55296) * 1024 + (lo - 56320)))
                                          ++ acc)
                                  else single
                              end
                            else single
                        | _ => single
                        end
                      else single
                  end
              | _ => None
              end
            else
              match simple_escape e with
              | Some d => scanstring s2 (d :: acc)
              | None => None
              end
        end
      else if Str.code c <? 32 then None
      else scanstring s1 (c :: acc)
  end.

(** A number: an optional minus sign, then a single 0 or a digit string that
    does not start with 0, then optionally a point followed by digits, then
    optionally an exponent.  Without fraction and exponent it is an [int],
    otherwise a [float]. *)
Definition number (s : list ascii) : option (value * list ascii) :=
  let '(neg, s1) :=
    match s with
    | c :: s' => if Ascii.eqb c "-" then (true, s') else (false, s)
    | [] => (false, [])
    end in
  let '(ip, s2) :=
    match s1 with
    | c :: s' =>
        if Ascii.eqb c "0" then ([c], s')
        else Py.span Str.is_digit s1
    | [] => ([], [])
    end in
  match ip with
  | [] => None
  | _ =>
      let '(fp, s3) :=
        match s2 with
        | c :: s' =>
            if Ascii.eqb c "." then
              match Py.span Str.is_digit s' with
              | ([], _) => ([], s2)
              | r => r
              end
            else ([], s2)
        | [] => ([], [])
        end in
      let '(e, s4) := Py.exponent s3 in
      let has_exp := negb (Nat.eqb (List.length s4) (List.length s3)) in
      match fp, has_exp with
      | [], false =>
          Some (VInt (if neg then - Py.digits_value ip else Py.digits_value ip), s2)
      | _, _ =>
          Some (VFloat (F.of_decimal neg (Py.digits_value (ip ++ fp))
                          (e - Z.of_nat (List.length fp))), s4)
      end
  end.

Definition keywords : list (string * value) :=
  [ ("null", VNone); ("true", VBool true); ("false", VBool false);
    ("NaN", VFloat F.nan); ("Infinity", VFloat F.inf);
    ("-Infinity", VFloat (S754_infinity true)) ].

Fixpoint keyword (kws : list (string * value)) (s : list ascii)
  : option (value * list ascii) :=
  match kws with
  | [] => None
  | (k, v) :: kws' =>
      match Str.prefix (Str.chars k) s with
      | Some rest => Some (v, rest)
      | None => keyword kws' s
      end
  end.

Fixpoint scan_once (fuel : nat) (s : list ascii) {struct fuel}
  : option (value * list ascii) :=
  match fuel with
  | O => None
  | S n =>
      match s with
      | [] => None
      | c :: s1 =>
          if Ascii.eqb c quote then
            match scanstring s1 [] with
            | Some (str, rest) => Some (VStr str, rest)
            | None => None
            end
          else if Ascii.eqb c "{" then
            match skip_ws s1 with
            | d :: s2 =>
                if Ascii.eqb d "}" then Some (VDict [], s2)
                else if Ascii.eqb d quote then
                  match pairs n s2 [] with
                  | Some (kvs, rest) => Some (VDict (Py.dict_of_pairs kvs), rest)
                  | None => None
                  end
                else None
            | [] => None
            end
          else if Ascii.eqb c "[" then
            match skip_ws s1 with
            | d :: s2 =>
                if Ascii.eqb d "]" then Some (VList [], s2)
                else
                  match items n (d :: s2) [] with
                  | Some (vs, rest) => Some (VList vs, rest)
                  | None => None
                  end
            | [] => None
            end
          else
            match keyword keywords s with
            | Some r => Some r
            | None => number s
            end
      end
  end

(** The elements of an array, from the start of an element on. *)
with items (fuel : nat) (s : list ascii) (acc : list value) {struct fuel}
  : option (list value * list ascii) :=
  match fuel with
  | O => None
  | S n =>
      match scan_once n s with
      | None => None
      | Some (v, s1) =>
          match skip_ws s1 with
          | d :: s2 =>
              if Ascii.eqb d "]" then Some (rev (v :: acc), s2)
              else if Ascii.eqb d "," then items n (skip_ws s2) (v :: acc)
              else None
          | [] => None
          end
      end
  end

(** The members of an object, from just after the opening quote of a key. *)
with pairs (fuel : nat) (s : list ascii) (acc : list (string * value)) {struct fuel}
  : option (list (string * value) * list ascii) :=
  match fuel with
  | O => None
  | S n =>
      match scanstring s [] with
      | None => None
      | Some (k, s1) =>
          match skip_ws s1 with
          | c :: s2 =>
              if Ascii.eqb c ":" then
                match scan_once n (skip_ws s2) with
                | None => None
                | Some (v, s3) =>
                    match skip_ws s3 with
                    | d :: s4 =>
                        if Ascii.eqb d "}" then Some (rev ((k, v) :: acc), s4)
                        else if Ascii.eqb d "," then
                          match skip_ws s4 with
                          | q :: s5 =>
                              if Ascii.eqb q quote then pairs n s5 ((k, v) :: acc)
                              else None
                          | [] => None
                          end
                        else None
                    | [] => None
                    end
                end
              else None
          | [] => None
          end
      end
  end.

(** [json.loads(text)] for a document within the limits of the
    interpreter.  Beyond them, for arrays and objects nested deeper than the
    recursion limit or an integer written with more digits than [int]
    accepts, CPython raises [RecursionError] or a plain [ValueError]; those
    limits depend on the interpreter and its settings and are not part of
    this function, which decodes such a document like any other.  No
    property below depends on which exception a failed decoding raises. *)
Definition loads (text : string) : result value :=
  let s := Str.chars text in
  match scan_once (2 * List.length s + 2) (skip_ws s) with
  | Some (v, rest) =>
      match skip_ws rest with
      | [] => Ok v
      | _ => Raise JSONDecodeError
      end
  | None => Raise JSONDecodeError
  end.

End Json.

(* ================================================================== *)
(** * [datetime]: [strptime] and [strftime] for day, month and year *)
(* ================================================================== *)

Module Datetime.

(** The date of a [datetime]; the scripts never look at the time of day. *)
Record date : Type := mkdate { year : Z; month : Z; day : Z }.

Definition is_leap (y : Z) : bool :=
  (y mod 4 =? 0) && (negb (y mod 100 =? 0) || (y mod 400 =? 0)).

Definition days_in_month (y m : Z) : Z :=
  if m =? 2 then (if is_leap y then 29 else 28)
  else if (m =? 4) || (m =? 6) || (m =? 9) || (m =? 11) then 30
  else 31.

(** The constructor: years 1 to 9999, and a day the month has. *)
Definition make (y m d : Z) : result date :=
  if (1 <=? y) && (y <=? 9999) && (1 <=? m) && (m <=? 12)
     && (1 <=? d) && (d <=? days_in_month y m)
  then Ok (mkdate y m d)
  else Raise (ValueError "date value out of range").

(** The directives the scripts use, and literal characters. *)
Inductive token : Type :=
| Day                (* %d *)
| Month              (* %m *)
| Year               (* %Y *)
| Lit (c : ascii).

(** A format string as tokens; [None] for a directive outside the three. *)
Fixpoint compile (fmt : list ascii) : option (list token) :=
  match fmt with
  | [] => Some []
  | c :: rest =>
      if Ascii.eqb c "%" then
        match rest with
        | d :: rest' =>
            let tok :=
              if Ascii.eqb d "d" then Some Day
              else if Ascii.eqb d "m" then Some Month
              else if Ascii.eqb d "Y" then Some Year
              else None in
            match tok, compile rest' with
            | Some t, Some ts => Some (t :: ts)
            | _, _ => None
            end
        | [] => None
        end
      else option_map (cons (Lit c)) (compile rest)
  end.

Definition two_digits (lo1 hi1 lo2 hi2 : Z) (s : list ascii)
  : list (Z * list ascii) :=
  match s with
  | a :: b :: rest =>
      if Str.in_range lo1 hi1 a && Str.in_range lo2 hi2 b
      then [(10 * Str.digit_val a + Str.digit_val b, rest)]
      else []
  | _ => []
  end.

Definition one_digit (s : list ascii) : list (Z * list ascii) :=
  match s with
  | a :: rest => if Str.in_range 49 57 a then [(Str.digit_val a, rest)] else []
  | [] => []
  end.

(** The ways a directive can match a prefix of the text, in the order the
    regular expression of [_strptime] tries its alternatives:
    [%d] is 3[0-1], [1-2][0-9], 0[1-9], [1-9], blank [1-9];
    [%m] is 1[0-2], 0[1-9], [1-9]; [%Y] is four digits. *)
Definition alternatives (t : token) (s : list ascii) : list (Z * list ascii) :=
  match t with
  | Day =>
      two_digits 51 51 48 49 s ++ two_digits 49 50 48 57 s
      ++ two_digits 48 48 49 57 s ++ one_digit s
      ++ match s with
         | a :: rest => if Ascii.eqb a " " then one_digit rest else []
         | [] => []
         end
  | Month =>
      two_digits 49 49 48 50 s ++ two_digits 48 48 49 57 s ++ one_digit s
  | Year =>
      match s with
      | a :: b :: c :: d :: rest =>
          if forallb Str.is_digit [a; b; c; d]
          then [(Py.digits_value [a; b; c; d], rest)]
          else []
      | _ => []
      end
  | Lit c =>
      match s with
      | a :: rest =>
          if Ascii.eqb (Str.lower_char a) (Str.lower_char c) then [(0, rest)] else []
      | [] => []
      end
  end.

(** The groups found so far: year, month, day. *)
Definition fields : Type := (option Z * option Z * option Z)%type.

Definition record_field (t : token) (v : Z) (f : fields) : fields :=
  let '(y, m, d) := f in
  match t with
  | Day => (y, m, Some v)
  | Month => (y, Some v, d)
  | Year => (Some v, m, d)
  | Lit _ => f
  end.

(** All matches of the token sequence against a prefix of the text, in the
    order a backtracking matcher finds them. *)
Fixpoint matches (ts : list token) (s : list ascii) (f : fields)
  : list (fields * list ascii) :=
  match ts with
  | [] => [(f, s)]
  | t :: ts' =>
      flat_map (fun vr => matches ts' (snd vr) (record_field t (fst vr) f))
               (alternatives t s)
  end.

(** [datetime.strptime(text, fmt)]: the first match must use up the text,
    and its fields must form a date; a missing field defaults to 1900, 1, 1. *)
Definition strptime (text fmt : string) : result date :=
  match compile (Str.chars fmt) with
  | None => Raise (ValueError "bad directive in format")
  | Some ts =>
      match matches ts (Str.chars text) (None, None, None) with
      | [] => Raise (ValueError "time data does not match format")
      | ((y, m, d), rest) :: _ =>
          match rest with
          | [] =>
              make (match y with Some v => v | None => 1900 end)
                   (match m with Some v => v | None => 1 end)
                   (match d with Some v => v | None => 1 end)
          | _ => Raise (ValueError "unconverted data remains")
          end
      end
  end.

(** [dt.strftime("%d.%m.%Y")]: day and month in two digits; the year is
    printed by the C library, which writes it without padding. *)
Definition strftime_dmY (dt : date) : string :=
  Str.of_chars (Str.pad 2 (Str.decimal (day dt)) ++ ["."%char]
                ++ Str.pad 2 (Str.decimal (month dt)) ++ ["."%char]
                ++ Str.decimal (year dt)).

End Datetime.

(* ================================================================== *)
(** * tools/download_nigeria_settlements.py *)
(* ================================================================== *)

Module Settlements.

(** [re.search] for a pattern made of a literal [lead], a group that starts
    with [opening], goes on lazily over any characters and ends with
    [closing], and a literal [tail]: the leftmost [lead opening], then the
    first [closing tail] after it.  The result is the group. *)
Definition search_group (lead opening closing tail : string) (text : string)
  : option string :=
  match Str.find (Str.chars lead ++ Str.chars opening) (Str.chars text) with
  | None => None
  | Some (_, rest) =>
      match Str.find (Str.chars closing ++ Str.chars tail) rest with
      | None => None
      | Some (middle, _) =>
          Some (Str.of_chars (Str.chars opening ++ middle ++ Str.chars closing))
      end
  end.

(** [SETTLEMENT_RE.search(html).group(1)]. *)
Definition SETTLEMENT_RE (html : string) : option string :=
  search_group "var settlement = " "{" "}" ";" html.

(** [SHAPE_RE.search(html).group(1)]. *)
Definition SHAPE_RE (html : string) : option string :=
  search_group "var shape = " "[[" "]]" ";" html.

Record SettlementRecord : Type := mkSettlementRecord {
  settlement_id : string;
  city : string;
  name : string;
  country : string;
  url : string
}.

Record ParsedSettlement : Type := mkParsedSettlement {
  rec_id : Z;
  parsed_city : string;
  parsed_name : string;
  last_updated : string;
  year : option Z;
  population : option Z;
  area_acres : option float;
  structures : option Z;
  geometry : list (float * float)
}.

(** The [try: return float(value)  except (TypeError, ValueError): return None]
    at the end of [_safe_float]. *)
Definition float_or_none (value : value) : result (option float) :=
  match Py.float_ value with
  | Ok x => Ok (Some x)
  | Raise e => if is_TypeError_or_ValueError e then Ok None else Raise e
  end.

Definition _safe_float (value : value) : result (option float) :=
  match value with
  | VNone => Ok None
  | VBool _ | VInt _ | VFloat _ => x <- Py.float_ value ;; Ok (Some x)
  | VStr s =>
      let value := Str.strip s in
      if String.eqb value EmptyString
         || existsb (String.eqb (Str.lower value)) ["na"; "n/a"; "nan"]
      then Ok None
      else float_or_none (VStr value)
  | VList _ | VDict _ => float_or_none value
  end.

Definition _safe_int (value : value) : result (option Z) :=
  number <- _safe_float value ;;
  match number with
  | None => Ok None
  | Some x => n <- F.round x ;; Ok (Some n)
  end.

Section Environment.

(** [datetime.fromisoformat], whose grammar depends on the interpreter
    version; [None] stands for its [ValueError]. *)
Variable fromisoformat : string -> option Datetime.date.

(** The loop over the four formats: the first one that parses ends it. *)
Fixpoint first_format (formats : list string) (text : string)
  : result (option Datetime.date) :=
  match formats with
  | [] => Ok None
  | fmt :: rest =>
      match Datetime.strptime text fmt with
      | Ok parsed => Ok (Some parsed)
      | Raise e => if is_ValueError e then first_format rest text else Raise e
      end
  end.

Definition date_formats : list string :=
  ["%Y-%m-%d"; "%d-%m-%Y"; "%Y/%m/%d"; "%d.%m.%Y"].

Definition _format_date (raw_value : value) : result (string * option Z) :=
  if negb (Py.truthy raw_value) then Ok ("Unknown", None)
  else
    match raw_value with
    | VStr raw =>
        let text := Str.strip raw in
        if String.eqb text EmptyString then Ok ("Unknown", None)
        else
          let text := if Str.contains "T" text then Str.split_first "T" text else text in
          parsed <- first_format date_formats text ;;
          match parsed with
          | Some dt => Ok (Datetime.strftime_dmY dt, Some (Datetime.year dt))
          | None =>
              match fromisoformat text with
              | Some dt => Ok (Datetime.strftime_dmY dt, Some (Datetime.year dt))
              | None => Ok (raw, None)
              end
          end
    | _ => Raise AttributeError          (* no [strip] method *)
    end.

(** A point of the ring under construction: a tuple [(lon, lat)] of floats. *)
Definition point : Type := (Py.fobj * Py.fobj)%type.

(** [p != q] for two different tuples. *)
Definition point_ne (p q : point) : bool :=
  negb (Py.same_or_equal (fst p) (fst q) && Py.same_or_equal (snd p) (snd q)).

(** [geometry and geometry[0] != geometry[-1]]; with a single point both
    subscripts denote one and the same tuple, which is never unequal to
    itself. *)
Definition ends_differ (geometry : list point) : bool :=
  match geometry with
  | [] => false
  | [_] => false
  | p :: rest => point_ne p (last rest p)
  end.

(** Lines 179-180: [if ...: geometry.append(geometry[0])]. *)
Definition close_ring (geometry : list point) : list point :=
  if ends_differ geometry
  then match geometry with p :: _ => geometry ++ [p] | [] => geometry end
  else geometry.

Definition point_value (p : point) : float * float :=
  (Py.val (fst p), Py.val (snd p)).

(** The body of [for lat_str, lon_str in shape_raw]. *)
Definition add_point (geometry : list point) (row : value) : result (list point) :=
  '(lat_str, lon_str) <- Py.unpack2 row ;;
  lat <- Py.float_obj lat_str ;;
  lon <- Py.float_obj lon_str ;;
  Ok (geometry ++ [(lon, lat)]).

Definition parse_settlement_page (html : string)
  : result (value * list (float * float)) :=
  match SETTLEMENT_RE html with
  | None => Raise (ValueError "Could not locate settlement payload in page")
  | Some settlement_match =>
      payload <- Json.loads settlement_match ;;
      match SHAPE_RE html with
      | None => Raise (ValueError "Could not locate geometry payload in page")
      | Some shape_match =>
          shape_raw <- Json.loads shape_match ;;
          rows <- Py.iterate shape_raw ;;
          geometry <- for_each add_point rows [] ;;
          Ok (payload, map point_value (close_ring geometry))
      end
  end.

(** [_safe_float(...) or 0]. *)
Definition or_zero (x : option float) : Py.num :=
  match x with
  | Some f => if F.truthy f then Py.NFloat f else Py.NInt 0
  | None => Py.NInt 0
  end.

(** Lines 217-222: the population of a record. *)
Definition derive_population (payload : value) : result (option Z) :=
  estimate <- Py.get payload "section_C/C11_Population_Estimate" ;;
  population <- _safe_int estimate ;;
  let unusable :=          (* [not population or population <= 0] *)
    match population with
    | None => true
    | Some n => (n =? 0) || (n <=? 0)
    end in
  if unusable then
    h <- Py.get payload "section_C/C9_Households" ;;
    households <- _safe_float h ;;
    s <- Py.get payload "section_C/C10_Household_Size" ;;
    hh_size <- _safe_float s ;;
    product <- Py.mul (or_zero households) (or_zero hh_size) ;;
    computed <- Py.int_round product ;;
    Ok (if 0 <? computed then Some computed else None)
  else Ok population.

(** A response of [session.get]: its status code and its text. *)
Record Response : Type := mkResponse { status_code : Z; text : string }.

(** What a request comes to: a response, or a [requests.RequestException]
    with its message. *)
Inductive fetched : Type :=
| Got (response : Response)
| Failed (message : string).

(** [session.get(url, timeout=60)] for the [n]-th request of the run. *)
Variable session_get : Z -> string -> fetched.

(** The two statements under [try]. *)
Definition fetch_and_parse (idx : Z) (settlement : SettlementRecord)
  : result (value * list (float * float)) :=
  match session_get idx (url settlement) with
  | Failed message => Raise (RequestException message)
  | Got response => parse_settlement_page (text response)
  end.

(** The statements after the [try], up to [parsed.append]. *)
Definition build_record (idx : Z) (settlement : SettlementRecord)
  (payload : value) (geometry : list (float * float)) : result ParsedSettlement :=
  a1a <- Py.get payload "section_A/A1a_Last_Updated" ;;
  last_updated <- (if Py.truthy a1a then Ok a1a
                   else Py.get payload "section_A/A1_Profile_Date") ;;
  '(formatted_date, year) <- _format_date last_updated ;;
  population <- derive_population payload ;;
  area <- Py.get payload "section_B/B2b_Area_acres" ;;
  area_acres <- _safe_float area ;;
  total <- Py.get payload "section_C/C5_Structures_Total" ;;
  structures <- _safe_int total ;;
  Ok (mkParsedSettlement idx (city settlement) (name settlement) formatted_date
        year population area_acres structures geometry).

(** The lists the loop fills: [parsed] and [failures].  A failure keeps the
    exception, whose message is what the script stores. *)
Definition batch : Type :=
  (list ParsedSettlement * list (SettlementRecord * exn))%type.

(** One turn of the loop.  The warning printed on a failure and the pause
    after a success leave the two lists as they are. *)
Definition step (acc : batch) (item : Z * SettlementRecord) : result batch :=
  let '(parsed, failures) := acc in
  let '(idx, settlement) := item in
  match fetch_and_parse idx settlement with
  | Raise exc =>
      if is_RequestException exc || is_ValueError exc
      then Ok (parsed, failures ++ [(settlement, exc)])
      else Raise exc
  | Ok (payload, geometry) =>
      record <- build_record idx settlement payload geometry ;;
      Ok (parsed ++ [record], failures)
  end.

(** [enumerate(xs, start)]. *)
Fixpoint enumerate {A : Type} (start : Z) (xs : list A) : list (Z * A) :=
  match xs with
  | [] => []
  | x :: rest => (start, x) :: enumerate (start + 1) rest
  end.

Definition build_parsed_records (settlements : list SettlementRecord)
  : result batch :=
  for_each step (enumerate 1 settlements) ([], []).

(** ** Listing the settlements of a country, writing the records, [main] *)

(** [SETTLEMENT_URL.format(form_id=..., ona_id=...)]. *)
Definition SETTLEMENT_URL (form_id ona_id : string) : string :=
  ("https://sdinet.org/settlement/" ++ form_id ++ "/" ++ ona_id)%string.

(** [str()] of a float, a list or a dict, which this development does not
    spell out. *)
Variable repr : value -> string.

(** The body of [for item in items]. *)
Definition add_settlement (country_key city : string)
  (settlements : list SettlementRecord) (item : value)
  : result (list SettlementRecord) :=
  match item with
  | VDict _ =>
      form_id <- Py.get item "form_id" ;;
      ona_id <- Py.get item "ona_id" ;;
      name <- Py.get_default item "name" (VStr "Unknown") ;;
      if negb (Py.truthy form_id) || negb (Py.truthy ona_id) then Ok settlements
      else
        let url := SETTLEMENT_URL (Py.str_ repr form_id) (Py.str_ repr ona_id) in
        Ok (settlements
            ++ [mkSettlementRecord (Py.str_ repr ona_id) city (Py.str_ repr name)
                  country_key url])
  | _ => Ok settlements                  (* not a dict: [continue] *)
  end.

(** The body of [for city, items in country_entries.items()]. *)
Definition add_city (country_key : string) (settlements : list SettlementRecord)
  (entry : string * value) : result (list SettlementRecord) :=
  let '(city, items) := entry in
  if String.eqb city "info" then Ok settlements
  else
    items <- Py.iterate items ;;
    for_each (add_settlement country_key city) items settlements.

Definition list_country_settlements (payload : value) (country_key : string)
  : result (list SettlementRecord) :=
  verified <- Py.get_default payload "verified" (VDict []) ;;
  present <- Py.contains verified country_key ;;
  if negb present
  then Raise (KeyError ("Country '" ++ country_key ++ "' not found in filter data"))
  else
    country_entries <- Py.getitem verified country_key ;;
    entries <- Py.items country_entries ;;
    for_each (add_city country_key) entries [].

(** The arguments of one [writer.record] call: the nine attribute columns. *)
Record Row : Type := mkRow {
  Id : Z;
  Country : string;
  City : string;
  Settlement : string;
  Last_updat : string;
  kyc_pop : Z;
  kyc_area : float;
  kyc_struct : Z;
  kyc_year : Z
}.

(** [x or 0] for an optional integer. *)
Definition int_or_zero (x : option Z) : Z :=
  match x with
  | Some n => if n =? 0 then 0 else n
  | None => 0
  end.

(** [x or 0.0] for an optional float. *)
Definition float_or_zero (x : option float) : float :=
  match x with
  | Some f => if F.truthy f then f else F.zero
  | None => F.zero
  end.

(** The body of [for record in records]: the row given to [writer.record]
    and the list of rings given to [writer.poly]. *)
Definition shape_of (record : ParsedSettlement)
  : Row * list (list (float * float)) :=
  (mkRow (rec_id record) "Nigeria" (parsed_city record) (parsed_name record)
         (last_updated record) (int_or_zero (population record))
         (float_or_zero (area_acres record)) (int_or_zero (structures record))
         (int_or_zero (year record)),
   [geometry record]).

(** What [write_shapefile] hands to the shapefile writer, in order.  The
    writer itself, the two companion files and the archive are outside this
    development. *)
Definition write_shapefile (records : list ParsedSettlement)
  : list (Row * list (list (float * float))) :=
  map shape_of records.

(** [fetch_filter_payload()]: the decoded answer of the filter endpoint, or
    the exception of the request. *)
Variable fetch_filter_payload : result value.

(** How [main] ends when nothing is raised: the shapes written and the
    number of settlements skipped, or [SystemExit] with its message. *)
Inductive ending : Type :=
| Wrote (shapes : list (Row * list (list (float * float)))) (skipped : nat)
| SystemExit (message : string).

(** [main()] for the value [country] of [--country]. *)
Definition main (country : string) : result ending :=
  payload <- fetch_filter_payload ;;
  settlements <- list_country_settlements payload country ;;
  match settlements with
  | [] => Ok (SystemExit ("No settlements found for country '" ++ country ++ "'"))
  | _ =>
      '(parsed_records, failures) <- build_parsed_records settlements ;;
      match parsed_records with
      | [] => Ok (SystemExit "No settlements could be downloaded successfully")
      | _ => Ok (Wrote (write_shapefile parsed_records) (List.length failures))
      end
  end.

End Environment.

End Settlements.

(* ================================================================== *)
(** * tools/extract_atlas_of_informality.py *)
(* ================================================================== *)

Module Atlas.

(** The two functions of the C mathematics library the script reaches
    through [math.exp] and [math.atan]. *)
Record Libm : Type := mkLibm {
  c_exp : float -> float;
  c_atan : float -> float
}.

(** How the [math] module wraps a function of one argument: a NaN result for
    a number, or an infinite result for a finite argument, is an error; the
    latter is an [OverflowError] for functions that may overflow.  ([errno] is
    only looked at for finite results, where it reports an underflow, which
    the wrapper ignores.) *)
Definition math_1 (func : float -> float) (can_overflow : bool) (x : float)
  : result float :=
  let r := func x in
  if F.is_nan r && negb (F.is_nan x) then Raise (ValueError "math domain error")
  else if F.is_inf r && F.is_finite x then
    (if can_overflow then Raise OverflowError
     else Raise (ValueError "math domain error"))
  else Ok r.

Definition math_exp (L : Libm) : float -> result float := math_1 (c_exp L) true.
Definition math_atan (L : Libm) : float -> result float := math_1 (c_atan L) false.

(** [2 * math.pi * 6378137 / 2.0]. *)
Definition ORIGIN_SHIFT : float :=
  F.div (F.mul (F.mul (F.nearest 2) F.pi) (F.nearest 6378137)) (F.nearest 2).

Definition f180 : float := F.nearest 180.
Definition f2 : float := F.nearest 2.

Definition mercator_to_lonlat (L : Libm) (x y : value) : result (float * float) :=
  xf <- Py.operand x ;;
  qx <- Py.truediv xf ORIGIN_SHIFT ;;
  let lon := F.mul qx f180 in
  yf <- Py.operand y ;;
  qy <- Py.truediv yf ORIGIN_SHIFT ;;
  let lat := F.mul qy f180 in
  scale <- Py.truediv f180 F.pi ;;
  radians <- Py.truediv (F.mul lat F.pi) f180 ;;
  e <- math_exp L radians ;;
  a <- math_atan L e ;;
  half_pi <- Py.truediv F.pi f2 ;;
  let lat := F.mul scale (F.sub (F.mul f2 a) half_pi) in
  Ok (lon, lat).

(** [re.sub("[^a-z0-9]+", "_", text)]: every maximal run of other characters
    becomes one underscore. *)
Definition is_slug_char (c : ascii) : bool :=
  Str.in_range 97 122 c || Str.is_digit c.

Fixpoint collapse (in_run : bool) (s : list ascii) : list ascii :=
  match s with
  | [] => []
  | c :: s' =>
      if is_slug_char c then c :: collapse false s'
      else if in_run then collapse true s'
      else "_"%char :: collapse true s'
  end.

Definition sanitize_name (name : value) : result string :=
  match name with
  | VStr text =>
      let slug := Str.strip_underscores (Str.of_chars (collapse false (Str.chars (Str.lower text)))) in
      Ok (if String.eqb slug EmptyString then "layer" else slug)
  | _ => Raise AttributeError           (* no [lower] method *)
  end.

(** The body of [for x, y in path]: [line.append([lon, lat])]. *)
Definition add_vertex (L : Libm) (line : list value) (pt : value)
  : result (list value) :=
  '(x, y) <- Py.unpack2 pt ;;
  '(lon, lat) <- mercator_to_lonlat L x y ;;
  Ok (line ++ [VList [VFloat lon; VFloat lat]]).

(** The body of [for path in paths] and of [for ring in rings]: convert the
    points, and keep the line when it is not empty. *)
Definition add_line (L : Libm) (lines : list value) (path : value)
  : result (list value) :=
  pts <- Py.iterate path ;;
  line <- for_each (add_vertex L) pts [] ;;
  Ok (match line with [] => lines | _ => lines ++ [VList line] end).

Definition geojson (type : string) (coordinates : value) : value :=
  VDict [("type", VStr type); ("coordinates", coordinates)].

(** The text of the final [ValueError]; a discriminant that is not a string
    is shown by its [repr], which is left out here. *)
Definition unsupported (geometry_type : value) : exn :=
  ValueError (match geometry_type with
              | VStr s => "Unsupported geometry type: " ++ s
              | _ => "Unsupported geometry type: "
              end)%string.

(** The result is [None] for Python's [None]. *)
Definition convert_geometry (L : Libm) (geometry geometry_type : value)
  : result (option value) :=
  if negb (Py.truthy geometry) then Ok None
  else if Py.eq_str geometry_type "esriGeometryPoint" then
    x <- Py.getitem geometry "x" ;;
    y <- Py.getitem geometry "y" ;;
    '(lon, lat) <- mercator_to_lonlat L x y ;;
    Ok (Some (geojson "Point" (VList [VFloat lon; VFloat lat])))
  else if Py.eq_str geometry_type "esriGeometryPolyline" then
    paths <- Py.get_default geometry "paths" (VList []) ;;
    paths <- Py.iterate paths ;;
    line_strings <- for_each (add_line L) paths [] ;;
    match line_strings with
    | [] => Ok None
    | [line] => Ok (Some (geojson "LineString" line))
    | _ => Ok (Some (geojson "MultiLineString" (VList line_strings)))
    end
  else if Py.eq_str geometry_type "esriGeometryPolygon" then
    rings <- Py.get_default geometry "rings" (VList []) ;;
    rings <- Py.iterate rings ;;
    converted <- for_each (add_line L) rings [] ;;
    match converted with
    | [] => Ok None
    | [_] => Ok (Some (geojson "Polygon" (VList converted)))
    | _ =>
        Ok (Some (geojson "MultiPolygon"
                    (VList (map (fun ring => VList [ring]) converted))))
    end
  else Raise (unsupported geometry_type).

(** The body of [for feature in features]. *)
Definition add_feature (L : Libm) (geometry_type : value)
  (geojson_features : list value) (feature : value) : result (list value) :=
  g <- Py.get_default feature "geometry" (VDict []) ;;
  geometry <- convert_geometry L g geometry_type ;;
  match geometry with
  | None => Ok geojson_features
  | Some geometry =>
      a <- Py.get_default feature "attributes" (VDict []) ;;
      let properties := Py.or_ a (VDict []) in
      Ok (geojson_features
          ++ [VDict [("type", VStr "Feature"); ("geometry", geometry);
                     ("properties", properties)]])
  end.

(** The file written for a layer, when there is one: its name under
    [out_dir], and the document that is serialised into it. *)
Definition export_feature_collection (L : Libm) (layer fc_layer : value)
  (source_app_id : string) : result (option (string * value)) :=
  layer_def <- Py.get_default fc_layer "layerDefinition" (VDict []) ;;
  feature_set <- Py.get_default fc_layer "featureSet" (VDict []) ;;
  geometry_type <- Py.get layer_def "geometryType" ;;
  features <- Py.get_default feature_set "features" (VList []) ;;
  n <- Py.get layer_def "name" ;;
  layer_name <-
    (if Py.truthy n then Ok n
     else t <- Py.get layer "title" ;;
          if Py.truthy t then Ok t
          else i <- Py.get layer "id" ;; Ok (Py.or_ i (VStr "layer"))) ;;
  slug <- sanitize_name layer_name ;;
  let file_name := ("atlas_of_informality_" ++ slug ++ ".geojson")%string in
  features <- Py.iterate features ;;
  geojson_features <- for_each (add_feature L geometry_type) features [] ;;
  match geojson_features with
  | [] => Ok None
  | _ =>
      id <- Py.get layer "id" ;;
      title <- Py.get layer "title" ;;
      Ok (Some (file_name,
                VDict [("type", VStr "FeatureCollection");
                       ("features", VList geojson_features);
                       ("metadata",
                        VDict [("source_app_id", VStr source_app_id);
                               ("source_layer_id", id);
                               ("source_layer_title", title);
                               ("geometry_type", geometry_type);
                               ("feature_count",
                                VInt (Z.of_nat (List.length geojson_features)))])]))
  end.

(** The body of [for fc_layer in feature_collection.get("layers", [])]. *)
Definition add_sublayer (L : Libm) (layer : value)
  (exported_paths : list (string * value)) (fc_layer : value)
  : result (list (string * value)) :=
  layer_def <- Py.get_default fc_layer "layerDefinition" (VDict []) ;;
  declared <- Py.get layer_def "geometryType" ;;
  geometry_type <-
    match Py.or_ declared (VStr EmptyString) with
    | VStr s => Ok (Str.strip s)
    | _ => Raise AttributeError          (* no [strip] method *)
    end ;;
  if String.eqb geometry_type EmptyString then Ok exported_paths
  else
    exported <- export_feature_collection L layer fc_layer
                  "110e3d637cce4fe7bc41c4e5cd3f9d21" ;;
    match exported with
    | Some file => Ok (exported_paths ++ [file])
    | None => Ok exported_paths
    end.

(** The body of [for layer in data.get("operationalLayers", [])]. *)
Definition add_layer (L : Libm) (exported_paths : list (string * value))
  (layer : value) : result (list (string * value)) :=
  feature_collection <- Py.get layer "featureCollection" ;;
  if negb (Py.truthy feature_collection) then Ok exported_paths
  else
    layers <- Py.get_default feature_collection "layers" (VList []) ;;
    layers <- Py.iterate layers ;;
    for_each (add_sublayer L layer) layers exported_paths.

(** [process_webmap] on the text of the input file: the files exported, in
    order, each with the document written into it. *)
Definition process_webmap (L : Libm) (text : string)
  : result (list (string * value)) :=
  data <- Json.loads text ;;
  layers <- Py.get_default data "operationalLayers" (VList []) ;;
  layers <- Py.iterate layers ;;
  for_each (add_layer L) layers [].

End Atlas.

(* ================================================================== *)
(** * Specifications and examples

    The properties proved below are stated with the definitions of this
    part: the behaviour as the specification words it, the shapes of
    well-formed input, and example documents. *)
(* ================================================================== *)

(** Example documents are written with an apostrophe for each quotation
    mark of JSON. *)
Definition js (s : string) : string :=
  Str.of_chars (map (fun c => if Ascii.eqb c "'" then Json.quote else c) (Str.chars s)).

Module Coercion.
Import Settlements.

(** A float whose value is [n + 1/2], with either sign. *)
Definition half_way (neg : bool) (n : positive) : float :=
  S754_finite neg (n~1) (-1).

End Coercion.

Module Population.
Import Settlements.

(** The derivation as the specification words it, with coercions that are
    total, as the specification has them. *)

(** [coerce_float]: the float of a number or of a numeric text; no value
    for [None], for a text that is blank or one of the words na, n/a and nan
    in any case, and for everything else that is not numeric.  The float of
    an integer is the nearest one, infinite beyond the range of the
    floats. *)
Definition coerce_float (v : value) : option float :=
  match v with
  | VNone => None
  | VBool b => Some (if b then F.nearest 1 else F.zero)
  | VInt z => Some (F.nearest z)
  | VFloat f => Some f
  | VStr s =>
      let text := Str.strip s in
      if String.eqb text EmptyString
         || existsb (String.eqb (Str.lower text)) ["na"; "n/a"; "nan"]
      then None
      else Py.float_of_chars (Str.chars text)
  | VList _ | VDict _ => None
  end.

(** The integer nearest to a float, the even one of two that are equally
    near.  An infinite float and one that is not a number have none. *)
Definition nearest_integer (x : float) : option Z :=
  match x with
  | S754_zero _ => Some 0
  | S754_finite s m e =>
      Some (cond_Zopp s (if 0 <=? e then Zpos m * 2 ^ e
                         else F.round_half_even (Zpos m) (- e)))
  | S754_infinity _ | S754_nan => None
  end.

(** [coerce_int]: [coerce_float], then the nearest integer; no value stays
    no value. *)
Definition coerce_int (v : value) : option Z :=
  match coerce_float v with
  | Some x => nearest_integer x
  | None => None
  end.

(** A field of the payload, [None] when it is missing. *)
Definition field (payload : value) (key : string) : value :=
  match payload with
  | VDict d => match Py.assoc key d with Some v => v | None => VNone end
  | _ => VNone
  end.

(** A factor that is missing counts as zero. *)
Definition factor (x : option float) : float :=
  match x with
  | Some f => f
  | None => F.zero
  end.

(** A value that is strictly positive, no value otherwise. *)
Definition strictly_positive (n : option Z) : option Z :=
  match n with
  | Some k => if 0 <? k then Some k else None
  | None => None
  end.

(** [round(households * household_size)], kept when strictly positive. *)
Definition derived_population (payload : value) : option Z :=
  strictly_positive
    (nearest_integer
       (F.mul (factor (coerce_float (field payload "section_C/C9_Households")))
              (factor (coerce_float (field payload "section_C/C10_Household_Size"))))).

(** The explicit estimate when its coercion is strictly positive, the
    derived value otherwise. *)
Definition population_spec (payload : value) : option Z :=
  match strictly_positive
          (coerce_int (field payload "section_C/C11_Population_Estimate")) with
  | Some n => Some n
  | None => derived_population payload
  end.

Definition payload_of (fields : list (string * value)) : value := VDict fields.

(** Households that are minus infinity, three to a household. *)
Definition infinite_households : value :=
  payload_of [("section_C/C9_Households", VStr "-inf");
              ("section_C/C10_Household_Size", VStr "3")].

(** Households that are infinite and no household size: the product of
    infinity and zero is not a number. *)
Definition households_without_size : value :=
  payload_of [("section_C/C9_Households", VStr "inf")].

End Population.

Module Dates.
Import Settlements.




End Dates.

Module Rings.
Import Settlements.

(** Equality of two coordinates of a ring as [==] on its points sees it:
    equal floats, or one and the same NaN. *)
Definition coord_same (a b : float) : bool :=
  F.eqb a b || (F.is_nan a && F.is_nan b).

Definition same_point (p q : float * float) : bool :=
  coord_same (fst p) (fst q) && coord_same (snd p) (snd q).

(** A ring is closed when its first point equals its last. *)
Definition closed (ring : list (float * float)) : Prop :=
  match ring with
  | [] => True
  | p :: _ => same_point p (last ring p) = true
  end.

(** A row of the coordinate array: a latitude and a longitude, as text. *)
Definition row (p : string * string) : value := VList [VStr (fst p); VStr (snd p)].

Definition numeric (s : string) : Prop := exists x, Py.float_ (VStr s) = Ok x.

Definition float_of (s : string) : float :=
  match Py.float_ (VStr s) with
  | Ok x => x
  | Raise _ => F.nan
  end.

Definition swapped (p : string * string) : point :=
  (Py.Fresh (float_of (snd p)), Py.Fresh (float_of (fst p))).

(** A page with three corners. *)
Definition sample_page : string :=
  js "<script>var settlement = {'section_A/A1_Profile_Date': '2019-07-01'};
      var shape = [['6.5','3.3'],['6.6','3.4'],['6.5','3.5']];</script>".

Definition sample_pairs : list (string * string) :=
  [("6.5", "3.3"); ("6.6", "3.4"); ("6.5", "3.5")].

End Rings.

Module Mercator.
Import Atlas.

(** [pi * 6378137], half the circumference of the EPSG:3857 world. *)
Definition R : float := F.mul F.pi (F.nearest 6378137).

Definition lon_of (x : float) : float := F.mul (F.div x R) f180.

(** The argument of [exp]: [((y / R) * 180) * pi / 180]. *)
Definition radians_of (y : float) : float :=
  F.div (F.mul (F.mul (F.div y R) f180) F.pi) f180.

(** [180/pi * (2 * a - pi/2)] for the arc tangent [a]. *)
Definition lat_of (a : float) : float :=
  F.mul (F.div f180 F.pi) (F.sub (F.mul f2 a) (F.div F.pi f2)).

(** What every binary64 mathematics library does beyond 710, where the
    exponential exceeds the largest float: it returns the infinity. *)
Definition exp_overflows (L : Libm) : Prop :=
  forall x, F.ltb (F.nearest 710) x = true -> c_exp L x = F.inf.

(** A library given by the values all libraries agree on: [exp 0 = 1],
    the overflow of [exp], [atan 1 = pi/4]; elsewhere it answers NaN, which
    [math_1] turns into an error, so that an evaluation that returns has
    used those values only. *)
Definition quarter_pi : float := S754_finite false 7074237752028440 (-53).

Definition table_libm : Libm :=
  {| c_exp := fun x => if F.is_zero x then F.nearest 1
                       else if F.ltb (F.nearest 710) x then F.inf else F.nan;
     c_atan := fun x => if F.eqb x (F.nearest 1) then quarter_pi else F.nan |}.

(** 5e9 metres, a finite ordinate, some 250 times the extent of the map. *)
Definition far_north : float := F.of_decimal false 5 9.

End Mercator.

Module Geometry.
Import Atlas.

(** Well-formed input: paths and rings of points [(x, y)]. *)
Definition esri_point (p : value * value) : value := VList [fst p; snd p].

Definition esri_line (path : list (value * value)) : value :=
  VList (map esri_point path).

Definition esri_lines (paths : list (list (value * value))) : value :=
  VList (map esri_line paths).

(** The conversion as the specification words it. *)
Fixpoint map_result {A B : Type} (f : A -> result B) (l : list A) : result (list B) :=
  match l with
  | [] => Ok []
  | a :: l' => b <- f a ;; bs <- map_result f l' ;; Ok (b :: bs)
  end.

Definition convert_point (L : Libm) (p : value * value) : result value :=
  '(lon, lat) <- mercator_to_lonlat L (fst p) (snd p) ;;
  Ok (VList [VFloat lon; VFloat lat]).

(** Each path becomes a line, point by point. *)
Definition convert_path (L : Libm) (path : list (value * value))
  : result (list value) :=
  map_result (convert_point L) path.

(** The lines that are left once the empty ones are dropped. *)
Definition survivors (lines : list (list value)) : list (list value) :=
  filter (fun line => negb (Nat.eqb (List.length line) 0)) lines.

(** None, one, or several lines. *)
Definition polyline_of (lines : list (list value)) : option value :=
  if Nat.eqb (List.length lines) 0 then None
  else if Nat.eqb (List.length lines) 1
       then Some (geojson "LineString" (VList (hd [] lines)))
       else Some (geojson "MultiLineString" (VList (map VList lines))).

(** None, one, or several rings; of several, each is a polygon of its own. *)
Definition polygon_of (rings : list (list value)) : option value :=
  if Nat.eqb (List.length rings) 0 then None
  else if Nat.eqb (List.length rings) 1
       then Some (geojson "Polygon" (VList [VList (hd [] rings)]))
       else Some (geojson "MultiPolygon"
                    (VList (map (fun ring => VList [VList ring]) rings))).

(** Two lines on the equator and an empty path between them. *)
Definition sample_lines : list (list (value * value)) :=
  [ [(VInt 0, VInt 0); (VInt 1000, VInt 0)]; []; [(VInt 5, VInt 0)] ].

Definition decoded (text : string) : value :=
  match Json.loads (js text) with
  | Ok v => v
  | Raise _ => VNone
  end.

Definition supported (geometry_type : value) : bool :=
  Py.eq_str geometry_type "esriGeometryPoint"
  || Py.eq_str geometry_type "esriGeometryPolyline"
  || Py.eq_str geometry_type "esriGeometryPolygon".

(** The discriminant [export_feature_collection] reads from a sub-layer. *)
Definition layer_geometry_type (fc_layer : value) : result value :=
  layer_def <- Py.get_default fc_layer "layerDefinition" (VDict []) ;;
  Py.get layer_def "geometryType".

(** A layer of multipoints with two features. *)
Definition multipoint_layer : value :=
  decoded "{'layerDefinition': {'geometryType': 'esriGeometryMultipoint', 'name': 'Sites'},
            'featureSet': {'features': [
               {'geometry': {'points': [[0, 0], [1000, 0]]}, 'attributes': {'id': 1}},
               {'geometry': {'points': [[5, 0]]}, 'attributes': {'id': 2}}]}}".

Definition operational_layer : value := decoded "{'id': 'layer-1', 'title': 'Sites'}".

(** [out] is the converted point [pt]. *)
Definition converted (L : Libm) (pt out : value) : Prop :=
  exists x y lon lat,
    Py.unpack2 pt = Ok (x, y)
    /\ mercator_to_lonlat L x y = Ok (lon, lat)
    /\ out = VList [VFloat lon; VFloat lat].

End Geometry.

Module Closure.
Import Settlements.

(** A page whose ring is given by three corners, the first not repeated. *)
Definition open_ring_page : string :=
  js "<script>var settlement = {'section_A/A1_Profile_Date': '2019-07-01'};
      var shape = [['6.5','3.3'],['6.6','3.4'],['6.5','3.5']];</script>".

Definition corner (lat lon : string) : float * float :=
  (Rings.float_of lon, Rings.float_of lat).

End Closure.

Module Batch.
Import Settlements.

Section Run.

Variable fromisoformat : string -> option Datetime.date.
Variable session_get : Z -> string -> fetched.

Local Abbreviation build_record := (Settlements.build_record fromisoformat).

(** What the [try] block comes to for an item of the enumeration. *)
Definition tried (item : Z * SettlementRecord) : result (value * list (float * float)) :=
  fetch_and_parse session_get (fst item) (snd item).

(** The exceptions the two handlers catch. *)
Definition caught (e : exn) : bool := is_RequestException e || is_ValueError e.

Definition successes_of (items : list (Z * SettlementRecord))
  : list (Z * SettlementRecord) :=
  filter (fun item => returns (tried item)) items.

Definition failures_of (items : list (Z * SettlementRecord))
  : list (SettlementRecord * exn) :=
  flat_map (fun item => match tried item with
                        | Ok _ => []
                        | Raise e => [(snd item, e)]
                        end) items.

(** [r] is the record of the enumerated item: its id is the number of the
    item, its city and name are the item's. *)
Definition record_of (item : Z * SettlementRecord) (r : ParsedSettlement) : Prop :=
  rec_id r = fst item
  /\ parsed_city r = city (snd item)
  /\ parsed_name r = name (snd item).

(** An item that does not end the run: its failure is one the handlers
    catch, or else its record can be built. *)
Definition settles (item : Z * SettlementRecord) : Prop :=
  match tried item with
  | Raise e => caught e = true
  | Ok (payload, geometry) =>
      exists r, build_record (fst item) (snd item) payload geometry = Ok r
  end.

End Run.

Definition page_with_shape : string :=
  js "<html><script>
      var settlement = {'section_A/A1a_Last_Updated': '2024-03-05T10:00:00',
                        'section_C/C11_Population_Estimate': '0',
                        'section_C/C9_Households': '120',
                        'section_C/C10_Household_Size': 4.5,
                        'section_B/B2b_Area_acres': '3.7',
                        'section_C/C5_Structures_Total': 'n/a'};
      var shape = [['6.5','3.3'],['6.6','3.4'],['6.5','3.5']];
      </script></html>".

Definition page_without_shape : string :=
  js "<html><script>
      var settlement = {'section_A/A1a_Last_Updated': '2024-03-05T10:00:00'};
      </script></html>".

Definition item (n : string) : SettlementRecord :=
  mkSettlementRecord n "Lagos" ("Settlement " ++ n) "Nigeria"
                     ("https://sdinet.org/settlement/1847/" ++ n).

Definition three_items : list SettlementRecord := [item "101"; item "102"; item "103"].

(** Every request is answered; the page of item 102 has no geometry. *)
Definition network (n : Z) (url : string) : fetched :=
  if String.eqb url "https://sdinet.org/settlement/1847/102"
  then Got (mkResponse 200 page_without_shape)
  else Got (mkResponse 200 page_with_shape).

Definition no_iso (text : string) : option Datetime.date := None.

Definition three_items_batch : batch :=
  Eval vm_compute in
    match build_parsed_records no_iso network three_items with
    | Ok out => out
    | Raise _ => ([], [])
    end.

End Batch.

Module Listing.
Import Settlements.

(** What a loop over [v] goes through, nothing when [v] cannot be iterated. *)
Definition elements (v : value) : list value :=
  match Py.iterate v with
  | Ok l => l
  | Raise _ => []
  end.

(** Every city of a country, the pseudo-city ["info"] apart, holds something
    that can be iterated: the list of its entries. *)
Definition cities_iterable (entries : list (string * value)) : Prop :=
  Forall (fun c => fst c = "info" \/ exists l, Py.iterate (snd c) = Ok l) entries.

(** The record of an entry that has both ids, none otherwise. *)
Definition listed (repr : value -> string) (country_key city : string) (item : value)
  : list SettlementRecord :=
  match item with
  | VDict d =>
      match Py.assoc "form_id" d, Py.assoc "ona_id" d with
      | Some form_id, Some ona_id =>
          if Py.truthy form_id && Py.truthy ona_id
          then [mkSettlementRecord (Py.str_ repr ona_id) city
                  (Py.str_ repr (match Py.assoc "name" d with
                                 | Some n => n
                                 | None => VStr "Unknown"
                                 end))
                  country_key
                  (SETTLEMENT_URL (Py.str_ repr form_id) (Py.str_ repr ona_id))]
          else []
      | _, _ => []
      end
  | _ => []
  end.

(** City by city and entry by entry, in the order of the payload, leaving
    out the pseudo-city ["info"]. *)
Definition listing (repr : value -> string) (country_key : string)
  (entries : list (string * value)) : list SettlementRecord :=
  flat_map (fun c => if String.eqb (fst c) "info" then []
                     else flat_map (listed repr country_key (fst c)) (elements (snd c)))
           entries.

(** [r] was made for [country_key] from two ids. *)
Definition well_listed (country_key : string) (r : SettlementRecord) : Prop :=
  country r = country_key
  /\ city r <> "info"
  /\ exists form_id, url r = SETTLEMENT_URL form_id (settlement_id r).

(** The exceptions of [list_country_settlements] for the country
    [country_key]. *)
Definition listing_error (country_key : string) (e : exn) : Prop :=
  e = KeyError ("Country '" ++ country_key ++ "' not found in filter data")
  \/ e = AttributeError \/ e = TypeError.

(** The filter data of two countries; one entry of Lagos has no form id,
    and the ids of Abuja are numbers. *)
Definition filter_data : value :=
  Geometry.decoded
    "{'verified': {'Nigeria': {'info': {'count': 3},
                               'Lagos': [{'form_id': '1847', 'ona_id': '101', 'name': 'Settlement 101'},
                                         {'ona_id': '999', 'name': 'No form'},
                                         {'form_id': '1847', 'ona_id': '102'}],
                               'Abuja': [{'form_id': 1847, 'ona_id': 103, 'name': 'Settlement 103'}]},
                   'Kenya': {'Nairobi': [{'form_id': '1847', 'ona_id': '101', 'name': 'Mathare'}]}}}".

(** No float, list or dict is printed in the examples. *)
Definition no_repr (v : value) : string := "?".

Definition verified_countries : list (string * value) :=
  Eval vm_compute in
    match Py.get_default filter_data "verified" (VDict []) with
    | Ok (VDict d) => d
    | _ => []
    end.

Definition nigeria_entries : list (string * value) :=
  Eval vm_compute in
    match Py.assoc "Nigeria" verified_countries with
    | Some (VDict d) => d
    | _ => []
    end.

Definition nigeria_settlements : list SettlementRecord :=
  Eval vm_compute in
    match list_country_settlements no_repr filter_data "Nigeria" with
    | Ok l => l
    | Raise _ => []
    end.

End Listing.

Module Rereading.
Import Settlements.

(** The four characters of a year and what they stand for. *)
Definition year_digits_ok (y : Z) : bool :=
  match Str.decimal y with
  | [a; b; c; d] =>
      forallb Str.is_digit [a; b; c; d] && (Py.digits_value [a; b; c; d] =? y)
  | _ => false
  end.

(** The integers from [first] to [last]. *)
Definition numbers (first last : Z) : list Z :=
  map (fun n => first + Z.of_nat n) (seq 0 (Z.to_nat (last - first + 1))).

(** The ten digits. *)
Definition digit_chars : list ascii := Str.chars "0123456789".

End Rereading.

Module Download.
Import Settlements.

(** A value that has no [strip] method although it is true: what
    [_format_date] cannot handle. *)
Definition true_but_no_text (v : value) : Prop :=
  Py.truthy v = true /\ forall s, v <> VStr s.

(** The value [build_parsed_records] hands to [_format_date]. *)
Definition date_field (payload : value) : result value :=
  a1a <- Py.get payload "section_A/A1a_Last_Updated" ;;
  if Py.truthy a1a then Ok a1a else Py.get payload "section_A/A1_Profile_Date".

(** What holds of every record the batch builds. *)
Definition sound_record (r : ParsedSettlement) : Prop :=
  last_updated r <> EmptyString
  /\ (forall n, population r = Some n -> 0 < n).

(** What holds of every shape [main] writes. *)
Definition sound_shape (sh : Row * list (list (float * float))) : Prop :=
  Country (fst sh) = "Nigeria"
  /\ Last_updat (fst sh) <> EmptyString
  /\ 0 <= kyc_pop (fst sh)
  /\ exists ring, snd sh = [ring].

(** A page whose date is a number. *)
Definition page_with_numeric_date : string :=
  js "<script>var settlement = {'section_A/A1a_Last_Updated': 2019};
      var shape = [['6.5','3.3'],['6.6','3.4'],['6.5','3.5']];</script>".

Definition numeric_date_network (n : Z) (url : string) : fetched :=
  if String.eqb url "https://sdinet.org/settlement/1847/102"
  then Got (mkResponse 200 page_with_numeric_date)
  else Got (mkResponse 200 Batch.page_with_shape).

(** No request is answered. *)
Definition dead_network (n : Z) (url : string) : fetched := Failed "timed out".

(** [main] on the filter data of [Listing.filter_data], with the requests
    answered by [session_get]. *)
Definition example_main (session_get : Z -> string -> fetched) (country : string)
  : result ending :=
  main Batch.no_iso session_get Listing.no_repr (Ok Listing.filter_data) country.

(** The shapes of a run that wrote some. *)
Definition shapes_of (run : result ending) : list (Row * list (list (float * float))) :=
  match run with
  | Ok (Wrote shapes _) => shapes
  | _ => []
  end.

Definition nigeria_shapes : list (Row * list (list (float * float))) :=
  Eval vm_compute in shapes_of (example_main Batch.network "Nigeria").

Definition kenya_shapes : list (Row * list (list (float * float))) :=
  Eval vm_compute in shapes_of (example_main Batch.network "Kenya").

End Download.

Module Pages.
Import Settlements.

(** The exceptions of the loop over the coordinates that the batch does not
    catch. *)
Definition ends_the_run (e : exn) : Prop := e = TypeError \/ e = OverflowError.

(** [e] is what [json.loads] raised on one of the two groups of the page. *)
Definition decoding_error (html : string) (e : exn) : Prop :=
  exists group,
    (SETTLEMENT_RE html = Some group \/ SHAPE_RE html = Some group)
    /\ Json.loads group = Raise e.

(** The exceptions raised after the [try] block, where nothing is caught. *)
Definition record_error (e : exn) : Prop :=
  e = AttributeError \/ e = OverflowError
  \/ e = ValueError "cannot convert float NaN to integer".

(** A page with a coordinate that is null. *)
Definition page_with_null_coordinate : string :=
  js "<script>var settlement = {'section_A/A1_Profile_Date': '2019-07-01'};
      var shape = [['6.5','3.3'],[null,'3.4']];</script>".

Definition open_ring : list (float * float) :=
  Eval vm_compute in
    match parse_settlement_page Closure.open_ring_page with
    | Ok (_, ring) => ring
    | Raise _ => []
    end.

End Pages.

Module Slug.
Import Atlas.

Definition is_underscore (c : ascii) : bool := Ascii.eqb "_" c.

(** Lower-case letters, digits and underscores, with no two underscores in
    a row; [after_underscore] tells that an underscore came just before. *)
Fixpoint single_underscores (after_underscore : bool) (s : list ascii) : bool :=
  match s with
  | [] => true
  | c :: s' =>
      if is_slug_char c then single_underscores false s'
      else is_underscore c && negb after_underscore && single_underscores true s'
  end.

(** The same, and no underscore at the end.  From [true], the text is not
    empty and has no underscore at its start either. *)
Fixpoint well_formed (after_underscore : bool) (s : list ascii) : bool :=
  match s with
  | [] => negb after_underscore
  | c :: s' =>
      if is_slug_char c then well_formed false s'
      else is_underscore c && negb after_underscore && well_formed true s'
  end.

(** A slug: not empty, made of lower-case letters, digits and underscores,
    each underscore between two of the others. *)
Definition is_slug (s : string) : bool := well_formed true (Str.chars s).

(** [s] without its leading underscores. *)
Fixpoint drop_leading (s : list ascii) : list ascii :=
  match s with
  | [] => []
  | c :: s' => if is_underscore c then drop_leading s' else s
  end.

(** [s] without its trailing underscores. *)
Fixpoint drop_trailing (s : list ascii) : list ascii :=
  match s with
  | [] => []
  | c :: s' =>
      match drop_trailing s' with
      | [] => if is_underscore c then [] else [c]
      | kept => c :: kept
      end
  end.

End Slug.

Module Webmap.
Import Atlas.

(** The types of the geometries [convert_geometry] makes. *)
Definition geojson_types : list string :=
  ["Point"; "LineString"; "MultiLineString"; "Polygon"; "MultiPolygon"].

(** A feature of the output: it has a geometry of one of the five types. *)
Definition is_feature (f : value) : Prop :=
  exists type coordinates properties,
    In type geojson_types
    /\ f = VDict [("type", VStr "Feature");
                  ("geometry", geojson type coordinates);
                  ("properties", properties)].

(** [doc["metadata"][key]]. *)
Definition metadata (doc : value) (key : string) : result value :=
  m <- Py.getitem doc "metadata" ;; Py.getitem m key.

(** A file as [export_feature_collection] writes it: named after a slug,
    holding at least one feature, every feature with its geometry, and the
    count of the features in its metadata. *)
Definition well_written (source_app_id : string) (file : string * value) : Prop :=
  exists slug features,
    Slug.is_slug slug = true
    /\ fst file = ("atlas_of_informality_" ++ slug ++ ".geojson")%string
    /\ Py.getitem (snd file) "type" = Ok (VStr "FeatureCollection")
    /\ Py.getitem (snd file) "features" = Ok (VList features)
    /\ features <> []
    /\ Forall is_feature features
    /\ metadata (snd file) "feature_count" = Ok (VInt (Z.of_nat (List.length features)))
    /\ metadata (snd file) "source_app_id" = Ok (VStr source_app_id).

(** The identifier [process_webmap] passes on. *)
Definition atlas_app_id : string := "110e3d637cce4fe7bc41c4e5cd3f9d21".

(** A web map of three layers: one without a feature collection, one whose
    sub-layer has no geometry type, one with two points and a feature
    without geometry. *)
Definition sample_webmap : string :=
  js "{'operationalLayers': [
        {'id': 'base', 'title': 'Base map'},
        {'id': 'notes', 'featureCollection': {'layers': [
            {'layerDefinition': {'name': 'Notes'},
             'featureSet': {'features': [{'geometry': {'x': 0, 'y': 0}}]}}]}},
        {'id': 'sites', 'title': 'Sites', 'featureCollection': {'layers': [
            {'layerDefinition': {'geometryType': 'esriGeometryPoint',
                                 'name': 'Informal Settlements (2019)'},
             'featureSet': {'features': [
                {'geometry': {'x': 0, 'y': 0}, 'attributes': {'name': 'A'}},
                {'attributes': {'name': 'B'}},
                {'geometry': {'x': 1000, 'y': 0}, 'attributes': null}]}}]}}]}".

(** The layer of sites of the sample and its sub-layer. *)
Definition sites_layer : value := Geometry.decoded "{'id': 'sites', 'title': 'Sites'}".

Definition sites_sublayer : value :=
  Geometry.decoded
    "{'layerDefinition': {'geometryType': 'esriGeometryPoint',
                          'name': 'Informal Settlements (2019)'},
      'featureSet': {'features': [
         {'geometry': {'x': 0, 'y': 0}, 'attributes': {'name': 'A'}},
         {'attributes': {'name': 'B'}},
         {'geometry': {'x': 1000, 'y': 0}, 'attributes': null}]}}".

Definition sites_file : string * value :=
  Eval vm_compute in
    match export_feature_collection Mercator.table_libm sites_layer sites_sublayer
            atlas_app_id with
    | Ok (Some file) => file
    | _ => (EmptyString, VNone)
    end.

Definition sample_files : list (string * value) :=
  Eval vm_compute in
    match process_webmap Mercator.table_libm sample_webmap with
    | Ok files => files
    | Raise _ => []
    end.

End Webmap.

(* ================================================================== *)
(** * Generic facts about the error monad *)
(* ================================================================== *)

Lemma bind_Ok_inv {A B : Type} (c : result A) (k : A -> result B) (b : B) :
  bind c k = Ok b -> exists a, c = Ok a /\ k a = Ok b.
Proof.
  destruct c as [a | e]; simpl; intros H; [exists a; auto | discriminate].
Qed.

Lemma for_each_app {A S : Type} (body : S -> A -> result S) (xs ys : list A) (acc : S) :
  for_each body (xs ++ ys) acc = (mid <- for_each body xs acc ;; for_each body ys mid).
Proof.
  revert acc; induction xs as [| x xs IH]; intros acc; simpl; [reflexivity |].
  destruct (body acc x) as [acc' | e]; simpl; [apply IH | reflexivity].
Qed.

Ltac inv_bind H :=
  let a := fresh "a" in
  let Ha := fresh "Ha" in
  apply bind_Ok_inv in H; destruct H as [a [Ha H]].

(* ================================================================== *)
(** * Attribute coercion: [_safe_float] and [_safe_int] *)
(* ================================================================== *)

Module CoercionFacts.
Import Settlements.
Import Coercion.

(** The float 42.0, 4.0 and so on: small integers are floats exactly. *)
Example safe_float_42 : _safe_float (VStr "42") = Ok (Some (F.nearest 42)).
Proof. vm_compute. reflexivity. Qed.

Example safe_int_42 : _safe_int (VStr "42") = Ok (Some 42).
Proof. vm_compute. reflexivity. Qed.

Example safe_int_3_7 : _safe_int (VStr "3.7") = Ok (Some 4).
Proof. vm_compute. reflexivity. Qed.

Example safe_float_of_numbers :
  _safe_float (VInt 42) = Ok (Some (F.nearest 42))
  /\ _safe_float (VFloat (F.nearest 42)) = Ok (Some (F.nearest 42))
  /\ _safe_float (VBool true) = Ok (Some (F.nearest 1)).
Proof. repeat split; vm_compute; reflexivity. Qed.

Example safe_float_no_value :
  map _safe_float
      [VNone; VStr EmptyString; VStr "   "; VStr "NA"; VStr "na"; VStr " N/A ";
       VStr "nan"; VStr "NaN"; VStr "abc"; VStr "12 apples"; VList []; VDict []]
  = repeat (Ok None) 12.
Proof. vm_compute. reflexivity. Qed.

Example safe_int_no_value :
  map _safe_int [VNone; VStr EmptyString; VStr "NA"; VStr "nan"; VStr "abc"]
  = repeat (Ok None) 5.
Proof. vm_compute. reflexivity. Qed.

(** On a string [_safe_float] never raises. *)
Lemma safe_float_str_total (s : string) : exists r, _safe_float (VStr s) = Ok r.
Proof.
  unfold _safe_float.
  destruct (_ || _); [eexists; reflexivity |].
  unfold float_or_none, Py.float_.
  destruct (Py.float_of_chars _); simpl; eexists; reflexivity.
Qed.

Lemma round_half_even_tie (n : Z) :
  F.round_half_even (2 * n + 1) 1 = if Z.even n then n else n + 1.
Proof.
  unfold F.round_half_even.
  change (2 ^ 1) with 2.
  replace ((2 * n + 1) / 2) with n by (apply Z.div_unique with 1; lia).
  replace ((2 * n + 1) mod 2) with 1 by (apply Z.mod_unique with n; lia).
  reflexivity.
Qed.

(** C10.  [_safe_int] rounds a value halfway between two integers to the
    even one, not away from zero: ["2.5"] gives 2 and ["3.5"] gives 4, and in
    general the float [n + 1/2] gives [n] when [n] is even and [n + 1] when
    it is odd, with the sign put back afterwards. *)
Theorem safe_int_ties_to_even :
  _safe_int (VStr "2.5") = Ok (Some 2)
  /\ _safe_int (VStr "3.5") = Ok (Some 4)
  /\ _safe_int (VStr "0.5") = Ok (Some 0)
  /\ _safe_int (VStr "-2.5") = Ok (Some (-2))
  /\ _safe_int (VStr "-3.5") = Ok (Some (-4))
  /\ forall (neg : bool) (n : positive),
       _safe_int (VFloat (half_way neg n))
       = Ok (Some (cond_Zopp neg (if Z.even (Zpos n) then Zpos n else Zpos n + 1))).
Proof.
  repeat split; try (vm_compute; reflexivity).
  intros neg n. unfold _safe_int, half_way. simpl.
  change (Z.pos n~1) with (2 * Z.pos n + 1).
  change (- -1) with 1.
  rewrite round_half_even_tie. reflexivity.
Qed.

(** C6.  [_safe_int] is not total: the text ["inf"] passes [_safe_float] as
    the float infinity, which [round] refuses with an [OverflowError]; a
    signed ["-nan"] escapes the filter on ["nan"] and [round] refuses it with
    a [ValueError]; and [_safe_float] itself lets the [OverflowError] of
    [float()] through for an integer beyond the float range. *)
Theorem safe_int_raises_on_inf :
  _safe_float (VStr "inf") = Ok (Some F.inf)
  /\ _safe_int (VStr "inf") = Raise OverflowError
  /\ _safe_int (VStr "1e999") = Raise OverflowError
  /\ _safe_int (VStr "-nan") = Raise (ValueError "cannot convert float NaN to integer")
  /\ _safe_float (VInt (10 ^ 400)) = Raise OverflowError.
Proof. repeat split; vm_compute; reflexivity. Qed.

End CoercionFacts.

(* ================================================================== *)
(** * Population of a record *)
(* ================================================================== *)

Module PopulationFacts.
Import Settlements.
Import Population.

(** Replacing a missing or zero factor by the integer 0, and multiplying
    integers as integers, does not change the rounded product. *)
Lemma rounded_product (h s : option float) :
  (product <- Py.mul (or_zero h) (or_zero s) ;; Py.int_round product)
  = F.round (F.mul (factor h) (factor s)).
Proof.
  destruct h as [[hs | hs | | hs hm he] |], s as [[ss | ss | | ss sm se] |];
    try reflexivity.
Qed.

Lemma safe_float_coerce (v : value) (r : option float) :
  _safe_float v = Ok r -> r = coerce_float v.
Proof.
  unfold _safe_float, coerce_float.
  destruct v as [| b | z | f | s | l | d]; cbn [Py.float_ bind].
  - intros H; inversion H; reflexivity.
  - intros H; inversion H; reflexivity.
  - unfold F.of_int. destruct (F.is_inf (F.nearest z)); cbn [bind];
      [discriminate | intros H; inversion H; reflexivity].
  - intros H; inversion H; reflexivity.
  - destruct (_ || _); [intros H; inversion H; reflexivity |].
    unfold float_or_none, Py.float_.
    destruct (Py.float_of_chars (Str.chars (Str.strip s)));
      intros H; inversion H; reflexivity.
  - intros H; inversion H; reflexivity.
  - intros H; inversion H; reflexivity.
Qed.

Lemma round_nearest_integer (x : float) (n : Z) :
  F.round x = Ok n -> nearest_integer x = Some n.
Proof.
  destruct x; cbn [F.round nearest_integer]; try discriminate;
    intros H; inversion H; reflexivity.
Qed.

Lemma safe_int_coerce (v : value) (r : option Z) :
  _safe_int v = Ok r -> r = coerce_int v.
Proof.
  unfold _safe_int, coerce_int. intros H.
  apply bind_Ok_inv in H. destruct H as [number [Hf H]].
  rewrite <- (safe_float_coerce v number Hf).
  destruct number as [x |]; [| inversion H; reflexivity].
  apply bind_Ok_inv in H. destruct H as [n [Hr H]].
  inversion H. symmetry. apply round_nearest_integer. exact Hr.
Qed.

Lemma get_field (payload : value) (key : string) (v : value) :
  Py.get payload key = Ok v -> v = field payload key.
Proof.
  unfold Py.get, Py.get_default, field.
  destruct payload; try discriminate. intros H; inversion H; reflexivity.
Qed.

(** Where the code returns, it returns what the specification describes. *)
Lemma population_where_it_returns (payload : value) (r : option Z) :
  derive_population payload = Ok r -> r = population_spec payload.
Proof.
  unfold derive_population, population_spec, derived_population. intros H.
  apply bind_Ok_inv in H. destruct H as [estimate [He H]].
  apply bind_Ok_inv in H. destruct H as [population [Hp H]].
  apply get_field in He. apply safe_int_coerce in Hp. subst estimate.
  rewrite <- Hp.
  assert (Hderived :
            forall out,
              (h <- Py.get payload "section_C/C9_Households" ;;
               households <- _safe_float h ;;
               s <- Py.get payload "section_C/C10_Household_Size" ;;
               hh_size <- _safe_float s ;;
               product <- Py.mul (or_zero households) (or_zero hh_size) ;;
               computed <- Py.int_round product ;;
               Ok (if 0 <? computed then Some computed else None)) = Ok out ->
              out = strictly_positive
                      (nearest_integer
                         (F.mul (factor (coerce_float (field payload "section_C/C9_Households")))
                                (factor (coerce_float
                                           (field payload "section_C/C10_Household_Size")))))).
  { intros out Hd.
    apply bind_Ok_inv in Hd. destruct Hd as [h [Hh Hd]].
    apply bind_Ok_inv in Hd. destruct Hd as [households [Hhf Hd]].
    apply bind_Ok_inv in Hd. destruct Hd as [sz [Hs Hd]].
    apply bind_Ok_inv in Hd. destruct Hd as [hh_size [Hsf Hd]].
    apply get_field in Hh. apply get_field in Hs. subst h sz.
    apply safe_float_coerce in Hhf. apply safe_float_coerce in Hsf.
    rewrite <- Hhf, <- Hsf.
    pose proof (rounded_product households hh_size) as Hround.
    destruct (Py.mul (or_zero households) (or_zero hh_size)) as [product |];
      [| discriminate Hd].
    cbn [bind] in Hd, Hround.
    destruct (Py.int_round product) as [computed |]; [| discriminate Hd].
    cbn [bind] in Hd. symmetry in Hround.
    rewrite (round_nearest_integer _ _ Hround). cbn [strictly_positive].
    inversion Hd. reflexivity. }
  destruct population as [n |]; cbn [strictly_positive].
  - destruct (0 <? n) eqn:Hpos.
    + replace ((n =? 0) || (n <=? 0)) with false in H; [inversion H; reflexivity |].
      apply Z.ltb_lt in Hpos. symmetry. apply orb_false_iff.
      split; [apply Z.eqb_neq | apply Z.leb_gt]; lia.
    + replace ((n =? 0) || (n <=? 0)) with true in H; [apply Hderived; exact H |].
      apply Z.ltb_ge in Hpos. symmetry. apply orb_true_iff. right.
      apply Z.leb_le. lia.
  - apply Hderived. exact H.
Qed.

(** C7.  The population computed by the record builder is not the one the
    specification describes for every payload.  Where the code returns, it
    returns the described value: the coerced explicit estimate when it is
    strictly positive, otherwise [round(households * household_size)] with
    each factor coerced and counted as 0 when missing, and no value when
    that is not strictly positive.  But a number of households that is minus
    infinity gives a product that is not strictly positive, for which the
    specification has no value, and the code raises [OverflowError] from
    [round] instead; and infinite households without a household size give
    a product that is not a number, where the code raises [ValueError]. *)
Theorem population_raises_on_infinite_households :
  (forall payload r, derive_population payload = Ok r -> r = population_spec payload)
  /\ derive_population infinite_households = Raise OverflowError
  /\ population_spec infinite_households = None
  /\ derive_population households_without_size
     = Raise (ValueError "cannot convert float NaN to integer")
  /\ population_spec households_without_size = None.
Proof.
  split; [exact population_where_it_returns |].
  repeat split; vm_compute; reflexivity.
Qed.

Example population_explicit :
  derive_population
    (payload_of [("section_C/C11_Population_Estimate", VStr "250");
                 ("section_C/C9_Households", VStr "120");
                 ("section_C/C10_Household_Size", VStr "4.5")])
  = Ok (Some 250).
Proof. vm_compute. reflexivity. Qed.

Example population_derived :
  derive_population
    (payload_of [("section_C/C11_Population_Estimate", VStr "0");
                 ("section_C/C9_Households", VStr "120");
                 ("section_C/C10_Household_Size", VStr "4.5")])
  = Ok (Some 540).
Proof. vm_compute. reflexivity. Qed.

Example population_no_value :
  derive_population (payload_of [("section_C/C9_Households", VStr "120")]) = Ok None
  /\ derive_population
       (payload_of [("section_C/C11_Population_Estimate", VStr "-3");
                    ("section_C/C9_Households", VStr "-2");
                    ("section_C/C10_Household_Size", VInt 4)]) = Ok None.
Proof. split; vm_compute; reflexivity. Qed.

End PopulationFacts.

(* ================================================================== *)
(** * Dates: [_format_date] *)
(* ================================================================== *)

Module DateFacts.
Import Settlements.
Import Dates.

Lemma make_raises_ValueError (y m d : Z) (e : exn) :
  Datetime.make y m d = Raise e -> is_ValueError e = true.
Proof.
  unfold Datetime.make. destruct (_ && _); intros H; inversion H; reflexivity.
Qed.

(** [strptime] fails with a [ValueError] and with nothing else. *)
Lemma strptime_raises_ValueError (text fmt : string) (e : exn) :
  Datetime.strptime text fmt = Raise e -> is_ValueError e = true.
Proof.
  unfold Datetime.strptime.
  destruct (Datetime.compile _) as [ts |]; [| intros H; inversion H; reflexivity].
  destruct (Datetime.matches _ _ _) as [| [[[y m] d] rest] ms];
    [intros H; inversion H; reflexivity |].
  destruct rest; [apply make_raises_ValueError | intros H; inversion H; reflexivity].
Qed.




End DateFacts.

(* ================================================================== *)
(** * Rings read from a settlement page *)
(* ================================================================== *)

Module RingFacts.
Import Settlements.
Import Rings.

Lemma coord_same_refl (a : float) : coord_same a a = true.
Proof.
  unfold coord_same, F.eqb, SFeqb.
  destruct a as [s | s | | s m e]; simpl; try reflexivity.
  - destruct s; reflexivity.
  - destruct s; rewrite Z.compare_refl, Pos.compare_cont_refl; reflexivity.
Qed.

Lemma same_point_refl (p : float * float) : same_point p p = true.
Proof. unfold same_point. rewrite !coord_same_refl. reflexivity. Qed.

Lemma same_or_equal_values (a b : Py.fobj) :
  Py.same_or_equal a b = true -> coord_same (Py.val a) (Py.val b) = true.
Proof.
  unfold coord_same.
  destruct a as [x |], b as [y |]; simpl; intros H; try reflexivity.
  - rewrite H. reflexivity.
  - destruct x; discriminate.
  - discriminate.
Qed.

Lemma point_eq_values (p q : point) :
  point_ne p q = false -> same_point (point_value p) (point_value q) = true.
Proof.
  unfold point_ne, same_point, point_value. intros H.
  apply negb_false_iff, andb_true_iff in H. destruct H as [H1 H2]. simpl.
  rewrite (same_or_equal_values _ _ H1), (same_or_equal_values _ _ H2). reflexivity.
Qed.

Lemma last_map {A B : Type} (f : A -> B) (l : list A) (d : A) :
  last (map f l) (f d) = f (last l d).
Proof.
  induction l as [| a [| b l] IH]; simpl in *; auto.
Qed.

Lemma last_default {A : Type} (b : A) (l : list A) (d d' : A) :
  last (b :: l) d = last (b :: l) d'.
Proof.
  revert b; induction l as [| c l IH]; intros b; [reflexivity |].
  change (last (c :: l) d = last (c :: l) d'). apply IH.
Qed.

Lemma last_cons_cons {A : Type} (a b : A) (l : list A) (d : A) :
  last (a :: b :: l) d = last (b :: l) a.
Proof.
  change (last (b :: l) d = last (b :: l) a). apply last_default.
Qed.

(** What lines 179-180 do to the points: nothing when the ends are equal,
    one more point, the first, when they differ. *)
Lemma close_ring_open (g : list point) :
  ends_differ g = true -> close_ring g = g ++ firstn 1 g.
Proof.
  unfold close_ring. intros H. rewrite H.
  destruct g; [discriminate | reflexivity].
Qed.

Lemma close_ring_closed_already (g : list point) :
  ends_differ g = false -> close_ring g = g.
Proof. unfold close_ring. intros H. rewrite H. reflexivity. Qed.

Lemma close_ring_is_closed (g : list point) :
  closed (map point_value (close_ring g)).
Proof.
  unfold close_ring. destruct (ends_differ g) eqn:Hd.
  - destruct g as [| p g']; [exact I |].
    change (closed (map point_value ((p :: g') ++ [p]))).
    rewrite map_app. cbn [map app closed].
    change (point_value p :: map point_value g' ++ [point_value p])
      with ((point_value p :: map point_value g') ++ [point_value p]).
    rewrite last_last. apply same_point_refl.
  - destruct g as [| p [| q g']]; [exact I | apply same_point_refl |].
    unfold closed. cbn [map].
    change (point_value p :: point_value q :: map point_value g')
      with (map point_value (p :: q :: g')).
    rewrite last_map, last_cons_cons. apply point_eq_values. exact Hd.
Qed.

Lemma firstn_close_ring (g : list point) :
  firstn (List.length g) (close_ring g) = g.
Proof.
  unfold close_ring. destruct (ends_differ g).
  - destruct g as [| p g']; [reflexivity |].
    change (firstn (List.length (p :: g')) ((p :: g') ++ [p]) = p :: g').
    rewrite firstn_app, Nat.sub_diag, firstn_all.
    change (firstn 0 [p]) with (@nil point). apply app_nil_r.
  - apply firstn_all.
Qed.

(** The ring of a page is what lines 179-180 make of the points read. *)
Lemma parse_settlement_page_ring (html : string) (payload : value)
  (ring : list (float * float)) :
  parse_settlement_page html = Ok (payload, ring) ->
  exists g, ring = map point_value (close_ring g).
Proof.
  unfold parse_settlement_page.
  destruct (SETTLEMENT_RE html); [| discriminate].
  intros H. inv_bind H.
  destruct (SHAPE_RE html); [| discriminate].
  inv_bind H. inv_bind H. inv_bind H.
  inversion H. eexists. reflexivity.
Qed.

Lemma float_obj_str (s : string) :
  numeric s -> Py.float_obj (VStr s) = Ok (Py.Fresh (float_of s)).
Proof.
  unfold numeric, float_of, Py.float_obj. intros [x Hx]. rewrite Hx. reflexivity.
Qed.

Lemma add_points_rows (pairs : list (string * string)) (acc : list point) :
  Forall (fun p => numeric (fst p) /\ numeric (snd p)) pairs ->
  for_each add_point (map row pairs) acc = Ok (acc ++ map swapped pairs).
Proof.
  intros H. revert acc. induction H as [| p pairs [Hlat Hlon] _ IH]; intros acc.
  - simpl. rewrite app_nil_r. reflexivity.
  - simpl map. cbn [for_each].
    replace (add_point acc (row p)) with (Ok (acc ++ [swapped p]) : result (list point)).
    + cbn [bind]. rewrite IH, <- app_assoc. reflexivity.
    + unfold add_point, row. cbn [Py.unpack2 Py.iterate bind].
      rewrite (float_obj_str _ Hlat), (float_obj_str _ Hlon). reflexivity.
Qed.

(** C9.  When the coordinate array of a page is a list of pairs
    [[lat_string, lon_string]] of numeric strings, the page parses, and the
    i-th point of the ring is [(float(lon_string_i), float(lat_string_i))]:
    the two floats as parsed, swapped, with no projection applied. *)
Theorem html_pairs_swapped_not_projected
  (html settlement_text shape_text : string) (payload : value)
  (pairs : list (string * string)) :
  SETTLEMENT_RE html = Some settlement_text ->
  Json.loads settlement_text = Ok payload ->
  SHAPE_RE html = Some shape_text ->
  Json.loads shape_text = Ok (VList (map row pairs)) ->
  Forall (fun p => numeric (fst p) /\ numeric (snd p)) pairs ->
  exists ring,
    parse_settlement_page html = Ok (payload, ring)
    /\ forall i lat lon,
         nth_error pairs i = Some (lat, lon) ->
         exists x y,
           Py.float_ (VStr lon) = Ok x /\ Py.float_ (VStr lat) = Ok y
           /\ nth_error ring i = Some (x, y).
Proof.
  intros Hs Hp Hg Hr Hnum.
  exists (map point_value (close_ring (map swapped pairs))).
  split.
  - unfold parse_settlement_page. rewrite Hs, Hp. cbn [bind]. rewrite Hg, Hr.
    cbn [bind Py.iterate]. rewrite (add_points_rows _ [] Hnum). reflexivity.
  - intros i lat lon Hi.
    assert (Hin : In (lat, lon) pairs) by (eapply nth_error_In; eassumption).
    rewrite Forall_forall in Hnum. destruct (Hnum _ Hin) as [[y Hy] [x Hx]].
    simpl in Hx, Hy. exists x, y. repeat split; auto.
    assert (Hlt : (i < List.length pairs)%nat)
      by (apply nth_error_Some; rewrite Hi; discriminate).
    assert (Hc : nth_error (close_ring (map swapped pairs)) i = Some (swapped (lat, lon))).
    { pose proof (nth_error_firstn (List.length (map swapped pairs))
                    (close_ring (map swapped pairs)) i) as Hf.
      rewrite firstn_close_ring, nth_error_map, Hi, length_map in Hf.
      apply Nat.ltb_lt in Hlt. rewrite Hlt in Hf. symmetry. exact Hf. }
    rewrite nth_error_map, Hc. unfold swapped, point_value, float_of. simpl.
    rewrite Hx, Hy. reflexivity.
Qed.

Lemma html_pairs_swapped_witness :
  exists ring,
    parse_settlement_page sample_page
    = Ok (VDict [("section_A/A1_Profile_Date", VStr "2019-07-01")], ring)
    /\ forall i lat lon,
         nth_error sample_pairs i = Some (lat, lon) ->
         exists x y,
           Py.float_ (VStr lon) = Ok x /\ Py.float_ (VStr lat) = Ok y
           /\ nth_error ring i = Some (x, y).
Proof.
  apply (html_pairs_swapped_not_projected sample_page
           (js "{'section_A/A1_Profile_Date': '2019-07-01'}")
           (js "[['6.5','3.3'],['6.6','3.4'],['6.5','3.5']]")).
  - vm_compute. reflexivity.
  - vm_compute. reflexivity.
  - vm_compute. reflexivity.
  - vm_compute. reflexivity.
  - repeat constructor; eexists; vm_compute; reflexivity.
Defined.

End RingFacts.

(* ================================================================== *)
(** * The Mercator inverse *)
(* ================================================================== *)

Module MercatorFacts.
Import Atlas.
Import Mercator.

(** Doubling and halving are exact, so the constant of the script is [R]. *)
Lemma ORIGIN_SHIFT_is_R : ORIGIN_SHIFT = R.
Proof. vm_compute. reflexivity. Qed.

Lemma truediv_ORIGIN_SHIFT (a : float) : Py.truediv a ORIGIN_SHIFT = Ok (F.div a R).
Proof.
  unfold Py.truediv. change (F.is_zero ORIGIN_SHIFT) with false.
  rewrite ORIGIN_SHIFT_is_R. reflexivity.
Qed.

Lemma truediv_180 (a : float) : Py.truediv a f180 = Ok (F.div a f180).
Proof. reflexivity. Qed.

Lemma truediv_pi (a : float) : Py.truediv a F.pi = Ok (F.div a F.pi).
Proof. reflexivity. Qed.

Lemma truediv_2 (a : float) : Py.truediv a f2 = Ok (F.div a f2).
Proof. reflexivity. Qed.

(** On floats the function is the formula, up to the errors of [math.exp]
    and [math.atan]: no division fails. *)
Lemma mercator_formula (L : Libm) (x y : float) :
  mercator_to_lonlat L (VFloat x) (VFloat y)
  = (e <- math_exp L (radians_of y) ;;
     a <- math_atan L e ;;
     Ok (lon_of x, lat_of a)).
Proof.
  unfold mercator_to_lonlat. cbn [Py.operand bind].
  rewrite !truediv_ORIGIN_SHIFT. cbn [bind].
  rewrite truediv_pi. cbn [bind]. rewrite truediv_180. cbn [bind].
  fold (radians_of y).
  destruct (math_exp L (radians_of y)) as [e | err]; [| reflexivity].
  cbn [bind]. destruct (math_atan L e) as [a | err]; [| reflexivity].
  cbn [bind]. rewrite truediv_2. reflexivity.
Qed.

Lemma math_1_finite (func : float -> float) (can_overflow : bool) (x : float) :
  F.is_finite (func x) = true -> math_1 func can_overflow x = Ok (func x).
Proof.
  unfold math_1. destruct (func x); simpl; intros H; try discriminate; reflexivity.
Qed.

Lemma table_libm_overflows : exp_overflows table_libm.
Proof.
  intros x Hx. cbn [c_exp table_libm].
  destruct x as [s | s | | s m e]; cbn [F.is_zero]; try (rewrite Hx; reflexivity).
  destruct s; discriminate.
Qed.

Lemma far_north_beyond_710 : F.ltb (F.nearest 710) (radians_of far_north) = true.
Proof. vm_compute. reflexivity. Qed.

(** With any library whose [exp] overflows, the ordinate 5e9 is refused. *)
Lemma mercator_far_north (L : Libm) (x : float) :
  exp_overflows L ->
  mercator_to_lonlat L (VFloat x) (VFloat far_north) = Raise OverflowError.
Proof.
  intros HL. rewrite mercator_formula.
  unfold math_exp, math_1. rewrite (HL _ far_north_beyond_710).
  reflexivity.
Qed.

(** C8, as stated, fails: for finite inputs the function can raise.  Were
    it total on the finite floats for every library whose [exp] overflows,
    it would return at [(0, 5e9)], where [math.exp] raises
    [OverflowError: math range error]. *)
Lemma mercator_not_total_on_finite_floats :
  ~ (forall L : Libm, exp_overflows L ->
       forall x y : float, F.is_finite x = true -> F.is_finite y = true ->
         returns (mercator_to_lonlat L (VFloat x) (VFloat y)) = true).
Proof.
  intros H.
  specialize (H table_libm table_libm_overflows F.zero far_north eq_refl eq_refl).
  rewrite (mercator_far_north _ _ table_libm_overflows) in H. discriminate.
Qed.

Example mercator_far_north_table :
  mercator_to_lonlat table_libm (VFloat F.zero) (VFloat far_north) = Raise OverflowError.
Proof. vm_compute. reflexivity. Qed.

(** C8, amended.  The function is a function of its two arguments and of
    nothing else.  On floats [x] and [y] for which [exp] and [atan] return
    finite values it returns [lon = (x / R) * 180] and
    [lat = 180/pi * (2 * atan(exp(((y / R) * 180) * pi / 180)) - pi/2)] with
    [R = pi * 6378137], every operation rounded to the nearest float; when
    [exp] overflows on a finite argument it raises [OverflowError]. *)
Theorem mercator_formula_where_exp_is_finite (L : Libm) (x y : float) :
  (forall x' y' : float,
      x' = x -> y' = y ->
      mercator_to_lonlat L (VFloat x') (VFloat y')
      = mercator_to_lonlat L (VFloat x) (VFloat y))
  /\ (F.is_finite (c_exp L (radians_of y)) = true ->
      F.is_finite (c_atan L (c_exp L (radians_of y))) = true ->
      mercator_to_lonlat L (VFloat x) (VFloat y)
      = Ok (lon_of x, lat_of (c_atan L (c_exp L (radians_of y)))))
  /\ (F.is_finite (radians_of y) = true ->
      F.is_inf (c_exp L (radians_of y)) = true ->
      mercator_to_lonlat L (VFloat x) (VFloat y) = Raise OverflowError).
Proof.
  split; [intros x' y' -> ->; reflexivity |].
  split.
  - intros He Ha. rewrite mercator_formula.
    unfold math_exp, math_atan. rewrite (math_1_finite _ _ _ He). cbn [bind].
    rewrite (math_1_finite _ _ _ Ha). reflexivity.
  - intros Hy He. rewrite mercator_formula.
    unfold math_exp, math_1. rewrite He, Hy.
    destruct (c_exp L (radians_of y)); try discriminate; reflexivity.
Qed.

(** On the equator, one kilometre east of the origin. *)
Lemma mercator_formula_witness :
  mercator_to_lonlat table_libm (VFloat (F.nearest 1000)) (VFloat F.zero)
  = Ok (lon_of (F.nearest 1000), F.zero)
  /\ mercator_to_lonlat table_libm (VFloat F.zero) (VFloat far_north) = Raise OverflowError.
Proof.
  split.
  - apply (proj1 (proj2 (mercator_formula_where_exp_is_finite
                           table_libm (F.nearest 1000) F.zero)));
      vm_compute; reflexivity.
  - apply (proj2 (proj2 (mercator_formula_where_exp_is_finite table_libm F.zero far_north)));
      vm_compute; reflexivity.
Defined.

End MercatorFacts.

(* ================================================================== *)
(** * Conversion of ESRI geometries *)
(* ================================================================== *)

Module GeometryFacts.
Import Atlas.
Import Geometry.

(** ** The loops compute it *)

Lemma add_vertex_point (L : Libm) (line : list value) (p : value * value) :
  add_vertex L line (esri_point p) = (v <- convert_point L p ;; Ok (line ++ [v])).
Proof.
  unfold add_vertex, convert_point, esri_point.
  cbn [Py.unpack2 Py.iterate bind].
  destruct (mercator_to_lonlat L (fst p) (snd p)) as [[lon lat] | e]; reflexivity.
Qed.

Lemma add_vertices (L : Libm) (path : list (value * value)) (line : list value) :
  for_each (add_vertex L) (map esri_point path) line
  = (new <- convert_path L path ;; Ok (line ++ new)).
Proof.
  revert line. induction path as [| p path IH]; intros line.
  - simpl. rewrite app_nil_r. reflexivity.
  - cbn [map for_each]. rewrite add_vertex_point.
    unfold convert_path. cbn [map_result].
    destruct (convert_point L p) as [v | e]; [| reflexivity].
    cbn [bind]. rewrite IH. unfold convert_path.
    destruct (map_result (convert_point L) path) as [new | e]; [| reflexivity].
    cbn [bind]. rewrite <- app_assoc. reflexivity.
Qed.

Lemma add_line_path (L : Libm) (lines : list value) (path : list (value * value)) :
  add_line L lines (esri_line path)
  = (line <- convert_path L path ;; Ok (lines ++ map VList (survivors [line]))).
Proof.
  unfold add_line, esri_line. cbn [Py.iterate bind].
  rewrite add_vertices.
  destruct (convert_path L path) as [[| v line] | e]; cbn [bind app]; try reflexivity.
  rewrite app_nil_r. reflexivity.
Qed.

Lemma survivors_cons (line : list value) (lines : list (list value)) :
  survivors (line :: lines) = survivors [line] ++ survivors lines.
Proof. unfold survivors. simpl. destruct (negb _); reflexivity. Qed.

Lemma add_lines (L : Libm) (paths : list (list (value * value))) (acc : list value) :
  for_each (add_line L) (map esri_line paths) acc
  = (lines <- map_result (convert_path L) paths ;;
     Ok (acc ++ map VList (survivors lines))).
Proof.
  revert acc. induction paths as [| path paths IH]; intros acc.
  - simpl. rewrite app_nil_r. reflexivity.
  - cbn [map for_each]. rewrite add_line_path. cbn [map_result].
    destruct (convert_path L path) as [line | e]; [| reflexivity].
    cbn [bind]. rewrite IH.
    destruct (map_result (convert_path L) paths) as [lines | e]; [| reflexivity].
    cbn [bind]. rewrite (survivors_cons line lines), map_app, app_assoc. reflexivity.
Qed.

Lemma polyline_of_lines (lines : list (list value)) :
  match map VList lines with
  | [] => Ok None
  | [line] => Ok (Some (geojson "LineString" line))
  | _ => Ok (Some (geojson "MultiLineString" (VList (map VList lines))))
  end = Ok (polyline_of lines).
Proof. destruct lines as [| l1 [| l2 rest]]; reflexivity. Qed.

Lemma polygon_of_rings (rings : list (list value)) :
  match map VList rings with
  | [] => Ok None
  | [_] => Ok (Some (geojson "Polygon" (VList (map VList rings))))
  | _ => Ok (Some (geojson "MultiPolygon"
                     (VList (map (fun ring => VList [ring]) (map VList rings)))))
  end = Ok (polygon_of rings).
Proof.
  destruct rings as [| r1 [| r2 rest]]; try reflexivity.
  unfold polygon_of. cbn [List.length Nat.eqb]. rewrite map_map. reflexivity.
Qed.

(** C4.  For a non-empty geometry whose [paths] (or [rings]) are lists of
    points, and also when that key is missing: each path is converted point
    by point, the empty lines are dropped, and the result is null for no
    line left, a [LineString] for one, a [MultiLineString] of all of them for
    more; for rings it is null, a [Polygon] with the one ring, or a
    [MultiPolygon] in which every ring is a polygon of its own.  An empty
    geometry gives null.  (An error of a point conversion is the result of
    the whole.) *)
Theorem polyline_and_polygon_by_count (L : Libm) (geometry : value)
  (lines : list (list (value * value))) :
  (Py.truthy geometry = false ->
   convert_geometry L geometry (VStr "esriGeometryPolyline") = Ok None
   /\ convert_geometry L geometry (VStr "esriGeometryPolygon") = Ok None)
  /\ (Py.truthy geometry = true ->
      Py.get_default geometry "paths" (VList []) = Ok (esri_lines lines) ->
      convert_geometry L geometry (VStr "esriGeometryPolyline")
      = (converted <- map_result (convert_path L) lines ;;
         Ok (polyline_of (survivors converted))))
  /\ (Py.truthy geometry = true ->
      Py.get_default geometry "rings" (VList []) = Ok (esri_lines lines) ->
      convert_geometry L geometry (VStr "esriGeometryPolygon")
      = (converted <- map_result (convert_path L) lines ;;
         Ok (polygon_of (survivors converted)))).
Proof.
  unfold convert_geometry. split; [| split].
  - intros H. rewrite H. split; reflexivity.
  - intros Ht Hp. rewrite Ht. cbn [negb Py.eq_str String.eqb Ascii.eqb Bool.eqb].
    rewrite Hp. unfold esri_lines. cbn [bind Py.iterate]. rewrite add_lines.
    destruct (map_result (convert_path L) lines) as [converted | e]; [| reflexivity].
    cbn [bind app]. apply polyline_of_lines.
  - intros Ht Hp. rewrite Ht. cbn [negb Py.eq_str String.eqb Ascii.eqb Bool.eqb].
    rewrite Hp. unfold esri_lines. cbn [bind Py.iterate]. rewrite add_lines.
    destruct (map_result (convert_path L) lines) as [converted | e]; [| reflexivity].
    cbn [bind app]. apply polygon_of_rings.
Qed.

Lemma polyline_and_polygon_witness :
  convert_geometry Mercator.table_libm
    (VDict [("paths", esri_lines sample_lines)]) (VStr "esriGeometryPolyline")
  = (converted <- map_result (convert_path Mercator.table_libm) sample_lines ;;
     Ok (polyline_of (survivors converted)))
  /\ convert_geometry Mercator.table_libm
       (VDict [("rings", esri_lines sample_lines)]) (VStr "esriGeometryPolygon")
     = (converted <- map_result (convert_path Mercator.table_libm) sample_lines ;;
        Ok (polygon_of (survivors converted)))
  /\ convert_geometry Mercator.table_libm (VDict []) (VStr "esriGeometryPolygon")
     = Ok None.
Proof.
  split; [| split].
  - apply (proj1 (proj2 (polyline_and_polygon_by_count Mercator.table_libm
                           (VDict [("paths", esri_lines sample_lines)]) sample_lines)));
      reflexivity.
  - apply (proj2 (proj2 (polyline_and_polygon_by_count Mercator.table_libm
                           (VDict [("rings", esri_lines sample_lines)]) sample_lines)));
      reflexivity.
  - apply (proj1 (polyline_and_polygon_by_count Mercator.table_libm
                    (VDict []) [])); reflexivity.
Defined.

(** The three outcomes for paths, on decoded documents. *)
Example polyline_outcomes :
  let convert text := convert_geometry Mercator.table_libm (decoded text)
                        (VStr "esriGeometryPolyline") in
  convert "{'paths': [[], []]}" = Ok None
  /\ convert "{'paths': [[], [[0, 0], [1000, 0]]]}"
     = Ok (Some (geojson "LineString"
                   (VList [VList [VFloat F.zero; VFloat F.zero];
                           VList [VFloat (Mercator.lon_of (F.nearest 1000));
                                  VFloat F.zero]])))
  /\ convert "{'paths': [[[0, 0], [1000, 0]], [], [[5, 0]]]}"
     = Ok (Some (geojson "MultiLineString"
                   (VList [VList [VList [VFloat F.zero; VFloat F.zero];
                                  VList [VFloat (Mercator.lon_of (F.nearest 1000));
                                         VFloat F.zero]];
                           VList [VList [VFloat (Mercator.lon_of (F.nearest 5));
                                         VFloat F.zero]]]))).
Proof. repeat split; vm_compute; reflexivity. Qed.

(** The three outcomes for rings: two rings are two polygons, never a
    polygon with a hole. *)
Example polygon_outcomes :
  let convert text := convert_geometry Mercator.table_libm (decoded text)
                        (VStr "esriGeometryPolygon") in
  let a := VList [VFloat F.zero; VFloat F.zero] in
  let b := VList [VFloat (Mercator.lon_of (F.nearest 1000)); VFloat F.zero] in
  convert "{'rings': []}" = Ok None
  /\ convert "{'rings': [[[0, 0], [1000, 0], [0, 0]]]}"
     = Ok (Some (geojson "Polygon" (VList [VList [a; b; a]])))
  /\ convert "{'rings': [[[0, 0], [1000, 0], [0, 0]], [[1000, 0], [0, 0], [1000, 0]]]}"
     = Ok (Some (geojson "MultiPolygon"
                   (VList [VList [VList [a; b; a]]; VList [VList [b; a; b]]]))).
Proof. repeat split; vm_compute; reflexivity. Qed.

(** ** Unsupported discriminants *)

Lemma convert_unsupported (L : Libm) (geometry geometry_type : value) :
  supported geometry_type = false ->
  convert_geometry L geometry geometry_type
  = if Py.truthy geometry then Raise (unsupported geometry_type) else Ok None.
Proof.
  unfold supported, convert_geometry. intros H.
  apply orb_false_iff in H. destruct H as [H H3].
  apply orb_false_iff in H. destruct H as [H1 H2].
  rewrite H1, H2, H3. destruct (Py.truthy geometry); reflexivity.
Qed.

(** With an unsupported discriminant the loop over the features cannot add
    any: it passes over the features without geometry and stops with the
    error at the first that has one. *)
Lemma features_all_skipped (L : Libm) (geometry_type : value)
  (features acc out : list value) :
  supported geometry_type = false ->
  for_each (add_feature L geometry_type) features acc = Ok out -> out = acc.
Proof.
  intros Ht. revert acc. induction features as [| f features IH]; intros acc H.
  - inversion H. reflexivity.
  - cbn [for_each] in H. inv_bind H.
    unfold add_feature in Ha. inv_bind Ha.
    rewrite (convert_unsupported _ _ _ Ht) in Ha.
    destruct (Py.truthy a0); [discriminate |].
    cbn [bind] in Ha. inversion Ha. subst a. apply IH. exact H.
Qed.

Lemma feature_with_geometry_aborts (L : Libm) (geometry_type feature geometry : value)
  (rest acc : list value) :
  supported geometry_type = false ->
  Py.get_default feature "geometry" (VDict []) = Ok geometry ->
  Py.truthy geometry = true ->
  for_each (add_feature L geometry_type) (feature :: rest) acc
  = Raise (unsupported geometry_type).
Proof.
  intros Ht Hg Htruthy. cbn [for_each]. unfold add_feature.
  rewrite Hg. cbn [bind]. rewrite (convert_unsupported _ _ _ Ht), Htruthy. reflexivity.
Qed.

Lemma export_unsupported_writes_nothing (L : Libm) (layer fc_layer geometry_type : value)
  (source_app_id : string) (written : option (string * value)) :
  supported geometry_type = false ->
  layer_geometry_type fc_layer = Ok geometry_type ->
  export_feature_collection L layer fc_layer source_app_id = Ok written ->
  written = None.
Proof.
  unfold layer_geometry_type, export_feature_collection. intros Hs Ht H.
  destruct (Py.get_default fc_layer "layerDefinition" (VDict [])) as [layer_def | e];
    [| discriminate].
  cbn [bind] in *. rewrite Ht in H. cbn [bind] in H.
  do 6 inv_bind H.
  apply bind_Ok_inv in H. destruct H as [geojson_features [Hloop H]].
  apply (features_all_skipped _ _ _ _ _ Hs) in Hloop. subst geojson_features.
  inversion H. reflexivity.
Qed.

(** C3, amended.  With a discriminant outside the three, [convert_geometry]
    raises [ValueError: Unsupported geometry type] for every geometry that is
    not empty, and gives null, before looking at the discriminant, for an
    empty one; nothing is coerced.  [export_feature_collection] has no
    handler for the error: the first feature with a geometry ends the loop
    with it, and when the export returns at all it has written no file. *)
Theorem unsupported_geometry_raises_and_ends_export
  (L : Libm) (geometry_type : value) :
  supported geometry_type = false ->
  (forall geometry,
      convert_geometry L geometry geometry_type
      = if Py.truthy geometry then Raise (unsupported geometry_type) else Ok None)
  /\ (forall feature geometry rest acc,
         Py.get_default feature "geometry" (VDict []) = Ok geometry ->
         Py.truthy geometry = true ->
         for_each (add_feature L geometry_type) (feature :: rest) acc
         = Raise (unsupported geometry_type))
  /\ (forall layer fc_layer source_app_id written,
         layer_geometry_type fc_layer = Ok geometry_type ->
         export_feature_collection L layer fc_layer source_app_id = Ok written ->
         written = None).
Proof.
  intros Hs. split; [| split].
  - intros geometry. apply convert_unsupported. exact Hs.
  - intros feature geometry rest acc. apply feature_with_geometry_aborts. exact Hs.
  - intros layer fc_layer source_app_id written.
    apply export_unsupported_writes_nothing. exact Hs.
Qed.

Lemma unsupported_geometry_witness :
  convert_geometry Mercator.table_libm (decoded "{'points': [[0, 0], [1000, 0]]}")
    (VStr "esriGeometryMultipoint")
  = Raise (ValueError "Unsupported geometry type: esriGeometryMultipoint")
  /\ for_each (add_feature Mercator.table_libm (VStr "esriGeometryMultipoint"))
       [decoded "{'geometry': {'points': [[5, 0]]}}"; decoded "{'geometry': {}}"] []
     = Raise (ValueError "Unsupported geometry type: esriGeometryMultipoint").
Proof.
  split.
  - apply (proj1 (unsupported_geometry_raises_and_ends_export Mercator.table_libm
                    (VStr "esriGeometryMultipoint") eq_refl)).
  - apply (proj1 (proj2 (unsupported_geometry_raises_and_ends_export
                           Mercator.table_libm (VStr "esriGeometryMultipoint") eq_refl))
             _ (decoded "{'points': [[5, 0]]}")); reflexivity.
Defined.

(** C3, as stated, fails.  The export of a layer whose features have an
    unsupported geometry does not skip them and go on: it ends with the
    [ValueError] and exports nothing.  And a feature of such a layer whose
    geometry is empty raises nothing. *)
Lemma unsupported_feature_ends_export :
  export_feature_collection Mercator.table_libm operational_layer multipoint_layer
    "110e3d637cce4fe7bc41c4e5cd3f9d21"
  = Raise (ValueError "Unsupported geometry type: esriGeometryMultipoint")
  /\ convert_geometry Mercator.table_libm (VDict []) (VStr "esriGeometryMultipoint")
     = Ok None.
Proof. split; vm_compute; reflexivity. Qed.

(** ** Rings are converted point by point *)

Lemma add_vertex_converted (L : Libm) (line line' : list value) (pt : value) :
  add_vertex L line pt = Ok line' ->
  exists out, line' = line ++ [out] /\ converted L pt out.
Proof.
  unfold add_vertex. intros H.
  apply bind_Ok_inv in H. destruct H as [[x y] [Hu H]].
  apply bind_Ok_inv in H. destruct H as [[lon lat] [Hm H]].
  inversion H. eexists. split; [reflexivity |].
  exists x, y, lon, lat. auto.
Qed.

Lemma add_vertices_pointwise (L : Libm) (pts acc line : list value) :
  for_each (add_vertex L) pts acc = Ok line ->
  exists new, line = acc ++ new /\ Forall2 (converted L) pts new.
Proof.
  revert acc. induction pts as [| pt pts IH]; intros acc H.
  - inversion H. exists []. rewrite app_nil_r. auto.
  - cbn [for_each] in H. inv_bind H.
    apply add_vertex_converted in Ha. destruct Ha as [out [-> Hout]].
    apply IH in H. destruct H as [new [-> Hnew]].
    exists (out :: new). rewrite <- app_assoc. auto.
Qed.

End GeometryFacts.

(* ================================================================== *)
(** * Closure of rings *)
(* ================================================================== *)

Module ClosureFacts.
Import Settlements.
Import Closure.

(** C2, as stated, fails for the ESRI path: [convert_geometry] returns a
    ring of three distinct points with its three points and no fourth; its
    first point is not its last. *)
Lemma esri_ring_stays_open :
  let lon1 := Mercator.lon_of (F.nearest 1000) in
  let lon2 := Mercator.lon_of (F.nearest 2000) in
  Atlas.convert_geometry Mercator.table_libm
    (Geometry.decoded "{'rings': [[[0, 0], [1000, 0], [2000, 0]]]}")
    (VStr "esriGeometryPolygon")
  = Ok (Some (Atlas.geojson "Polygon"
                (VList [VList [VList [VFloat F.zero; VFloat F.zero];
                               VList [VFloat lon1; VFloat F.zero];
                               VList [VFloat lon2; VFloat F.zero]]])))
  /\ ~ Rings.closed [(F.zero, F.zero); (lon1, F.zero); (lon2, F.zero)].
Proof.
  split; [vm_compute; reflexivity |].
  unfold Rings.closed. vm_compute. discriminate.
Qed.

(** C2, amended.  Every ring [parse_settlement_page] returns is closed, its
    first point equal to its last: it is the list of points read from the
    page, with the first point appended once when the ends differ, and as it
    is when they are equal already.  [convert_geometry] adds no point: a ring
    of an ESRI polygon is converted point by point. *)
Theorem html_rings_closed_esri_rings_pointwise :
  (forall html payload ring,
      parse_settlement_page html = Ok (payload, ring) ->
      Rings.closed ring /\ exists g, ring = map point_value (close_ring g))
  /\ (forall g, ends_differ g = true -> close_ring g = g ++ firstn 1 g)
  /\ (forall g, ends_differ g = false -> close_ring g = g)
  /\ (forall L pts line,
         for_each (Atlas.add_vertex L) pts [] = Ok line ->
         Forall2 (Geometry.converted L) pts line).
Proof.
  split; [| split; [| split]].
  - intros html payload ring H.
    destruct (RingFacts.parse_settlement_page_ring _ _ _ H) as [g ->].
    split; [apply RingFacts.close_ring_is_closed | exists g; reflexivity].
  - apply RingFacts.close_ring_open.
  - apply RingFacts.close_ring_closed_already.
  - intros L pts line H.
    destruct (GeometryFacts.add_vertices_pointwise _ _ _ _ H) as [new [-> Hnew]].
    exact Hnew.
Qed.

Lemma html_rings_closed_witness :
  Rings.closed
    [corner "6.5" "3.3"; corner "6.6" "3.4"; corner "6.5" "3.5"; corner "6.5" "3.3"]
  /\ close_ring [(Py.Fresh F.zero, Py.Fresh F.zero); (Py.Fresh (F.nearest 1), Py.Fresh F.zero)]
     = [(Py.Fresh F.zero, Py.Fresh F.zero); (Py.Fresh (F.nearest 1), Py.Fresh F.zero);
        (Py.Fresh F.zero, Py.Fresh F.zero)]
  /\ close_ring [(Py.Fresh F.zero, Py.Fresh F.zero); (Py.Fresh (F.nearest 1), Py.Fresh F.zero);
                 (Py.Fresh F.zero, Py.Fresh F.zero)]
     = [(Py.Fresh F.zero, Py.Fresh F.zero); (Py.Fresh (F.nearest 1), Py.Fresh F.zero);
        (Py.Fresh F.zero, Py.Fresh F.zero)]
  /\ Forall2 (Geometry.converted Mercator.table_libm)
       [VList [VInt 0; VInt 0]; VList [VInt 1000; VInt 0]]
       [VList [VFloat F.zero; VFloat F.zero];
        VList [VFloat (Mercator.lon_of (F.nearest 1000)); VFloat F.zero]].
Proof.
  destruct html_rings_closed_esri_rings_pointwise as [Hclosed [Hopen [Hsame Hesri]]].
  split; [| split; [| split]].
  - apply (Hclosed open_ring_page
             (VDict [("section_A/A1_Profile_Date", VStr "2019-07-01")])).
    vm_compute. reflexivity.
  - apply (Hopen [(Py.Fresh F.zero, Py.Fresh F.zero); (Py.Fresh (F.nearest 1), Py.Fresh F.zero)]).
    reflexivity.
  - apply (Hsame [(Py.Fresh F.zero, Py.Fresh F.zero); (Py.Fresh (F.nearest 1), Py.Fresh F.zero);
                  (Py.Fresh F.zero, Py.Fresh F.zero)]).
    reflexivity.
  - apply (Hesri Mercator.table_libm). vm_compute. reflexivity.
Defined.

End ClosureFacts.

(* ================================================================== *)
(** * The batch: [build_parsed_records] *)
(* ================================================================== *)

Module BatchFacts.
Import Settlements.
Import Batch.

Section Run.

Variable fromisoformat : string -> option Datetime.date.
Variable session_get : Z -> string -> fetched.

Local Abbreviation step := (Settlements.step fromisoformat session_get).
Local Abbreviation build_record := (Settlements.build_record fromisoformat).
Local Abbreviation tried := (Batch.tried session_get).
Local Abbreviation successes_of := (Batch.successes_of session_get).
Local Abbreviation failures_of := (Batch.failures_of session_get).
Local Abbreviation settles := (Batch.settles fromisoformat session_get).

Lemma build_record_fields (idx : Z) (settlement : SettlementRecord) (payload : value)
  (geometry : list (float * float)) (r : ParsedSettlement) :
  build_record idx settlement payload geometry = Ok r -> record_of (idx, settlement) r.
Proof.
  unfold build_record, Settlements.build_record. intros H.
  do 2 inv_bind H.
  apply bind_Ok_inv in H. destruct H as [[formatted_date yr] [Hd H]].
  do 5 inv_bind H.
  inversion H. repeat split.
Qed.

(** The two ways a turn of the loop goes on to the next item. *)
Lemma step_cases (idx : Z) (settlement : SettlementRecord)
  (parsed : list ParsedSettlement) (failures : list (SettlementRecord * exn))
  (out : batch) :
  step (parsed, failures) (idx, settlement) = Ok out ->
  (exists page r,
      tried (idx, settlement) = Ok page
      /\ build_record idx settlement (fst page) (snd page) = Ok r
      /\ out = (parsed ++ [r], failures))
  \/ (exists exc,
         tried (idx, settlement) = Raise exc
         /\ caught exc = true
         /\ out = (parsed, failures ++ [(settlement, exc)])).
Proof.
  unfold step, Settlements.step, tried, caught. cbn [fst snd].
  destruct (fetch_and_parse session_get idx settlement) as [[payload geometry] | exc].
  - intros H. apply bind_Ok_inv in H. destruct H as [r [Hr H]].
    left. exists (payload, geometry), r. inversion H. repeat split. exact Hr.
  - destruct (is_RequestException exc || is_ValueError exc) eqn:Hc; [| discriminate].
    intros H. right. exists exc. inversion H. repeat split. exact Hc.
Qed.

Lemma successes_of_cons (item : Z * SettlementRecord) (items : list (Z * SettlementRecord)) :
  successes_of (item :: items)
  = (if returns (tried item) then [item] else []) ++ successes_of items.
Proof. unfold successes_of. cbn [filter]. destruct (returns (tried item)); reflexivity. Qed.

Lemma failures_of_cons (item : Z * SettlementRecord) (items : list (Z * SettlementRecord)) :
  failures_of (item :: items)
  = match tried item with
    | Ok _ => []
    | Raise e => [(snd item, e)]
    end ++ failures_of items.
Proof. reflexivity. Qed.

Lemma loop_characterised (items : list (Z * SettlementRecord))
  (parsed parsed' : list ParsedSettlement) (failures failures' : list (SettlementRecord * exn)) :
  for_each step items (parsed, failures) = Ok (parsed', failures') ->
  exists new,
    parsed' = parsed ++ new
    /\ Forall2 record_of (successes_of items) new
    /\ failures' = failures ++ failures_of items.
Proof.
  revert parsed failures.
  induction items as [| [idx settlement] items IH]; intros parsed failures H.
  - inversion H. exists []. rewrite !app_nil_r. repeat split. constructor.
  - cbn [for_each] in H. apply bind_Ok_inv in H. destruct H as [mid [Hstep H]].
    rewrite successes_of_cons, failures_of_cons.
    apply step_cases in Hstep.
    destruct Hstep as [[page [r [Ht [Hr ->]]]] | [exc [Ht [_ ->]]]];
      apply IH in H; destruct H as [new [-> [Hnew ->]]]; rewrite Ht; cbn [returns snd].
    + exists (r :: new). rewrite <- !app_assoc. repeat split.
      constructor; [apply (build_record_fields _ _ _ _ _ Hr) | exact Hnew].
    + exists new. rewrite <- !app_assoc. repeat split. exact Hnew.
Qed.

Lemma loop_returns (items : list (Z * SettlementRecord)) (acc : batch) :
  Forall settles items -> exists out, for_each step items acc = Ok out.
Proof.
  intros H. revert acc. induction H as [| [idx settlement] items Hs _ IH]; intros acc.
  - exists acc. reflexivity.
  - cbn [for_each]. destruct acc as [parsed failures].
    unfold settles in Hs.
    unfold step at 1, Settlements.step.
    unfold tried in Hs. cbn [fst snd] in Hs.
    destruct (fetch_and_parse session_get idx settlement) as [[payload geometry] | exc].
    + destruct Hs as [r Hr]. rewrite Hr. cbn [bind]. apply IH.
    + unfold caught in Hs. rewrite Hs. cbn [bind]. apply IH.
Qed.

Lemma split_counts (items : list (Z * SettlementRecord)) :
  (List.length (successes_of items) + List.length (failures_of items)
   = List.length items)%nat.
Proof.
  induction items as [| item items IH]; [reflexivity |].
  rewrite successes_of_cons, failures_of_cons, !length_app.
  destruct (tried item); cbn [returns List.length]; lia.
Qed.

Lemma failures_caught (items : list (Z * SettlementRecord)) (acc out : batch) :
  for_each step items acc = Ok out ->
  Forall (fun f => caught (snd f) = true) (failures_of items).
Proof.
  revert acc. induction items as [| [idx settlement] items IH]; intros acc H.
  - constructor.
  - cbn [for_each] in H. apply bind_Ok_inv in H. destruct H as [mid [Hstep H]].
    rewrite failures_of_cons. destruct acc as [parsed failures].
    apply step_cases in Hstep.
    destruct Hstep as [[page [r [Ht _]]] | [exc [Ht [Hc _]]]]; rewrite Ht; cbn [app].
    + eapply IH. exact H.
    + constructor; [exact Hc | eapply IH; exact H].
Qed.

End Run.

Lemma enumerate_nth {A : Type} (xs : list A) (start i : Z) (x : A) :
  In (i, x) (enumerate start xs) ->
  start <= i /\ nth_error xs (Z.to_nat (i - start)) = Some x.
Proof.
  revert start. induction xs as [| y xs IH]; intros start H; [destruct H |].
  cbn [enumerate] in H. destruct H as [H | H].
  - inversion H. subst. split; [lia |]. rewrite Z.sub_diag. reflexivity.
  - apply IH in H. destruct H as [Hle Hn]. split; [lia |].
    replace (i - start) with (Z.succ (i - (start + 1))) by lia.
    rewrite Z2Nat.inj_succ by lia. exact Hn.
Qed.

Lemma enumerate_length {A : Type} (xs : list A) (start : Z) :
  List.length (enumerate start xs) = List.length xs.
Proof.
  revert start; induction xs as [| x xs IH]; intros start; simpl; [| rewrite IH]; reflexivity.
Qed.

Lemma Forall2_In_r {A B : Type} (P : A -> B -> Prop) (l : list A) (l' : list B) (b : B) :
  Forall2 P l l' -> In b l' -> exists a, In a l /\ P a b.
Proof.
  induction 1 as [| a0 b0 l l' H0 _ IH]; intros Hin; [destruct Hin |].
  destruct Hin as [<- | Hin].
  - exists a0. split; [left; reflexivity | exact H0].
  - destruct (IH Hin) as [a [Ha Hp]]. exists a. split; [right; exact Ha | exact Hp].
Qed.

(** C1, amended.  When no item ends the run, the batch returns.  When it
    returns, every item of the input is in exactly one of the two lists: the
    failures are the items whose fetch or parse raised, each with its
    exception, which is a [RequestException] or a [ValueError], in their
    order; the records are those of the other items, in their order; the
    two lists together are as long as the input.  The id of a record is the
    1-based position of its item in the input, not its position among the
    successes. *)
Theorem batch_partition_ids_are_input_positions
  (fromisoformat : string -> option Datetime.date)
  (session_get : Z -> string -> fetched) (settlements : list SettlementRecord) :
  let items := enumerate 1 settlements in
  (Forall (settles fromisoformat session_get) items ->
   exists out, build_parsed_records fromisoformat session_get settlements = Ok out)
  /\ forall parsed failures,
       build_parsed_records fromisoformat session_get settlements = Ok (parsed, failures) ->
       Forall2 record_of (successes_of session_get items) parsed
       /\ failures = failures_of session_get items
       /\ Forall (fun f => caught (snd f) = true) failures
       /\ (List.length parsed + List.length failures = List.length settlements)%nat
       /\ forall r, In r parsed ->
            exists s, nth_error settlements (Z.to_nat (rec_id r - 1)) = Some s
                      /\ 1 <= rec_id r
                      /\ parsed_city r = city s /\ parsed_name r = name s.
Proof.
  intros items. split.
  - intros H. apply loop_returns. exact H.
  - intros parsed failures H. unfold build_parsed_records in H.
    pose proof (failures_caught _ _ _ _ _ H) as Hcaught.
    apply loop_characterised in H. destruct H as [new [Hp [Hnew Hf]]].
    cbn [app] in Hp, Hf. subst new failures.
    split; [exact Hnew |]. split; [reflexivity |]. split; [exact Hcaught |]. split.
    + rewrite <- (Forall2_length Hnew), <- (enumerate_length settlements 1).
      apply split_counts.
    + intros r Hr.
      destruct (Forall2_In_r _ _ _ _ Hnew Hr) as [[idx s] [Hin [Hid [Hcity Hname]]]].
      apply filter_In in Hin. destruct Hin as [Hin _].
      apply enumerate_nth in Hin. destruct Hin as [Hle Hn].
      cbn [fst snd] in *. exists s. rewrite Hid. auto.
Qed.

(** ** Three items, the second without the geometry marker *)

Lemma three_items_batch_built :
  build_parsed_records no_iso network three_items = Ok three_items_batch.
Proof. vm_compute. reflexivity. Qed.

(** C1, as stated, fails: the two successes carry the ids 1 and 3, the
    positions of their items, and not 1 and 2. *)
Lemma ids_are_not_renumbered :
  build_parsed_records no_iso network three_items = Ok three_items_batch
  /\ map rec_id (fst three_items_batch) = [1; 3]
  /\ map rec_id (fst three_items_batch) <> [1; 2]
  /\ snd three_items_batch
     = [(item "102", ValueError "Could not locate geometry payload in page")].
Proof.
  split; [vm_compute; reflexivity |].
  split; [vm_compute; reflexivity |].
  split; [vm_compute; discriminate | vm_compute; reflexivity].
Qed.

Lemma batch_partition_witness :
  (exists out, build_parsed_records no_iso network three_items = Ok out)
  /\ Forall2 record_of (successes_of network (enumerate 1 three_items))
       (fst three_items_batch)
  /\ snd three_items_batch = failures_of network (enumerate 1 three_items)
  /\ (List.length (fst three_items_batch) + List.length (snd three_items_batch) = 3)%nat.
Proof.
  destruct (batch_partition_ids_are_input_positions no_iso network three_items)
    as [Hreturns Hsplit].
  split.
  - apply Hreturns. repeat constructor; unfold settles; vm_compute; eauto.
  - destruct (Hsplit (fst three_items_batch) (snd three_items_batch)
                three_items_batch_built) as [H1 [H2 [_ [H4 _]]]].
    split; [exact H1 |]. split; [exact H2 | exact H4].
Defined.

End BatchFacts.

(* ================================================================== *)
(** * Listing the settlements of a country: [list_country_settlements] *)
(* ================================================================== *)

Module ListingFacts.
Import Settlements.
Import Listing.

Section Facts.
Variable repr : value -> string.

Lemma add_settlement_listed (country_key city : string)
  (settlements : list SettlementRecord) (item : value) :
  add_settlement repr country_key city settlements item
  = Ok (settlements ++ listed repr country_key city item).
Proof.
  unfold add_settlement, listed.
  destruct item; try (rewrite app_nil_r; reflexivity).
  cbn [Py.get Py.get_default bind].
  destruct (Py.assoc "form_id" d) as [form_id |]; cbn [Py.truthy negb orb].
  - destruct (Py.assoc "ona_id" d) as [ona_id |]; cbn [Py.truthy negb orb].
    + destruct (Py.truthy form_id), (Py.truthy ona_id); cbn [negb orb andb];
        rewrite ?app_nil_r; reflexivity.
    + rewrite orb_true_r, app_nil_r. reflexivity.
  - rewrite app_nil_r. reflexivity.
Qed.

Lemma add_settlements_listed (country_key city : string) (items : list value)
  (settlements : list SettlementRecord) :
  for_each (add_settlement repr country_key city) items settlements
  = Ok (settlements ++ flat_map (listed repr country_key city) items).
Proof.
  revert settlements. induction items as [| item items IH]; intros settlements.
  - simpl. rewrite app_nil_r. reflexivity.
  - cbn [for_each flat_map]. rewrite add_settlement_listed. cbn [bind].
    rewrite IH, app_assoc. reflexivity.
Qed.

Lemma add_cities_listed (country_key : string) (entries : list (string * value))
  (settlements : list SettlementRecord) :
  cities_iterable entries ->
  for_each (add_city repr country_key) entries settlements
  = Ok (settlements ++ listing repr country_key entries).
Proof.
  intros H. revert settlements.
  induction H as [| [city items] entries Hc _ IH]; intros settlements.
  - simpl. rewrite app_nil_r. reflexivity.
  - cbn [for_each]. unfold add_city at 1. unfold listing. cbn [flat_map fst snd].
    fold (listing repr country_key entries).
    destruct (String.eqb city "info") eqn:Hinfo.
    + cbn [bind app]. apply IH.
    + destruct Hc as [Hc | [l Hl]].
      * apply String.eqb_neq in Hinfo. contradiction.
      * cbn [snd] in Hl. unfold elements. rewrite Hl. cbn [bind].
        rewrite add_settlements_listed. cbn [bind].
        rewrite IH, app_assoc. reflexivity.
Qed.

Lemma listed_well_listed (country_key city : string) (item : value) :
  city <> "info" ->
  Forall (well_listed country_key) (listed repr country_key city item).
Proof.
  intros Hcity. unfold listed.
  destruct item; try constructor.
  destruct (Py.assoc "form_id" d) as [form_id |]; [| constructor].
  destruct (Py.assoc "ona_id" d) as [ona_id |]; [| constructor].
  destruct (_ && _); constructor; [| constructor].
  repeat split; [exact Hcity |]. eexists. reflexivity.
Qed.

Lemma add_city_well_listed (country_key : string) (settlements out : list SettlementRecord)
  (entry : string * value) :
  Forall (well_listed country_key) settlements ->
  add_city repr country_key settlements entry = Ok out ->
  Forall (well_listed country_key) out.
Proof.
  intros Hs. unfold add_city. destruct entry as [city items].
  destruct (String.eqb city "info") eqn:Hinfo.
  - intros H. inversion H. subst. exact Hs.
  - intros H. inv_bind H. rewrite add_settlements_listed in H. inversion H.
    apply Forall_app. split; [exact Hs |].
    apply Forall_flat_map. apply Forall_forall. intros item _.
    apply listed_well_listed. apply String.eqb_neq. exact Hinfo.
Qed.

Lemma add_cities_well_listed (country_key : string) (entries : list (string * value))
  (settlements out : list SettlementRecord) :
  Forall (well_listed country_key) settlements ->
  for_each (add_city repr country_key) entries settlements = Ok out ->
  Forall (well_listed country_key) out.
Proof.
  revert settlements. induction entries as [| entry entries IH]; intros settlements Hs H.
  - inversion H. subst. exact Hs.
  - cbn [for_each] in H. inv_bind H.
    eapply IH; [| exact H]. eapply add_city_well_listed; eassumption.
Qed.

Lemma add_city_raises (country_key : string) (settlements : list SettlementRecord)
  (entry : string * value) (e : exn) :
  add_city repr country_key settlements entry = Raise e -> e = TypeError.
Proof.
  unfold add_city. destruct entry as [city items].
  destruct (String.eqb city "info"); [discriminate |].
  destruct (Py.iterate items) as [l |] eqn:Hi.
  - cbn [bind]. rewrite add_settlements_listed. discriminate.
  - intros H. inversion H. subst.
    destruct items; try discriminate; inversion Hi; reflexivity.
Qed.

Lemma add_cities_raise (country_key : string) (entries : list (string * value))
  (settlements : list SettlementRecord) (e : exn) :
  for_each (add_city repr country_key) entries settlements = Raise e -> e = TypeError.
Proof.
  revert settlements. induction entries as [| entry entries IH]; intros settlements H;
    [discriminate |].
  cbn [for_each] in H.
  destruct (add_city repr country_key settlements entry) as [out |] eqn:Hc.
  - eapply IH. exact H.
  - inversion H. subst. eapply add_city_raises. exact Hc.
Qed.

End Facts.

(** X1.  [list_country_settlements] returns the settlements of the country
    city by city and entry by entry, in the order of the filter data: one
    record for each entry that is a dictionary with a form id and an ona id
    that are both true, none for the other entries and none for the key
    info.  A country that is not a key of the verified data raises
    [KeyError] with the name of the country. *)
Theorem list_country_settlements_in_payload_order
  (repr : value -> string) (payload : value) (verified : list (string * value))
  (country_key : string) (entries : list (string * value)) :
  Py.get_default payload "verified" (VDict []) = Ok (VDict verified) ->
  (Py.assoc country_key verified = Some (VDict entries) ->
   cities_iterable entries ->
   list_country_settlements repr payload country_key
   = Ok (listing repr country_key entries))
  /\ (Py.assoc country_key verified = None ->
      list_country_settlements repr payload country_key
      = Raise (KeyError ("Country '" ++ country_key ++ "' not found in filter data"))).
Proof.
  intros Hv. unfold list_country_settlements. rewrite Hv. cbn [bind Py.contains Py.getitem].
  split; [intros Hk Hc | intros Hk]; rewrite Hk; cbn [negb bind]; [| reflexivity].
  cbn [Py.items bind]. apply (add_cities_listed repr country_key entries [] Hc).
Qed.

Lemma list_country_settlements_witness :
  list_country_settlements no_repr filter_data "Nigeria"
  = Ok (listing no_repr "Nigeria" nigeria_entries)
  /\ list_country_settlements no_repr filter_data "Ghana"
     = Raise (KeyError "Country 'Ghana' not found in filter data").
Proof.
  split.
  - apply (proj1 (list_country_settlements_in_payload_order no_repr filter_data
                    verified_countries "Nigeria" nigeria_entries eq_refl));
      [reflexivity |].
    unfold cities_iterable, nigeria_entries.
    repeat (apply Forall_cons;
            [first [left; reflexivity | right; eexists; reflexivity] |]).
    apply Forall_nil.
  - apply (proj2 (list_country_settlements_in_payload_order no_repr filter_data
                    verified_countries "Ghana" [] eq_refl)).
    reflexivity.
Defined.

(** X2.  Every record [list_country_settlements] returns carries the
    country asked for, a city other than info, and the address of the
    settlement page made from a form id and the id of the record. *)
Theorem listed_records_carry_country_and_url
  (repr : value -> string) (payload : value) (country_key : string)
  (settlements : list SettlementRecord) :
  list_country_settlements repr payload country_key = Ok settlements ->
  Forall (well_listed country_key) settlements.
Proof.
  unfold list_country_settlements. intros H.
  do 2 inv_bind H. destruct (negb a0); [discriminate |].
  do 2 inv_bind H.
  eapply add_cities_well_listed; [constructor | exact H].
Qed.

(** X22.  [list_country_settlements] raises [KeyError] with the name of
    the country when the verified data are a container without it, and
    otherwise only [AttributeError], for data without [get] or [items], or
    [TypeError], for data that cannot be searched, indexed by a name or
    iterated.  With a dictionary of dictionaries of lists it returns. *)
Theorem list_country_settlements_exceptions
  (repr : value -> string) (payload : value) (country_key : string) (e : exn) :
  list_country_settlements repr payload country_key = Raise e ->
  listing_error country_key e
  /\ (forall verified cities,
        Py.get_default payload "verified" (VDict []) = Ok (VDict verified) ->
        Py.assoc country_key verified = Some (VDict cities) ->
        ~ cities_iterable cities).
Proof.
  unfold list_country_settlements, listing_error. intros H. split.
  - destruct (Py.get_default payload "verified" (VDict [])) as [verified |] eqn:Hv.
    2:{ inversion H. subst. destruct payload; try discriminate; inversion Hv; auto. }
    cbn [bind] in H.
    destruct (Py.contains verified country_key) as [present |] eqn:Hc.
    2:{ inversion H. subst. destruct verified; try discriminate; inversion Hc; auto. }
    cbn [bind] in H. destruct present; cbn [negb] in H; [| inversion H; auto].
    destruct (Py.getitem verified country_key) as [country_entries |] eqn:Hg.
    2:{ inversion H. subst. destruct verified as [| b | z | f | str | l | d];
          try (inversion Hg; auto; fail).
        cbn [Py.contains Py.getitem] in Hc, Hg.
        destruct (Py.assoc country_key d); [discriminate Hg | discriminate Hc]. }
    cbn [bind] in H.
    destruct (Py.items country_entries) as [entries |] eqn:Hi.
    2:{ inversion H. subst. destruct country_entries; try discriminate; inversion Hi; auto. }
    cbn [bind] in H. apply add_cities_raise in H. auto.
  - intros verified cities Hv Hk Hc.
    rewrite Hv in H. cbn [bind Py.contains Py.getitem] in H. rewrite Hk in H.
    cbn [negb bind Py.items] in H.
    rewrite (add_cities_listed repr country_key cities [] Hc) in H. discriminate.
Qed.

Lemma list_country_settlements_exceptions_witness :
  listing_error "Ghana" (KeyError "Country 'Ghana' not found in filter data").
Proof.
  apply (list_country_settlements_exceptions no_repr filter_data "Ghana").
  vm_compute. reflexivity.
Defined.

Lemma listed_records_witness : Forall (well_listed "Nigeria") nigeria_settlements.
Proof.
  apply (listed_records_carry_country_and_url no_repr filter_data "Nigeria").
  vm_compute. reflexivity.
Defined.

End ListingFacts.

(* ================================================================== *)
(** * Bounds of the attribute coercion *)
(* ================================================================== *)

Module CoercionBounds.
Import Settlements.

(** X3.  [_safe_float] raises for one kind of value only: an [int] too
    large for a float, where [float(value)] raises [OverflowError] in the
    branch of the numbers, outside the [try].  For every other value it
    returns a float or [None]. *)
Theorem safe_float_raises_only_on_huge_int (v : value) (e : exn) :
  _safe_float v = Raise e ->
  exists z, v = VInt z /\ e = OverflowError /\ F.is_inf (F.nearest z) = true.
Proof.
  unfold _safe_float. destruct v as [| b | z | f | str | l | d];
    cbn [Py.float_ bind]; try discriminate.
  - unfold F.of_int. destruct (F.is_inf (F.nearest z)) eqn:Hz; cbn [bind]; [| discriminate].
    intros H. inversion H. exists z. auto.
  - destruct (_ || _); [discriminate |].
    unfold float_or_none, Py.float_. destruct (Py.float_of_chars _); discriminate.
Qed.

Lemma safe_float_raises_witness :
  exists z, VInt (10 ^ 400) = VInt z /\ OverflowError = OverflowError
            /\ F.is_inf (F.nearest z) = true.
Proof.
  apply (safe_float_raises_only_on_huge_int (VInt (10 ^ 400)) OverflowError).
  vm_compute. reflexivity.
Defined.

Lemma round_half_even_near (m k : Z) :
  0 <= k ->
  2 * Z.abs (F.round_half_even m k * 2 ^ k - m) <= 2 ^ k.
Proof.
  intros Hk. unfold F.round_half_even.
  assert (Hd : 0 < 2 ^ k) by (apply Z.pow_pos_nonneg; lia).
  assert (Hnz : 2 ^ k <> 0) by (intros H0; rewrite H0 in Hd; inversion Hd).
  pose proof (Z.div_mod m (2 ^ k) Hnz) as Hdm.
  pose proof (Z.mod_pos_bound m (2 ^ k) Hd) as Hr.
  set (d := 2 ^ k) in *. set (q := m / d) in *. set (r := m mod d) in *.
  clearbody d q r.
  assert (Hlow : q * d - m = - r) by lia.
  assert (Hup : (q + 1) * d - m = d - r) by lia.
  destruct (2 * r ?= d) eqn:Hc.
  - apply Z.compare_eq in Hc.
    destruct (Z.even q); [rewrite Hlow | rewrite Hup]; lia.
  - rewrite Z.compare_lt_iff in Hc. rewrite Hlow. lia.
  - rewrite Z.compare_gt_iff in Hc. rewrite Hup. lia.
Qed.

(** X4.  Where [_safe_float] gives a finite float other than zero,
    [_safe_int] returns an integer, never [None] and never an error: the
    float itself when it is whole, and otherwise an integer at most one
    half away from it. *)
Theorem safe_int_within_half (v : value) (s : bool) (m : positive) (e : Z) :
  _safe_float v = Ok (Some (S754_finite s m e)) ->
  exists n,
    _safe_int v = Ok (Some n)
    /\ (0 <= e -> n = cond_Zopp s (Zpos m * 2 ^ e))
    /\ (e < 0 -> 2 * Z.abs (n * 2 ^ (- e) - cond_Zopp s (Zpos m)) <= 2 ^ (- e)).
Proof.
  intros H. unfold _safe_int. rewrite H. cbn [bind F.round].
  eexists. split; [reflexivity |]. split.
  - intros He. apply Z.leb_le in He. rewrite He. reflexivity.
  - intros He. apply Z.leb_gt in He. rewrite He.
    pose proof (round_half_even_near (Zpos m) (- e) ltac:(lia)) as Hn.
    destruct s; cbn [cond_Zopp]; [| exact Hn].
    replace (- F.round_half_even (Z.pos m) (- e) * 2 ^ (- e) - - Z.pos m)
      with (- (F.round_half_even (Z.pos m) (- e) * 2 ^ (- e) - Z.pos m)) by ring.
    rewrite Z.abs_opp. exact Hn.
Qed.

Lemma safe_int_within_half_witness :
  exists n,
    _safe_int (VStr "-0.75") = Ok (Some n)
    /\ (0 <= -53 -> n = cond_Zopp true (Zpos 6755399441055744 * 2 ^ (-53)))
    /\ (-53 < 0 ->
        2 * Z.abs (n * 2 ^ (- -53) - cond_Zopp true (Zpos 6755399441055744))
        <= 2 ^ (- -53)).
Proof.
  apply (safe_int_within_half (VStr "-0.75") true 6755399441055744 (-53)).
  vm_compute. reflexivity.
Defined.

End CoercionBounds.

(* ================================================================== *)
(** * Dates read back: [strftime] and [strptime] *)
(* ================================================================== *)

Module RereadingFacts.
Import Settlements.
Import Rereading.

Lemma in_numbers (first last z : Z) :
  first <= z <= last -> In z (numbers first last).
Proof.
  intros H. unfold numbers. apply in_map_iff. exists (Z.to_nat (z - first)).
  split; [lia |]. apply in_seq. lia.
Qed.

Lemma years_checked : forallb year_digits_ok (numbers 1000 9999) = true.
Proof. vm_compute. reflexivity. Qed.

Lemma year_digits (y : Z) :
  1000 <= y <= 9999 ->
  exists a b c d,
    Str.decimal y = [a; b; c; d]
    /\ Str.is_digit a = true /\ Str.is_digit b = true
    /\ Str.is_digit c = true /\ Str.is_digit d = true
    /\ Py.digits_value [a; b; c; d] = y.
Proof.
  intros Hy.
  pose proof (proj1 (forallb_forall _ _) years_checked y (in_numbers 1000 9999 y Hy))
    as H.
  unfold year_digits_ok in H.
  destruct (Str.decimal y) as [| a [| b [| c [| d [| e l]]]]]; try discriminate.
  apply andb_true_iff in H. destruct H as [Hd Hv].
  cbn [forallb] in Hd. rewrite !andb_true_iff in Hd.
  destruct Hd as [Ha [Hb [Hc [Hd _]]]].
  exists a, b, c, d. apply Z.eqb_eq in Hv. auto 10.
Qed.

Lemma is_digit_cases (c : ascii) : Str.is_digit c = true -> In c digit_chars.
Proof.
  destruct c as [[] [] [] [] [] [] [] []]; intros H; try discriminate H;
    cbn; auto 12.
Qed.

(** A digit starts no white-space token, read forwards or backwards, and is
    not the letter T. *)
Lemma digit_no_space (c : ascii) (rest : list ascii) :
  Str.is_digit c = true ->
  Str.drop_token Str.unicode_spaces (c :: rest) = None
  /\ Str.drop_token (map (@rev ascii) Str.unicode_spaces) (c :: rest) = None
  /\ Ascii.eqb "T" c = false.
Proof.
  intros H. apply is_digit_cases in H. cbn in H.
  repeat (destruct H as [<- | H]; [repeat split; reflexivity |]).
  destruct H.
Qed.


(** A day or a month in two digits. *)
Lemma two_digits_shape (n : Z) :
  1 <= n <= 31 ->
  exists p q, Str.pad 2 (Str.decimal n) = [p; q]
              /\ Str.is_digit p = true /\ Str.is_digit q = true.
Proof.
  intros H. apply (in_numbers 1 31) in H. cbn in H.
  repeat (destruct H as [<- | H]; [eexists; eexists; repeat split; reflexivity |]).
  destruct H.
Qed.

Ltac eval_pad :=
  match goal with
  | |- context [Str.pad ?n (Str.decimal ?d)] =>
      let t := eval vm_compute in (Str.pad n (Str.decimal d)) in
      change (Str.pad n (Str.decimal d)) with t
  end.

Lemma day_then_dot (d : Z) (ts : list Datetime.token) (rest : list ascii)
  (f : Datetime.fields) :
  1 <= d <= 31 ->
  Datetime.matches (Datetime.Day :: Datetime.Lit "." :: ts)
                   (Str.pad 2 (Str.decimal d) ++ "."%char :: rest) f
  = Datetime.matches ts rest (Datetime.record_field Datetime.Day d f).
Proof.
  intros H. apply (in_numbers 1 31) in H. vm_compute in H. destruct f as [[fy fm] fd].
  repeat (destruct H as [<- | H];
          [eval_pad; cbn -[Datetime.matches]; cbn [Datetime.matches flat_map];
           cbn -[Datetime.matches]; rewrite ?app_nil_r; reflexivity |]).
  destruct H.
Qed.

Lemma day_then_dash (d : Z) (ts : list Datetime.token) (rest : list ascii)
  (f : Datetime.fields) :
  1 <= d <= 31 ->
  Datetime.matches (Datetime.Day :: Datetime.Lit "-" :: ts)
                   (Str.pad 2 (Str.decimal d) ++ "."%char :: rest) f
  = [].
Proof.
  intros H. apply (in_numbers 1 31) in H. vm_compute in H.
  repeat (destruct H as [<- | H]; [eval_pad; reflexivity |]).
  destruct H.
Qed.

Lemma month_then_dot (m : Z) (ts : list Datetime.token) (rest : list ascii)
  (f : Datetime.fields) :
  1 <= m <= 12 ->
  Datetime.matches (Datetime.Month :: Datetime.Lit "." :: ts)
                   (Str.pad 2 (Str.decimal m) ++ "."%char :: rest) f
  = Datetime.matches ts rest (Datetime.record_field Datetime.Month m f).
Proof.
  intros H. apply (in_numbers 1 12) in H. vm_compute in H. destruct f as [[fy fm] fd].
  repeat (destruct H as [<- | H];
          [eval_pad; cbn -[Datetime.matches]; cbn [Datetime.matches flat_map];
           cbn -[Datetime.matches]; rewrite ?app_nil_r; reflexivity |]).
  destruct H.
Qed.

Lemma year_needs_four_digits (a b c : ascii) (rest : list ascii)
  (ts : list Datetime.token) (f : Datetime.fields) :
  Datetime.matches (Datetime.Year :: ts) (a :: b :: "."%char :: c :: rest) f = [].
Proof.
  cbn [Datetime.matches Datetime.alternatives forallb].
  replace (Str.is_digit "."%char) with false by reflexivity.
  rewrite andb_false_l, !andb_false_r. reflexivity.
Qed.


Lemma make_fields (y m d : Z) (dt : Datetime.date) :
  Datetime.make y m d = Ok dt ->
  dt = Datetime.mkdate y m d /\ 1 <= y <= 9999 /\ 1 <= m <= 12 /\ 1 <= d <= 31.
Proof.
  unfold Datetime.make.
  destruct (_ && _) eqn:H; [| discriminate].
  intros E. inversion E.
  rewrite !andb_true_iff in H. rewrite !Z.leb_le in H.
  assert (Datetime.days_in_month y m <= 31).
  { unfold Datetime.days_in_month.
    destruct (m =? 2); [destruct (Datetime.is_leap y); lia |].
    destruct (_ || _); lia. }
  repeat split; lia.
Qed.

Lemma strptime_valid (text fmt : string) (dt : Datetime.date) :
  Datetime.strptime text fmt = Ok dt ->
  Datetime.make (Datetime.year dt) (Datetime.month dt) (Datetime.day dt) = Ok dt.
Proof.
  unfold Datetime.strptime.
  destruct (Datetime.compile _); [| discriminate].
  destruct (Datetime.matches _ _ _) as [| [[[y m] d] rest] ms]; [discriminate |].
  destruct rest; [| discriminate].
  intros H. destruct (make_fields _ _ _ _ H) as [-> _]. exact H.
Qed.

Lemma first_format_valid (formats : list string) (text : string)
  (dt : Datetime.date) :
  first_format formats text = Ok (Some dt) ->
  Datetime.make (Datetime.year dt) (Datetime.month dt) (Datetime.day dt) = Ok dt.
Proof.
  induction formats as [| fmt rest IH]; cbn [first_format]; [discriminate |].
  destruct (Datetime.strptime text fmt) eqn:Hp.
  - intros H. inversion H. subst. eapply strptime_valid. exact Hp.
  - destruct (is_ValueError e); [exact IH | discriminate].
Qed.

Lemma strip_between_digits (c e : ascii) (l : list ascii) :
  Str.is_digit c = true -> Str.is_digit e = true ->
  Str.strip_tokens Str.unicode_spaces (c :: l ++ [e]) = c :: l ++ [e].
Proof.
  intros Hc He. unfold Str.strip_tokens.
  destruct (digit_no_space c (l ++ [e]) Hc) as [Hfront _].
  cbn [List.length Str.lstrip_tokens]. rewrite Hfront.
  replace (rev (c :: l ++ [e])) with (e :: rev l ++ [c])
    by (cbn [rev]; rewrite rev_app_distr; reflexivity).
  destruct (digit_no_space e (rev l ++ [c]) He) as [_ [Hback _]].
  cbn [List.length Str.lstrip_tokens]. rewrite Hback.
  cbn [rev]. rewrite rev_app_distr, rev_involutive. reflexivity.
Qed.

Lemma find_T_absent (l : list ascii) :
  Forall (fun c => Ascii.eqb "T" c = false) l -> Str.find ["T"%char] l = None.
Proof.
  induction 1 as [| c l Hc Hl IH]; [reflexivity |].
  cbn [Str.find Str.prefix]. rewrite Hc, IH. reflexivity.
Qed.

(** What the four formats make of a printed date. *)
Lemma printed_date_formats (y m d : Z) (dt : Datetime.date) :
  Datetime.make y m d = Ok dt ->
  1000 <= y ->
  let printed := Datetime.strftime_dmY dt in
  Datetime.strptime printed "%Y-%m-%d"
  = Raise (ValueError "time data does not match format")
  /\ Datetime.strptime printed "%d-%m-%Y"
     = Raise (ValueError "time data does not match format")
  /\ Datetime.strptime printed "%Y/%m/%d"
     = Raise (ValueError "time data does not match format")
  /\ Datetime.strptime printed "%d.%m.%Y" = Ok dt.
Proof.
  intros Hmake Hy.
  destruct (make_fields _ _ _ _ Hmake) as [-> [Hy' [Hm Hd]]].
  destruct (two_digits_shape d Hd) as [p [q [Ed [Hp Hq]]]].
  destruct (two_digits_shape m ltac:(lia)) as [r [s [Em [Hr Hs]]]].
  destruct (year_digits y ltac:(lia)) as [a [b [c [e [Ey [Ha [Hb [Hc [He Hv]]]]]]]]].
  unfold Datetime.strftime_dmY.
  cbn [Datetime.day Datetime.month Datetime.year].
  set (printed := Str.pad 2 (Str.decimal d) ++ ["."%char]
                  ++ Str.pad 2 (Str.decimal m) ++ ["."%char] ++ Str.decimal y).
  assert (Eprinted : printed = p :: [q; "."%char; r; s; "."%char; a; b; c] ++ [e]).
  { unfold printed. rewrite Ed, Em, Ey. reflexivity. }
  cbv zeta. unfold Datetime.strptime.
  assert (Hchars : Str.chars (Str.of_chars printed) = printed)
    by apply list_ascii_of_string_of_list_ascii.
  rewrite Hchars.
  replace (Datetime.compile (Str.chars "%Y-%m-%d"))
    with (Some [Datetime.Year; Datetime.Lit "-"; Datetime.Month;
                Datetime.Lit "-"; Datetime.Day]) by reflexivity.
  replace (Datetime.compile (Str.chars "%d-%m-%Y"))
    with (Some [Datetime.Day; Datetime.Lit "-"; Datetime.Month;
                Datetime.Lit "-"; Datetime.Year]) by reflexivity.
  replace (Datetime.compile (Str.chars "%Y/%m/%d"))
    with (Some [Datetime.Year; Datetime.Lit "/"; Datetime.Month;
                Datetime.Lit "/"; Datetime.Day]) by reflexivity.
  replace (Datetime.compile (Str.chars "%d.%m.%Y"))
    with (Some [Datetime.Day; Datetime.Lit "."; Datetime.Month;
                Datetime.Lit "."; Datetime.Year]) by reflexivity.
  assert (Hyear : forall ts f, Datetime.matches (Datetime.Year :: ts) printed f = []).
  { intros ts f. rewrite Eprinted. apply year_needs_four_digits. }
  rewrite !Hyear.
  assert (Hdash : Datetime.matches
                    [Datetime.Day; Datetime.Lit "-"; Datetime.Month;
                     Datetime.Lit "-"; Datetime.Year] printed (None, None, None)
                  = []).
  { unfold printed. apply day_then_dash. exact Hd. }
  rewrite Hdash.
  assert (Hdot : Datetime.matches
                   [Datetime.Day; Datetime.Lit "."; Datetime.Month;
                    Datetime.Lit "."; Datetime.Year] printed (None, None, None)
                 = [((Some y, Some m, Some d), [])]).
  { unfold printed. cbn [app].
    rewrite day_then_dot by exact Hd.
    rewrite month_then_dot by lia.
    rewrite Ey. cbn [Datetime.matches Datetime.alternatives forallb].
    rewrite Ha, Hb, Hc, He. cbn [andb flat_map app fst snd Datetime.record_field].
    rewrite Hv. reflexivity. }
  rewrite Hdot, Hmake. repeat split.
Qed.

(** A printed date has no white space around it and no letter T. *)
Lemma printed_date_plain (y m d : Z) (dt : Datetime.date) :
  Datetime.make y m d = Ok dt ->
  1000 <= y ->
  let printed := Datetime.strftime_dmY dt in
  Str.strip printed = printed
  /\ Str.contains "T" printed = false
  /\ printed <> EmptyString.
Proof.
  intros Hmake Hy.
  destruct (make_fields _ _ _ _ Hmake) as [-> [Hy' [Hm Hd]]].
  destruct (two_digits_shape d Hd) as [p [q [Ed [Hp Hq]]]].
  destruct (two_digits_shape m ltac:(lia)) as [r [s [Em [Hr Hs]]]].
  destruct (year_digits y ltac:(lia)) as [a [b [c [e [Ey [Ha [Hb [Hc [He Hv]]]]]]]]].
  unfold Datetime.strftime_dmY.
  cbn [Datetime.day Datetime.month Datetime.year].
  set (printed := Str.pad 2 (Str.decimal d) ++ ["."%char]
                  ++ Str.pad 2 (Str.decimal m) ++ ["."%char] ++ Str.decimal y).
  assert (Eprinted : printed = p :: [q; "."%char; r; s; "."%char; a; b; c] ++ [e]).
  { unfold printed. rewrite Ed, Em, Ey. reflexivity. }
  cbv zeta. split; [| split].
  - unfold Str.strip, Str.chars, Str.of_chars.
    rewrite list_ascii_of_string_of_list_ascii, Eprinted.
    rewrite strip_between_digits by assumption. reflexivity.
  - unfold Str.contains. unfold Str.chars at 2. unfold Str.of_chars.
    rewrite list_ascii_of_string_of_list_ascii, Eprinted.
    rewrite find_T_absent; [reflexivity |].
    repeat (apply Forall_cons;
            [first [reflexivity | apply digit_no_space with (rest := []); assumption] |]).
    apply Forall_nil.
  - rewrite Eprinted. discriminate.
Qed.

Section Reread.

Variable fromisoformat : string -> option Datetime.date.

Local Abbreviation _format_date := (_format_date fromisoformat).

Lemma printed_date_reread (y m d : Z) (dt : Datetime.date) :
  Datetime.make y m d = Ok dt ->
  1000 <= y ->
  _format_date (VStr (Datetime.strftime_dmY dt))
  = Ok (Datetime.strftime_dmY dt, Some y).
Proof.
  intros Hmake Hy.
  destruct (printed_date_plain y m d dt Hmake Hy) as [Hstrip [HT Hne]].
  destruct (printed_date_formats y m d dt Hmake Hy) as [H1 [H2 [H3 H4]]].
  unfold Settlements._format_date. cbn [Py.truthy].
  apply String.eqb_neq in Hne. rewrite Hne. cbn [negb].
  rewrite Hstrip, Hne, HT.
  unfold date_formats. cbn [first_format]. rewrite H1, H2, H3, H4.
  cbn [is_ValueError bind].
  destruct (make_fields _ _ _ _ Hmake) as [-> _]. reflexivity.
Qed.

(** X5.  The text [_format_date] prints for a date, day.month.year, is read
    back as the same date: for every date of the calendar with a year of
    four digits, [strptime] with the format of the print returns the date,
    the three other formats do not match, and [_format_date] returns the
    text as it is, with the year of the date. *)
Theorem format_date_rereads_its_output (y m d : Z) (dt : Datetime.date) :
  Datetime.make y m d = Ok dt ->
  1000 <= y ->
  Datetime.strptime (Datetime.strftime_dmY dt) "%d.%m.%Y" = Ok dt
  /\ _format_date (VStr (Datetime.strftime_dmY dt))
     = Ok (Datetime.strftime_dmY dt, Some y).
Proof.
  intros Hmake Hy. split.
  - apply (printed_date_formats y m d dt Hmake Hy).
  - apply (printed_date_reread y m d dt Hmake Hy).
Qed.

(** X6.  Formatting twice is formatting once: when [_format_date] has
    parsed a text to a date with a year of four digits, giving it the text
    it returned gives the same text and the same year again.
    [fromisoformat] is taken to return dates of the calendar only. *)
Theorem format_date_idempotent (raw out : string) (y : Z) :
  (forall text dt, fromisoformat text = Some dt ->
     Datetime.make (Datetime.year dt) (Datetime.month dt) (Datetime.day dt) = Ok dt) ->
  _format_date (VStr raw) = Ok (out, Some y) ->
  1000 <= y ->
  _format_date (VStr out) = Ok (out, Some y).
Proof.
  intros Hiso H Hy. unfold Settlements._format_date in H.
  destruct (negb (Py.truthy (VStr raw))); [discriminate |].
  destruct (String.eqb (Str.strip raw) EmptyString); [discriminate |].
  destruct (first_format date_formats _) as [[dt |] | e] eqn:Hf; cbn [bind] in H.
  - inversion H. subst. apply first_format_valid in Hf.
    apply printed_date_reread with (m := Datetime.month dt) (d := Datetime.day dt);
      assumption.
  - destruct (fromisoformat _) as [dt |] eqn:Hi; [| discriminate].
    inversion H. subst. apply Hiso in Hi.
    apply printed_date_reread with (m := Datetime.month dt) (d := Datetime.day dt);
      assumption.
  - discriminate.
Qed.

End Reread.

Lemma format_date_rereads_witness :
  Datetime.strptime (Datetime.strftime_dmY (Datetime.mkdate 2024 3 5)) "%d.%m.%Y"
  = Ok (Datetime.mkdate 2024 3 5)
  /\ _format_date Batch.no_iso (VStr (Datetime.strftime_dmY (Datetime.mkdate 2024 3 5)))
     = Ok (Datetime.strftime_dmY (Datetime.mkdate 2024 3 5), Some 2024).
Proof.
  apply (format_date_rereads_its_output Batch.no_iso 2024 3 5); [reflexivity | lia].
Defined.

Lemma format_date_idempotent_witness :
  _format_date Batch.no_iso (VStr "05.03.2024") = Ok ("05.03.2024", Some 2024).
Proof.
  apply (format_date_idempotent Batch.no_iso "2024-03-05T10:00:00" "05.03.2024" 2024).
  - intros text dt H. discriminate H.
  - vm_compute. reflexivity.
  - lia.
Defined.

End RereadingFacts.

(* ================================================================== *)
(** * Records, the shapefile and [main] *)
(* ================================================================== *)

Module DownloadFacts.
Import Settlements.
Import Download.

Section Dates.

Variable fromisoformat : string -> option Datetime.date.

Local Abbreviation first_format := Settlements.first_format.
Local Abbreviation _format_date := (Settlements._format_date fromisoformat).

Lemma first_format_returns (formats : list string) (text : string) :
  exists parsed, first_format formats text = Ok parsed.
Proof.
  induction formats as [| fmt rest IH]; cbn [Settlements.first_format]; [eauto |].
  destruct (Datetime.strptime text fmt) eqn:Hp; [eauto |].
  rewrite (DateFacts.strptime_raises_ValueError _ _ _ Hp). exact IH.
Qed.

Lemma of_chars_not_empty (c : ascii) (l : list ascii) :
  Str.of_chars (c :: l) <> EmptyString.
Proof. discriminate. Qed.

Lemma strftime_not_empty (dt : Datetime.date) :
  Datetime.strftime_dmY dt <> EmptyString.
Proof.
  unfold Datetime.strftime_dmY.
  destruct (Str.pad 2 (Str.decimal (Datetime.day dt))); apply of_chars_not_empty.
Qed.

Lemma format_date_text (v : value) (s : string) (y : option Z) :
  _format_date v = Ok (s, y) -> s <> EmptyString.
Proof.
  unfold Settlements._format_date.
  destruct (negb (Py.truthy v)) eqn:Ht;
    [intros H; inversion H; discriminate |].
  destruct v as [| b | z | f | raw | l | d]; try discriminate.
  destruct (String.eqb (Str.strip raw) EmptyString);
    [intros H; inversion H; discriminate |].
  destruct (first_format_returns date_formats
              (if Str.contains "T" (Str.strip raw)
               then Str.split_first "T" (Str.strip raw) else Str.strip raw))
    as [parsed ->].
  cbn [bind]. destruct parsed as [dt |].
  - intros H. inversion H. apply strftime_not_empty.
  - destruct (fromisoformat _) as [dt |].
    + intros H. inversion H. apply strftime_not_empty.
    + intros H. inversion H. subst.
      cbn [Py.truthy] in Ht. apply negb_false_iff, negb_true_iff in Ht.
      apply String.eqb_neq. exact Ht.
Qed.

Lemma format_date_raises (v : value) (e : exn) :
  _format_date v = Raise e -> e = AttributeError /\ true_but_no_text v.
Proof.
  unfold Settlements._format_date, true_but_no_text.
  destruct (negb (Py.truthy v)) eqn:Ht; [discriminate |].
  apply negb_false_iff in Ht.
  destruct v as [| b | z | f | raw | l | d];
    try (intros H; inversion H; repeat split; [exact Ht | discriminate]).
  destruct (String.eqb (Str.strip raw) EmptyString); [discriminate |].
  destruct (first_format_returns date_formats
              (if Str.contains "T" (Str.strip raw)
               then Str.split_first "T" (Str.strip raw) else Str.strip raw))
    as [parsed ->].
  cbn [bind]. destruct parsed; [discriminate |].
  destruct (fromisoformat _); discriminate.
Qed.

Lemma format_date_no_text (v : value) :
  true_but_no_text v -> _format_date v = Raise AttributeError.
Proof.
  intros [Ht Hs]. unfold Settlements._format_date. rewrite Ht. cbn [negb].
  destruct v; try reflexivity. exfalso. eapply Hs. reflexivity.
Qed.

(** X7.  [_format_date] raises on exactly the values that are true without
    being text, such as a number or a list, which have no [strip] method, and
    then with [AttributeError]; on [None], on every other false value and on
    every text it returns. *)
Theorem format_date_fails_on_true_non_text (v : value) :
  (true_but_no_text v <-> _format_date v = Raise AttributeError)
  /\ forall e, _format_date v = Raise e -> e = AttributeError.
Proof.
  split; [split |].
  - apply format_date_no_text.
  - intros H. apply format_date_raises in H. apply H.
  - intros e H. apply format_date_raises in H. apply H.
Qed.

End Dates.

(** ** The population of a record *)

Lemma population_positive (payload : value) (n : Z) :
  derive_population payload = Ok (Some n) -> 0 < n.
Proof.
  unfold derive_population. intros H. do 2 inv_bind H.
  destruct a0 as [p |].
  - destruct ((p =? 0) || (p <=? 0)) eqn:Hu.
    + do 6 inv_bind H. destruct (0 <? a5) eqn:Hc; inversion H. subst.
      apply Z.ltb_lt. exact Hc.
    + inversion H. subst. apply orb_false_iff in Hu. destruct Hu as [_ Hu].
      apply Z.leb_gt in Hu. exact Hu.
  - do 6 inv_bind H. destruct (0 <? a5) eqn:Hc; inversion H. subst.
    apply Z.ltb_lt. exact Hc.
Qed.

Section Run.

Variable fromisoformat : string -> option Datetime.date.
Variable session_get : Z -> string -> fetched.

Local Abbreviation _format_date := (Settlements._format_date fromisoformat).
Local Abbreviation step := (Settlements.step fromisoformat session_get).
Local Abbreviation build_record := (Settlements.build_record fromisoformat).
Local Abbreviation build_parsed_records :=
  (Settlements.build_parsed_records fromisoformat session_get).
Local Abbreviation tried := (Batch.tried session_get).
Local Abbreviation successes_of := (Batch.successes_of session_get).
Local Abbreviation failures_of := (Batch.failures_of session_get).
Local Abbreviation settles := (Batch.settles fromisoformat session_get).

Lemma build_record_sound (idx : Z) (settlement : SettlementRecord) (payload : value)
  (ring : list (float * float)) (r : ParsedSettlement) :
  build_record idx settlement payload ring = Ok r ->
  sound_record r /\ geometry r = ring.
Proof.
  unfold Settlements.build_record. intros H.
  do 2 inv_bind H.
  apply bind_Ok_inv in H. destruct H as [[formatted_date yr] [Hd H]].
  apply bind_Ok_inv in H. destruct H as [pop [Hpop H]].
  do 4 inv_bind H. inversion H. subst r. unfold sound_record. cbn.
  split; [split |].
  - eapply format_date_text. exact Hd.
  - intros n Hn. rewrite Hn in Hpop. eapply population_positive. exact Hpop.
  - reflexivity.
Qed.

(** A record cannot be built from a payload whose date is true without
    being text. *)
Lemma build_record_no_text (idx : Z) (settlement : SettlementRecord)
  (payload v : value) (ring : list (float * float)) :
  date_field payload = Ok v -> true_but_no_text v ->
  build_record idx settlement payload ring = Raise AttributeError.
Proof.
  unfold date_field, Settlements.build_record. intros Hv Ht.
  destruct (Py.get payload "section_A/A1a_Last_Updated") as [a1a | e];
    [| discriminate].
  cbn [bind] in *. rewrite Hv. cbn [bind].
  rewrite (format_date_no_text fromisoformat v Ht). reflexivity.
Qed.

Lemma loop_settles (items : list (Z * SettlementRecord)) (acc out : batch) :
  for_each step items acc = Ok out -> Forall settles items.
Proof.
  revert acc. induction items as [| [idx settlement] items IH]; intros acc H.
  - constructor.
  - cbn [for_each] in H. apply bind_Ok_inv in H. destruct H as [mid [Hstep H]].
    destruct acc as [parsed failures].
    constructor; [| eapply IH; exact H].
    apply BatchFacts.step_cases in Hstep. unfold Batch.settles.
    destruct Hstep as [[[payload ring] [r [Ht [Hr _]]]] | [exc [Ht [Hc _]]]];
      rewrite Ht; [exists r; exact Hr | exact Hc].
Qed.

Lemma loop_records (P : ParsedSettlement -> Prop) (items : list (Z * SettlementRecord))
  (parsed parsed' : list ParsedSettlement)
  (failures failures' : list (SettlementRecord * exn)) :
  (forall idx settlement payload ring r,
      build_record idx settlement payload ring = Ok r -> P r) ->
  Forall P parsed ->
  for_each step items (parsed, failures) = Ok (parsed', failures') ->
  Forall P parsed'.
Proof.
  intros HP. revert parsed failures.
  induction items as [| [idx settlement] items IH]; intros parsed failures Hp H.
  - inversion H. subst. exact Hp.
  - cbn [for_each] in H. apply bind_Ok_inv in H. destruct H as [mid [Hstep H]].
    apply BatchFacts.step_cases in Hstep.
    destruct Hstep as [[page [r [Ht [Hr ->]]]] | [exc [Ht [_ ->]]]].
    + eapply IH; [| exact H]. apply Forall_app. split; [exact Hp |].
      constructor; [eapply HP; exact Hr | constructor].
    + eapply IH; [exact Hp | exact H].
Qed.

Lemma no_successes (items : list (Z * SettlementRecord)) :
  Forall (fun item => exists e, tried item = Raise e /\ Batch.caught e = true) items ->
  successes_of items = [].
Proof.
  unfold Batch.successes_of.
  induction 1 as [| item items [e [Ht _]] _ IH]; [reflexivity |].
  cbn [filter]. rewrite Ht. cbn [returns]. exact IH.
Qed.

Lemma record_ids (items : list (Z * SettlementRecord)) (rs : list ParsedSettlement) :
  Forall2 (Batch.record_of) items rs -> map rec_id rs = map fst items.
Proof.
  induction 1 as [| item r items rs [Hid _] _ IH]; [reflexivity |].
  cbn [map]. rewrite Hid, IH. reflexivity.
Qed.

End Run.

Lemma enumerate_bounds {A : Type} (xs : list A) (start i : Z) (x : A) :
  In (i, x) (enumerate start xs) -> start <= i < start + Z.of_nat (List.length xs).
Proof.
  revert start. induction xs as [| y xs IH]; intros start H; [destruct H |].
  cbn [enumerate] in H. cbn [List.length]. destruct H as [H | H].
  - inversion H. lia.
  - apply IH in H. lia.
Qed.

Lemma filtered_enumerate_sorted {A : Type} (p : Z * A -> bool) (xs : list A) (start : Z) :
  StronglySorted Z.lt (map fst (filter p (enumerate start xs))).
Proof.
  revert start. induction xs as [| x xs IH]; intros start; [constructor |].
  cbn [enumerate filter].
  destruct (p (start, x)); [| apply IH].
  cbn [map fst]. constructor; [apply IH |].
  apply Forall_forall. intros i Hi. apply in_map_iff in Hi.
  destruct Hi as [[j y] [<- Hin]]. apply filter_In in Hin. destruct Hin as [Hin _].
  apply enumerate_bounds in Hin. cbn [fst]. lia.
Qed.

Section Batches.

Variable fromisoformat : string -> option Datetime.date.
Variable session_get : Z -> string -> fetched.

Local Abbreviation build_parsed_records :=
  (Settlements.build_parsed_records fromisoformat session_get).
Local Abbreviation settles := (Batch.settles fromisoformat session_get).
Local Abbreviation tried := (Batch.tried session_get).

Lemma batch_ids (settlements : list SettlementRecord) (parsed : list ParsedSettlement)
  (failures : list (SettlementRecord * exn)) :
  build_parsed_records settlements = Ok (parsed, failures) ->
  StronglySorted Z.lt (map rec_id parsed)
  /\ Forall (fun r => 1 <= rec_id r <= Z.of_nat (List.length settlements)) parsed.
Proof.
  unfold Settlements.build_parsed_records. intros H.
  apply BatchFacts.loop_characterised in H. destruct H as [new [Hp [Hnew _]]].
  cbn [app] in Hp. subst new.
  pose proof (record_ids _ _ Hnew) as Hids. split.
  - rewrite Hids. apply filtered_enumerate_sorted.
  - apply Forall_forall. intros r Hr.
    assert (Hin : In (rec_id r) (map rec_id parsed)) by (apply in_map; exact Hr).
    rewrite Hids in Hin. apply in_map_iff in Hin. destruct Hin as [[j s] [Hj Hin]].
    apply filter_In in Hin. destruct Hin as [Hin _].
    apply enumerate_bounds in Hin. cbn [fst] in Hj. lia.
Qed.

Lemma batch_counts (settlements : list SettlementRecord) (parsed : list ParsedSettlement)
  (failures : list (SettlementRecord * exn)) :
  build_parsed_records settlements = Ok (parsed, failures) ->
  (List.length parsed + List.length failures = List.length settlements)%nat.
Proof.
  unfold Settlements.build_parsed_records. intros H.
  apply BatchFacts.loop_characterised in H. destruct H as [new [Hp [Hnew Hf]]].
  cbn [app] in Hp, Hf. subst new failures.
  rewrite <- (Forall2_length Hnew), <- (BatchFacts.enumerate_length settlements 1).
  apply BatchFacts.split_counts.
Qed.

Lemma batch_sound (settlements : list SettlementRecord) (parsed : list ParsedSettlement)
  (failures : list (SettlementRecord * exn)) :
  build_parsed_records settlements = Ok (parsed, failures) ->
  Forall sound_record parsed.
Proof.
  unfold Settlements.build_parsed_records. intros H.
  eapply loop_records; [| constructor | exact H].
  intros idx settlement payload ring r Hr.
  eapply build_record_sound. exact Hr.
Qed.

(** X8.  The ids of the records of a batch go up strictly, so no two
    records share an id, and lie between 1 and the number of settlements
    given. *)
Theorem batch_ids_increase (settlements : list SettlementRecord)
  (parsed : list ParsedSettlement) (failures : list (SettlementRecord * exn)) :
  build_parsed_records settlements = Ok (parsed, failures) ->
  StronglySorted Z.lt (map rec_id parsed)
  /\ Forall (fun r => 1 <= rec_id r <= Z.of_nat (List.length settlements)) parsed.
Proof. apply batch_ids. Qed.

(** X9.  Every record of a batch has a date text that is not empty and a
    population that is unknown or positive: a population of zero or less is
    never stored. *)
Theorem batch_records_sound (settlements : list SettlementRecord)
  (parsed : list ParsedSettlement) (failures : list (SettlementRecord * exn)) :
  build_parsed_records settlements = Ok (parsed, failures) ->
  Forall sound_record parsed.
Proof. apply batch_sound. Qed.

(** X10.  The batch returns exactly when no item raises outside the two
    handlers: one such item ends the run, whatever the other items are.  An
    item whose page parses and whose date is true without being text is
    one: the batch raises and neither list is returned. *)
Theorem unsettled_item_ends_run (settlements : list SettlementRecord) :
  ((exists out, build_parsed_records settlements = Ok out)
   <-> Forall settles (enumerate 1 settlements))
  /\ forall item payload ring v,
       In item (enumerate 1 settlements) ->
       tried item = Ok (payload, ring) ->
       date_field payload = Ok v ->
       true_but_no_text v ->
       exists e, build_parsed_records settlements = Raise e.
Proof.
  split; [split |].
  - intros [out H]. eapply loop_settles. exact H.
  - intros H. apply BatchFacts.loop_returns. exact H.
  - intros item payload ring v Hin Ht Hv Hno.
    destruct (build_parsed_records settlements) as [out | e] eqn:Hrun; [| eauto].
    exfalso. apply loop_settles in Hrun.
    apply (proj1 (Forall_forall _ _) Hrun) in Hin.
    unfold Batch.settles in Hin. rewrite Ht in Hin. destruct Hin as [r Hr].
    rewrite (build_record_no_text fromisoformat _ _ _ _ _ Hv Hno) in Hr. discriminate.
Qed.

End Batches.

Lemma batch_ids_witness :
  StronglySorted Z.lt (map rec_id (fst Batch.three_items_batch))
  /\ Forall (fun r => 1 <= rec_id r <= Z.of_nat (List.length Batch.three_items))
            (fst Batch.three_items_batch).
Proof.
  apply (batch_ids_increase Batch.no_iso Batch.network Batch.three_items
           (fst Batch.three_items_batch) (snd Batch.three_items_batch)).
  vm_compute. reflexivity.
Defined.

Lemma batch_records_witness : Forall sound_record (fst Batch.three_items_batch).
Proof.
  apply (batch_records_sound Batch.no_iso Batch.network Batch.three_items
           (fst Batch.three_items_batch) (snd Batch.three_items_batch)).
  vm_compute. reflexivity.
Defined.

Lemma unsettled_item_witness :
  exists e,
    build_parsed_records Batch.no_iso numeric_date_network Batch.three_items = Raise e.
Proof.
  eapply (proj2 (unsettled_item_ends_run Batch.no_iso numeric_date_network
                   Batch.three_items))
    with (item := (2, Batch.item "102")).
  - right. left. reflexivity.
  - vm_compute. reflexivity.
  - vm_compute. reflexivity.
  - split; [reflexivity | intros s; discriminate].
Defined.

(** ** [write_shapefile] and [main] *)

Lemma int_or_zero_nonneg (x : option Z) :
  (forall n, x = Some n -> 0 < n) -> 0 <= int_or_zero x.
Proof.
  intros H. destruct x as [n |]; cbn; [| lia].
  specialize (H n eq_refl). destruct (n =? 0); lia.
Qed.

Lemma shapes_sound (records : list ParsedSettlement) :
  Forall sound_record records -> Forall sound_shape (write_shapefile records).
Proof.
  intros H. unfold write_shapefile. apply Forall_map.
  eapply Forall_impl; [| exact H].
  intros r [Hdate Hpop]. unfold sound_shape, shape_of. cbn.
  repeat split; [exact Hdate | apply int_or_zero_nonneg; exact Hpop | eauto].
Qed.

Section Main.

Variable fromisoformat : string -> option Datetime.date.
Variable session_get : Z -> string -> fetched.
Variable repr : value -> string.
Variable fetch_filter_payload : result value.

Local Abbreviation main :=
  (Settlements.main fromisoformat session_get repr fetch_filter_payload).
Local Abbreviation build_parsed_records :=
  (Settlements.build_parsed_records fromisoformat session_get).
Local Abbreviation list_country_settlements :=
  (Settlements.list_country_settlements repr).

Lemma main_wrote (country : string) (shapes : list (Row * list (list (float * float))))
  (skipped : nat) :
  main country = Ok (Wrote shapes skipped) ->
  exists payload settlements parsed failures,
    fetch_filter_payload = Ok payload
    /\ list_country_settlements payload country = Ok settlements
    /\ build_parsed_records settlements = Ok (parsed, failures)
    /\ parsed <> []
    /\ shapes = write_shapefile parsed
    /\ skipped = List.length failures.
Proof.
  unfold Settlements.main. intros H.
  apply bind_Ok_inv in H. destruct H as [payload [Hp H]].
  apply bind_Ok_inv in H. destruct H as [settlements [Hs H]].
  destruct settlements as [| s0 rest]; [discriminate |].
  apply bind_Ok_inv in H. destruct H as [[parsed failures] [Hb H]].
  destruct parsed as [| r0 rs]; [discriminate |].
  inversion H.
  exists payload, (s0 :: rest), (r0 :: rs), failures.
  repeat split; try assumption. discriminate.
Qed.

(** X11.  When [main] writes a file, the shapes written and the
    settlements skipped together are as many as the settlements listed for
    the country, and there is at least one shape. *)
Theorem main_accounts_for_every_settlement (country : string)
  (shapes : list (Row * list (list (float * float)))) (skipped : nat) :
  main country = Ok (Wrote shapes skipped) ->
  shapes <> []
  /\ exists payload settlements,
       fetch_filter_payload = Ok payload
       /\ list_country_settlements payload country = Ok settlements
       /\ (List.length shapes + skipped = List.length settlements)%nat.
Proof.
  intros H. apply main_wrote in H.
  destruct H as [payload [settlements [parsed [failures [Hp [Hs [Hb [Hne [-> ->]]]]]]]]].
  split.
  - unfold write_shapefile. destruct parsed; [contradiction | discriminate].
  - exists payload, settlements. split; [exact Hp |]. split; [exact Hs |].
    unfold write_shapefile. rewrite length_map. eapply batch_counts. exact Hb.
Qed.

(** X12.  Whatever the country asked for, every row [main] writes names
    Nigeria as its country; its date text is not empty, its population is
    not negative, and its shape has one ring.  The ids of the rows go up
    strictly. *)
Theorem main_rows (country : string)
  (shapes : list (Row * list (list (float * float)))) (skipped : nat) :
  main country = Ok (Wrote shapes skipped) ->
  Forall sound_shape shapes
  /\ StronglySorted Z.lt (map (fun sh => Id (fst sh)) shapes).
Proof.
  intros H. apply main_wrote in H.
  destruct H as [payload [settlements [parsed [failures [Hp [Hs [Hb [Hne [-> ->]]]]]]]]].
  split.
  - apply shapes_sound. eapply batch_sound. exact Hb.
  - unfold write_shapefile. rewrite map_map. cbn [shape_of fst Id].
    apply (batch_ids _ _ _ _ _ Hb).
Qed.

(** X13.  [main] stops with [SystemExit] and writes nothing when the
    country has no settlement with both ids, and when every page fails with
    an exception the batch catches. *)
Theorem main_exits_without_records (country : string) (payload : value)
  (settlements : list SettlementRecord) :
  fetch_filter_payload = Ok payload ->
  list_country_settlements payload country = Ok settlements ->
  (settlements = [] ->
   main country
   = Ok (SystemExit ("No settlements found for country '" ++ country ++ "'")))
  /\ (settlements <> [] ->
      Forall (fun item => exists e, Batch.tried session_get item = Raise e
                                    /\ Batch.caught e = true)
             (enumerate 1 settlements) ->
      main country = Ok (SystemExit "No settlements could be downloaded successfully")).
Proof.
  intros Hp Hs. unfold Settlements.main. rewrite Hp. cbn [bind]. rewrite Hs. cbn [bind].
  split.
  - intros ->. reflexivity.
  - intros Hne Hall. destruct settlements as [| s0 rest]; [contradiction |].
    assert (Hsettle : Forall (Batch.settles fromisoformat session_get)
                        (enumerate 1 (s0 :: rest))).
    { eapply Forall_impl; [| exact Hall].
      intros item [e [Ht Hc]]. unfold Batch.settles. rewrite Ht. exact Hc. }
    destruct (BatchFacts.loop_returns fromisoformat session_get _ ([], []) Hsettle)
      as [[parsed failures] Hrun].
    fold (build_parsed_records (s0 :: rest)) in Hrun. rewrite Hrun. cbn [bind].
    apply BatchFacts.loop_characterised in Hrun.
    destruct Hrun as [new [Hnew [H2 _]]]. cbn [app] in Hnew. subst new.
    rewrite (no_successes session_get _ Hall) in H2. inversion H2. reflexivity.
Qed.

End Main.

Lemma main_accounts_witness :
  nigeria_shapes <> []
  /\ exists payload settlements,
       Ok Listing.filter_data = Ok payload
       /\ list_country_settlements Listing.no_repr payload "Nigeria" = Ok settlements
       /\ (List.length nigeria_shapes + 1 = List.length settlements)%nat.
Proof.
  apply (main_accounts_for_every_settlement Batch.no_iso Batch.network Listing.no_repr
           (Ok Listing.filter_data) "Nigeria").
  vm_compute. reflexivity.
Defined.

Lemma main_rows_witness :
  Forall sound_shape kenya_shapes
  /\ StronglySorted Z.lt (map (fun sh => Id (fst sh)) kenya_shapes).
Proof.
  apply (main_rows Batch.no_iso Batch.network Listing.no_repr
           (Ok Listing.filter_data) "Kenya" kenya_shapes 0).
  vm_compute. reflexivity.
Defined.

Lemma main_exits_witness :
  example_main dead_network "Nigeria"
  = Ok (SystemExit "No settlements could be downloaded successfully").
Proof.
  apply (proj2 (main_exits_without_records Batch.no_iso dead_network Listing.no_repr
                  (Ok Listing.filter_data) "Nigeria" Listing.filter_data
                  Listing.nigeria_settlements eq_refl eq_refl)).
  - discriminate.
  - repeat (apply Forall_cons; [eexists; split; reflexivity |]). apply Forall_nil.
Defined.

End DownloadFacts.

(* ================================================================== *)
(** * Pages and exceptions of the batch *)
(* ================================================================== *)

Module PageFacts.
Import Settlements.
Import Pages.

Lemma for_each_raises {A S : Type} (P : exn -> Prop) (body : S -> A -> result S)
  (xs : list A) (acc : S) (e : exn) :
  (forall acc x e, body acc x = Raise e -> P e) ->
  for_each body xs acc = Raise e -> P e.
Proof.
  intros Hbody. revert acc. induction xs as [| x xs IH]; intros acc H; [discriminate |].
  cbn [for_each] in H. destruct (body acc x) as [acc' | e'] eqn:Hb.
  - eapply IH. exact H.
  - inversion H. subst. eapply Hbody. exact Hb.
Qed.

(** ** What [json.loads] makes of the two groups *)

Lemma scan_once_object (n : nat) (s : list ascii) (v : value) (rest : list ascii) :
  Json.scan_once n ("{"%char :: s) = Some (v, rest) -> exists d, v = VDict d.
Proof.
  destruct n as [| n]; [discriminate |].
  cbn [Json.scan_once].
  replace (Ascii.eqb "{" Json.quote) with false by reflexivity.
  replace (Ascii.eqb "{" "{") with true by reflexivity.
  destruct (Json.skip_ws s) as [| d s2]; [discriminate |].
  destruct (Ascii.eqb d "}"); [intros H; inversion H; eauto |].
  destruct (Ascii.eqb d Json.quote); [| discriminate].
  destruct (Json.pairs n s2 []) as [[kvs rest'] |]; [| discriminate].
  intros H; inversion H; eauto.
Qed.

Lemma scan_once_array (n : nat) (s : list ascii) (v : value) (rest : list ascii) :
  Json.scan_once (S n) ("["%char :: s) = Some (v, rest) ->
  match Json.skip_ws s with
  | d :: s2 =>
      if Ascii.eqb d "]" then v = VList []
      else exists vs, Json.items n (d :: s2) [] = Some (vs, rest) /\ v = VList vs
  | [] => False
  end.
Proof.
  cbn [Json.scan_once].
  replace (Ascii.eqb "[" Json.quote) with false by reflexivity.
  replace (Ascii.eqb "[" "{") with false by reflexivity.
  replace (Ascii.eqb "[" "[") with true by reflexivity.
  destruct (Json.skip_ws s) as [| d s2]; [discriminate |].
  destruct (Ascii.eqb d "]"); [intros H; inversion H; reflexivity |].
  destruct (Json.items n (d :: s2) []) as [[vs rest'] |]; [| discriminate].
  intros H; inversion H; subst. eauto.
Qed.

Lemma items_extend (n : nat) (s : list ascii) (acc vs : list value) (rest : list ascii) :
  Json.items n s acc = Some (vs, rest) ->
  exists new, vs = rev acc ++ new /\ new <> [].
Proof.
  revert s acc. induction n as [| n IH]; intros s acc; [discriminate |].
  cbn [Json.items].
  destruct (Json.scan_once n s) as [[v s1] |]; [| discriminate].
  destruct (Json.skip_ws s1) as [| d s2]; [discriminate |].
  destruct (Ascii.eqb d "]").
  - intros H; inversion H. exists [v]. cbn [rev]. split; [reflexivity | discriminate].
  - destruct (Ascii.eqb d ","); [| discriminate].
    intros H. apply IH in H. destruct H as [new [-> _]].
    exists (v :: new). cbn [rev]. rewrite <- app_assoc.
    split; [reflexivity | discriminate].
Qed.

Lemma items_first_array (n : nat) (s : list ascii) (vs : list value) (rest : list ascii) :
  Json.items n ("["%char :: s) [] = Some (vs, rest) ->
  exists inner more, vs = VList inner :: more.
Proof.
  destruct n as [| n]; [discriminate |].
  cbn [Json.items].
  destruct (Json.scan_once n ("["%char :: s)) as [[v s1] |] eqn:Hv; [| discriminate].
  assert (Hlist : exists inner, v = VList inner).
  { destruct n as [| n]; [discriminate |].
    apply scan_once_array in Hv. destruct (Json.skip_ws s) as [| d s2]; [contradiction |].
    destruct (Ascii.eqb d "]"); [eauto |]. destruct Hv as [vs' [_ ->]]. eauto. }
  destruct Hlist as [inner ->].
  destruct (Json.skip_ws s1) as [| d s2]; [discriminate |].
  destruct (Ascii.eqb d "]").
  - intros H; inversion H. cbn [rev app]. eauto.
  - destruct (Ascii.eqb d ","); [| discriminate].
    intros H. apply items_extend in H. destruct H as [new [-> _]].
    cbn [rev app]. eauto.
Qed.

Lemma loads_object (text : string) (s : list ascii) (v : value) :
  Str.chars text = "{"%char :: s -> Json.loads text = Ok v -> exists d, v = VDict d.
Proof.
  intros Hs. unfold Json.loads. rewrite Hs.
  replace (Json.skip_ws ("{"%char :: s)) with ("{"%char :: s) by reflexivity.
  destruct (Json.scan_once _ _) as [[v' rest] |] eqn:Hv; [| discriminate].
  destruct (Json.skip_ws rest); [| discriminate].
  intros H; inversion H; subst. eapply scan_once_object. exact Hv.
Qed.

Lemma loads_nested_array (text : string) (s : list ascii) (v : value) :
  Str.chars text = "["%char :: "["%char :: s -> Json.loads text = Ok v ->
  exists inner more, v = VList (VList inner :: more).
Proof.
  intros Hs. unfold Json.loads. rewrite Hs.
  replace (Json.skip_ws ("["%char :: "["%char :: s)) with ("["%char :: "["%char :: s)
    by reflexivity.
  replace (2 * List.length ("["%char :: "["%char :: s) + 2)%nat
    with (S (2 * List.length ("["%char :: "["%char :: s) + 1)) by lia.
  destruct (Json.scan_once _ _) as [[v' rest] |] eqn:Hv; [| discriminate].
  destruct (Json.skip_ws rest); [| discriminate].
  intros H; inversion H; subst.
  apply scan_once_array in Hv.
  replace (Json.skip_ws ("["%char :: s)) with ("["%char :: s) in Hv by reflexivity.
  replace (Ascii.eqb "[" "]") with false in Hv by reflexivity.
  destruct Hv as [vs [Hitems ->]].
  apply items_first_array in Hitems. destruct Hitems as [inner [more ->]]. eauto.
Qed.

Lemma search_group_chars (lead opening closing tail html group : string) :
  search_group lead opening closing tail html = Some group ->
  exists middle,
    Str.chars group = Str.chars opening ++ middle ++ Str.chars closing.
Proof.
  unfold search_group.
  destruct (Str.find _ (Str.chars html)) as [[before rest] |]; [| discriminate].
  destruct (Str.find _ rest) as [[middle after] |]; [| discriminate].
  intros H; inversion H. exists middle.
  apply list_ascii_of_string_of_list_ascii.
Qed.

(** ** The points of a page *)

Lemma add_point_appends (g g' : list point) (row : value) :
  add_point g row = Ok g' -> exists p, g' = g ++ [p].
Proof.
  unfold add_point. intros H.
  apply bind_Ok_inv in H. destruct H as [[lat_str lon_str] [_ H]].
  do 2 inv_bind H. inversion H. eauto.
Qed.

Lemma add_points_not_empty (rows : list value) (g g' : list point) :
  for_each add_point rows g = Ok g' -> rows <> [] \/ g <> [] -> g' <> [].
Proof.
  revert g. induction rows as [| row rows IH]; intros g H Hne.
  - inversion H. subst. destruct Hne as [Hne | Hne]; [contradiction | exact Hne].
  - cbn [for_each] in H. inv_bind H.
    apply add_point_appends in Ha. destruct Ha as [p ->].
    eapply IH; [exact H |]. right. destruct g; discriminate.
Qed.

Lemma close_ring_not_empty (g : list point) : g <> [] -> close_ring g <> [].
Proof.
  unfold close_ring. destruct (ends_differ g); [| auto].
  destruct g; [auto |]. discriminate.
Qed.

Lemma parsed_page (html : string) (payload : value) (ring : list (float * float)) :
  parse_settlement_page html = Ok (payload, ring) ->
  (exists d, payload = VDict d) /\ ring <> [].
Proof.
  unfold parse_settlement_page.
  destruct (SETTLEMENT_RE html) as [settlement_match |] eqn:Hs; [| discriminate].
  intros H. apply bind_Ok_inv in H. destruct H as [payload' [Hp H]].
  destruct (SHAPE_RE html) as [shape_match |] eqn:Hg; [| discriminate].
  apply bind_Ok_inv in H. destruct H as [shape_raw [Hshape H]].
  apply bind_Ok_inv in H. destruct H as [rows [Hrows H]].
  apply bind_Ok_inv in H. destruct H as [g [Hloop H]].
  inversion H. subst. split.
  - apply search_group_chars in Hs. destruct Hs as [middle Hs].
    eapply loads_object; [exact Hs | exact Hp].
  - apply search_group_chars in Hg. destruct Hg as [middle Hg].
    destruct (loads_nested_array _ _ _ Hg Hshape) as [inner [more ->]].
    inversion Hrows. subst rows.
    intros Hnil. apply map_eq_nil in Hnil. revert Hnil.
    apply close_ring_not_empty.
    eapply add_points_not_empty; [exact Hloop |]. left. discriminate.
Qed.

(** ** The exceptions of a page *)

Lemma of_int_raises (z : Z) (e : exn) : F.of_int z = Raise e -> e = OverflowError.
Proof.
  unfold F.of_int. destruct (F.is_inf _); [| discriminate].
  intros H; inversion H; reflexivity.
Qed.

Lemma float_raises (v : value) (e : exn) :
  Py.float_ v = Raise e -> is_ValueError e = true \/ ends_the_run e.
Proof.
  unfold ends_the_run.
  destruct v as [| b | z | f | s | l | d]; cbn [Py.float_];
    try discriminate; try (intros H; inversion H; auto).
  - apply of_int_raises in H1. auto.
  - destruct (Py.float_of_chars _); [discriminate |]. inversion H. auto.
Qed.

Lemma float_obj_raises (v : value) (e : exn) :
  Py.float_obj v = Raise e -> is_ValueError e = true \/ ends_the_run e.
Proof.
  unfold Py.float_obj.
  destruct v as [| b | z | f | s | l | d]; try discriminate;
    (destruct (Py.float_ _) eqn:Hf; [discriminate |];
     intros H; inversion H; subst; eapply float_raises; exact Hf).
Qed.

Lemma unpack2_raises (v : value) (e : exn) :
  Py.unpack2 v = Raise e -> is_ValueError e = true \/ ends_the_run e.
Proof.
  unfold Py.unpack2, ends_the_run.
  destruct (Py.iterate v) as [items |] eqn:Hi.
  - cbn [bind]. destruct items as [| a [| b [| c rest]]]; try discriminate;
      intros H; inversion H; auto.
  - destruct v; try discriminate; inversion Hi; intros H; inversion H; auto.
Qed.

Lemma add_point_raises (g : list point) (row : value) (e : exn) :
  add_point g row = Raise e -> is_ValueError e = true \/ ends_the_run e.
Proof.
  unfold add_point.
  destruct (Py.unpack2 row) as [[lat_str lon_str] |] eqn:Hu;
    [| intros H; inversion H; subst; eapply unpack2_raises; exact Hu].
  cbn [bind].
  destruct (Py.float_obj lat_str) eqn:Hlat;
    [| intros H; inversion H; subst; eapply float_obj_raises; exact Hlat].
  cbn [bind].
  destruct (Py.float_obj lon_str) eqn:Hlon;
    [discriminate | intros H; inversion H; subst; eapply float_obj_raises; exact Hlon].
Qed.

Lemma parse_raises (html : string) (e : exn) :
  parse_settlement_page html = Raise e ->
  decoding_error html e \/ is_ValueError e = true \/ ends_the_run e.
Proof.
  unfold parse_settlement_page, decoding_error.
  destruct (SETTLEMENT_RE html) as [settlement_match |];
    [| intros H; inversion H; auto].
  destruct (Json.loads settlement_match) as [payload |] eqn:Hp;
    [| intros H; inversion H; subst; left; exists settlement_match; auto].
  cbn [bind].
  destruct (SHAPE_RE html) as [shape_match |]; [| intros H; inversion H; auto].
  destruct (Json.loads shape_match) as [shape_raw |] eqn:Hshape;
    [| intros H; inversion H; subst; left; exists shape_match; auto].
  cbn [bind]. intros H. right.
  destruct (Py.iterate shape_raw) as [rows |] eqn:Hrows.
  - cbn [bind] in H. destruct (for_each add_point rows []) eqn:Hloop;
      [cbn [bind] in H; discriminate H |].
    inversion H; subst.
    eapply (for_each_raises (fun e => is_ValueError e = true \/ ends_the_run e));
      [| exact Hloop].
    intros acc x e'. apply add_point_raises.
  - inversion H; subst. unfold ends_the_run.
    destruct shape_raw; try discriminate; inversion Hrows; auto.
Qed.

(** X19.  A page that parses gives a dictionary as its payload and a ring
    of at least one point. *)
Theorem parsed_page_has_payload_and_points (html : string) (payload : value)
  (ring : list (float * float)) :
  parse_settlement_page html = Ok (payload, ring) ->
  (exists d, payload = VDict d) /\ ring <> [].
Proof. apply parsed_page. Qed.

Lemma parsed_page_witness :
  (exists d, VDict [("section_A/A1_Profile_Date", VStr "2019-07-01")] = VDict d)
  /\ open_ring <> [].
Proof.
  apply (parsed_page_has_payload_and_points Closure.open_ring_page).
  vm_compute. reflexivity.
Defined.

(** X20.  What [parse_settlement_page] raises is what [json.loads] raised
    on one of the two groups, passed on as it is; or a [ValueError], for a
    missing marker, a row that is not a pair or a text that is not a number,
    which the batch records as a failure of the item; or a [TypeError] or an
    [OverflowError] of a coordinate, which no handler of the batch
    catches. *)
Theorem parse_settlement_page_exceptions (html : string) (e : exn) :
  parse_settlement_page html = Raise e ->
  decoding_error html e
  \/ (is_ValueError e = true /\ Batch.caught e = true)
  \/ (ends_the_run e /\ Batch.caught e = false).
Proof.
  intros H. apply parse_raises in H. destruct H as [H | [H | H]].
  - left. exact H.
  - right. left. split; [exact H |]. unfold Batch.caught. rewrite H. apply orb_true_r.
  - right. right. split; [exact H |]. destruct H as [-> | ->]; reflexivity.
Qed.

Lemma parse_exceptions_witness :
  decoding_error page_with_null_coordinate TypeError
  \/ (is_ValueError TypeError = true /\ Batch.caught TypeError = true)
  \/ (ends_the_run TypeError /\ Batch.caught TypeError = false).
Proof.
  apply (parse_settlement_page_exceptions page_with_null_coordinate TypeError).
  vm_compute. reflexivity.
Defined.

(** ** The exceptions of a record *)

Lemma round_raises (x : float) (e : exn) : F.round x = Raise e -> record_error e.
Proof.
  unfold record_error. destruct x; cbn [F.round]; try discriminate;
    intros H; inversion H; auto.
Qed.

Lemma safe_float_raises (v : value) (e : exn) :
  _safe_float v = Raise e -> e = OverflowError.
Proof.
  unfold _safe_float. destruct v as [| b | z | f | str | l | d];
    cbn [Py.float_ bind]; try discriminate.
  - destruct (F.of_int z) eqn:Hz; [discriminate |].
    intros H; inversion H; subst. eapply of_int_raises. exact Hz.
  - destruct (_ || _); [discriminate |].
    unfold float_or_none, Py.float_. destruct (Py.float_of_chars _); discriminate.
Qed.

Lemma safe_int_raises (v : value) (e : exn) :
  _safe_int v = Raise e -> record_error e.
Proof.
  unfold _safe_int. destruct (_safe_float v) as [number |] eqn:Hf.
  - cbn [bind]. destruct number as [x |]; [| discriminate].
    destruct (F.round x) eqn:Hr; [discriminate |].
    intros H; inversion H; subst. eapply round_raises. exact Hr.
  - intros H; inversion H; subst. apply safe_float_raises in Hf. subst.
    unfold record_error. auto.
Qed.

Lemma mul_raises (a b : Py.num) (e : exn) : Py.mul a b = Raise e -> e = OverflowError.
Proof.
  destruct a as [x | f], b as [y | g]; cbn [Py.mul]; try discriminate.
  - destruct (F.of_int x) eqn:Hx; [discriminate |].
    intros H; inversion H; subst. eapply of_int_raises. exact Hx.
  - destruct (F.of_int y) eqn:Hy; [discriminate |].
    intros H; inversion H; subst. eapply of_int_raises. exact Hy.
Qed.

Lemma int_round_raises (a : Py.num) (e : exn) :
  Py.int_round a = Raise e -> record_error e.
Proof.
  destruct a; cbn [Py.int_round]; [discriminate | apply round_raises].
Qed.

Lemma derive_population_raises (d : list (string * value)) (e : exn) :
  derive_population (VDict d) = Raise e -> record_error e.
Proof.
  unfold derive_population, Py.get, Py.get_default. cbn [bind]. intros H.
  destruct (_safe_int _) as [population |] eqn:Hp;
    [| inversion H; subst; eapply safe_int_raises; exact Hp].
  cbn [bind] in H.
  destruct (match population with None => true | Some n => (n =? 0) || (n <=? 0) end);
    [| discriminate].
  destruct (_safe_float _) as [households |] eqn:Hh;
    [| inversion H; subst; apply safe_float_raises in Hh; subst;
       unfold record_error; auto].
  cbn [bind] in H.
  destruct (_safe_float _) as [hh_size |] eqn:Hs in H;
    [| inversion H; subst; apply safe_float_raises in Hs; subst;
       unfold record_error; auto].
  cbn [bind] in H.
  destruct (Py.mul _ _) as [product |] eqn:Hm;
    [| inversion H; subst; apply mul_raises in Hm; subst;
       unfold record_error; auto].
  cbn [bind] in H.
  destruct (Py.int_round product) eqn:Hr; [discriminate |].
  inversion H; subst. eapply int_round_raises. exact Hr.
Qed.

Section Records.

Variable fromisoformat : string -> option Datetime.date.

Local Abbreviation build_record := (Settlements.build_record fromisoformat).

Lemma build_record_raises (idx : Z) (settlement : SettlementRecord)
  (d : list (string * value)) (ring : list (float * float)) (e : exn) :
  build_record idx settlement (VDict d) ring = Raise e -> record_error e.
Proof.
  unfold Settlements.build_record. intros H.
  cbn [Py.get Py.get_default bind] in H.
  match type of H with
  | bind ?c _ = _ => destruct c as [last_updated | e0] eqn:Hl; [| destruct (Py.truthy _); discriminate Hl]
  end.
  cbn [bind] in H.
  destruct (_format_date fromisoformat last_updated) as [[formatted_date yr] |] eqn:Hd.
  2:{ inversion H; subst.
      apply DownloadFacts.format_date_raises in Hd. destruct Hd as [-> _].
      unfold record_error. auto. }
  cbn [bind] in H.
  destruct (derive_population (VDict d)) as [population |] eqn:Hp;
    [| inversion H; subst; eapply derive_population_raises; exact Hp].
  cbn [bind] in H.
  destruct (_safe_float _) as [area_acres |] eqn:Ha;
    [| inversion H; subst; apply safe_float_raises in Ha; subst;
       unfold record_error; auto].
  cbn [bind] in H.
  destruct (_safe_int _) as [structures |] eqn:Hs in H;
    [discriminate | inversion H; subst; eapply safe_int_raises; exact Hs].
Qed.

End Records.

Section Runs.

Variable fromisoformat : string -> option Datetime.date.
Variable session_get : Z -> string -> fetched.

Local Abbreviation step := (Settlements.step fromisoformat session_get).
Local Abbreviation build_parsed_records :=
  (Settlements.build_parsed_records fromisoformat session_get).
Local Abbreviation tried := (Batch.tried session_get).

Lemma step_raises (acc : batch) (item : Z * SettlementRecord) (e : exn) :
  step acc item = Raise e ->
  (tried item = Raise e /\ Batch.caught e = false) \/ record_error e.
Proof.
  unfold Settlements.step, Batch.tried, Batch.caught.
  destruct acc as [parsed failures], item as [idx settlement]. cbn [fst snd].
  destruct (fetch_and_parse session_get idx settlement) as [[payload ring] | exc]
    eqn:Hpage.
  - assert (Hdict : exists d, payload = VDict d).
    { unfold fetch_and_parse in Hpage.
      destruct (session_get idx (url settlement)) as [response | message];
        [| discriminate Hpage].
      apply parsed_page in Hpage. apply Hpage. }
    destruct Hdict as [d ->].
    destruct (Settlements.build_record fromisoformat idx settlement (VDict d) ring)
      eqn:Hr; [discriminate |].
    intros H; inversion H; subst. right. eapply build_record_raises. exact Hr.
  - destruct (is_RequestException exc || is_ValueError exc) eqn:Hc; [discriminate |].
    intros H; inversion H; subst. left. split; [reflexivity | exact Hc].
Qed.

Lemma loop_raises (items : list (Z * SettlementRecord)) (acc : batch) (e : exn) :
  for_each step items acc = Raise e ->
  (exists item, In item items /\ tried item = Raise e /\ Batch.caught e = false)
  \/ record_error e.
Proof.
  revert acc. induction items as [| item items IH]; intros acc H; [discriminate |].
  cbn [for_each] in H. destruct (step acc item) as [acc' | e'] eqn:Hstep.
  - destruct (IH _ H) as [[item' [Hin Hraise]] | Hrecord]; [left | right; exact Hrecord].
    exists item'. split; [right; exact Hin | exact Hraise].
  - inversion H; subst. apply step_raises in Hstep.
    destruct Hstep as [Hraise | Hrecord]; [left | right; exact Hrecord].
    exists item. split; [left; reflexivity | exact Hraise].
Qed.

(** X21.  When the batch raises, the exception is one of an item's request
    and parse that neither handler catches, passed on as it is, or it comes
    from the fields of a record: an [AttributeError] of a date that is not
    text, an [OverflowError] of a number, or the [ValueError] of rounding
    NaN. *)
Theorem batch_exceptions (settlements : list SettlementRecord) (e : exn) :
  build_parsed_records settlements = Raise e ->
  (exists item,
      In item (enumerate 1 settlements)
      /\ tried item = Raise e /\ Batch.caught e = false)
  \/ record_error e.
Proof. apply loop_raises. Qed.

End Runs.

Lemma batch_exceptions_witness :
  (exists item,
      In item (enumerate 1 Batch.three_items)
      /\ Batch.tried Download.numeric_date_network item = Raise AttributeError
      /\ Batch.caught AttributeError = false)
  \/ record_error AttributeError.
Proof.
  apply (batch_exceptions Batch.no_iso Download.numeric_date_network Batch.three_items).
  vm_compute. reflexivity.
Defined.

End PageFacts.

(* ================================================================== *)
(** * File names: [sanitize_name] *)
(* ================================================================== *)

Module SlugFacts.
Import Atlas.
Import Slug.

Lemma drop_token_underscore (s : list ascii) :
  Str.drop_token [["_"%char]] s
  = match s with
    | c :: s' => if is_underscore c then Some s' else None
    | [] => None
    end.
Proof.
  destruct s as [| c s']; [reflexivity |].
  cbn [Str.drop_token Str.prefix]. unfold is_underscore.
  destruct (Ascii.eqb "_" c); reflexivity.
Qed.

Lemma lstrip_underscores (n : nat) (s : list ascii) :
  (List.length s <= n)%nat ->
  Str.lstrip_tokens n [["_"%char]] s = drop_leading s.
Proof.
  revert s. induction n as [| n IH]; intros s Hn.
  - destruct s; [reflexivity | cbn in Hn; lia].
  - cbn [Str.lstrip_tokens]. rewrite drop_token_underscore.
    destruct s as [| c s']; [reflexivity |].
    cbn [drop_leading]. destruct (is_underscore c); [| reflexivity].
    apply IH. cbn in Hn. lia.
Qed.

Lemma drop_leading_app (xs : list ascii) (c : ascii) :
  drop_leading (xs ++ [c])
  = if forallb is_underscore xs then drop_leading [c] else drop_leading xs ++ [c].
Proof.
  induction xs as [| x xs IH]; [reflexivity |].
  cbn [app drop_leading forallb]. destruct (is_underscore x); [exact IH | reflexivity].
Qed.

Lemma drop_leading_nil (xs : list ascii) :
  forallb is_underscore xs = true <-> drop_leading xs = [].
Proof.
  induction xs as [| x xs IH]; [split; reflexivity |].
  cbn [forallb drop_leading]. destruct (is_underscore x); [exact IH |].
  split; discriminate.
Qed.

Lemma drop_trailing_rev (l : list ascii) :
  rev (drop_leading (rev l)) = drop_trailing l.
Proof.
  induction l as [| c l IH]; [reflexivity |].
  cbn [rev drop_trailing]. rewrite drop_leading_app, <- IH.
  destruct (forallb is_underscore (rev l)) eqn:Hall.
  - apply drop_leading_nil in Hall. rewrite Hall. cbn [rev drop_leading].
    destruct (is_underscore c); reflexivity.
  - rewrite rev_app_distr. cbn [rev app].
    destruct (rev (drop_leading (rev l))) as [| k kept] eqn:Hk; [| reflexivity].
    exfalso. apply (f_equal (@rev ascii)) in Hk. rewrite rev_involutive in Hk.
    cbn [rev] in Hk. apply drop_leading_nil in Hk. rewrite Hk in Hall. discriminate.
Qed.

Lemma strip_underscores_chars (s : list ascii) :
  Str.strip_tokens [["_"%char]] s = drop_trailing (drop_leading s).
Proof.
  unfold Str.strip_tokens.
  rewrite (lstrip_underscores _ s) by lia.
  change (map (@rev ascii) [["_"%char]]) with [["_"%char]].
  rewrite lstrip_underscores by (rewrite length_rev; lia).
  apply drop_trailing_rev.
Qed.

Lemma slug_char_no_underscore (c : ascii) :
  is_slug_char c = true -> is_underscore c = false.
Proof.
  unfold is_slug_char, is_underscore, Str.is_digit, Str.in_range.
  destruct (Ascii.eqb "_" c) eqn:E; [| reflexivity].
  apply Ascii.eqb_eq in E. subst c. discriminate.
Qed.

Lemma collapse_single (in_run : bool) (s : list ascii) :
  single_underscores in_run (collapse in_run s) = true.
Proof.
  revert in_run. induction s as [| c s IH]; intros in_run; [reflexivity |].
  cbn [collapse]. destruct (is_slug_char c) eqn:Hc.
  - cbn [single_underscores]. rewrite Hc. apply IH.
  - destruct in_run; [apply IH |].
    cbn [single_underscores]. replace (is_slug_char "_") with false by reflexivity.
    cbn. apply IH.
Qed.

Lemma single_after (a : bool) (s : list ascii) :
  single_underscores true s = true -> single_underscores a s = true.
Proof.
  destruct s as [| c s]; [reflexivity |].
  cbn [single_underscores]. destruct (is_slug_char c); [auto |].
  rewrite andb_false_r. discriminate.
Qed.

Lemma drop_leading_single (a : bool) (s : list ascii) :
  single_underscores a s = true -> single_underscores true (drop_leading s) = true.
Proof.
  destruct s as [| c s]; [reflexivity |].
  cbn [single_underscores drop_leading].
  destruct (is_slug_char c) eqn:Hc.
  - rewrite (slug_char_no_underscore c Hc). cbn [single_underscores]. rewrite Hc. auto.
  - intros H. apply andb_true_iff in H. destruct H as [H Hs].
    apply andb_true_iff in H. destruct H as [Hu _]. rewrite Hu.
    destruct s as [| d s]; [reflexivity |].
    cbn [single_underscores] in Hs. cbn [drop_leading].
    destruct (is_slug_char d) eqn:Hd.
    + rewrite (slug_char_no_underscore d Hd). cbn [single_underscores]. rewrite Hd.
      exact Hs.
    + rewrite andb_false_r in Hs. discriminate.
Qed.

Lemma drop_trailing_well_formed (a : bool) (s : list ascii) :
  single_underscores a s = true ->
  drop_trailing s = [] \/ well_formed a (drop_trailing s) = true.
Proof.
  revert a. induction s as [| c s IH]; intros a H; [left; reflexivity |].
  cbn [single_underscores] in H. cbn [drop_trailing].
  destruct (is_slug_char c) eqn:Hc.
  - right. rewrite (slug_char_no_underscore c Hc).
    destruct (IH false H) as [-> | Hw].
    + cbn [well_formed]. rewrite Hc. reflexivity.
    + destruct (drop_trailing s) as [| k kept]; cbn [well_formed]; rewrite Hc;
        [reflexivity | exact Hw].
  - apply andb_true_iff in H. destruct H as [H Hs].
    apply andb_true_iff in H. destruct H as [Hu Ha]. rewrite Hu.
    destruct (IH true Hs) as [-> | Hw]; [left; reflexivity |].
    destruct (drop_trailing s) as [| k kept]; [discriminate Hw |].
    right. cbn [well_formed]. rewrite Hc, Hu, Ha. exact Hw.
Qed.

Lemma chars_of_chars (l : list ascii) : Str.chars (Str.of_chars l) = l.
Proof. apply list_ascii_of_string_of_list_ascii. Qed.

Lemma of_chars_chars (s : string) : Str.of_chars (Str.chars s) = s.
Proof. apply string_of_list_ascii_of_string. Qed.

Lemma of_chars_empty (l : list ascii) :
  String.eqb (Str.of_chars l) EmptyString = match l with [] => true | _ => false end.
Proof. destruct l; reflexivity. Qed.

(** The slug of a text, before the fallback to the word layer. *)
Lemma sanitize_name_text (text : string) :
  sanitize_name (VStr text)
  = Ok (match drop_trailing (drop_leading (collapse false (Str.chars (Str.lower text)))) with
        | [] => "layer"
        | kept => Str.of_chars kept
        end).
Proof.
  unfold sanitize_name, Str.strip_underscores.
  rewrite chars_of_chars, strip_underscores_chars, of_chars_empty.
  destruct (drop_trailing _); reflexivity.
Qed.

Lemma sanitized_is_slug (text : string) :
  exists slug, sanitize_name (VStr text) = Ok slug /\ is_slug slug = true.
Proof.
  rewrite sanitize_name_text. eexists. split; [reflexivity |].
  pose proof (collapse_single false (Str.chars (Str.lower text))) as H.
  apply drop_leading_single in H. apply drop_trailing_well_formed in H.
  unfold is_slug. destruct H as [-> | H]; [reflexivity |].
  destruct (drop_trailing _) as [| k kept]; [discriminate H |].
  rewrite chars_of_chars. exact H.
Qed.

Lemma sanitize_name_slug (name : value) (slug : string) :
  sanitize_name name = Ok slug -> is_slug slug = true.
Proof.
  intros H. destruct name as [| b | z | f | text | l | d]; try discriminate.
  destruct (sanitized_is_slug text) as [slug' [H' Hslug]].
  rewrite H in H'. inversion H'. subst slug'. exact Hslug.
Qed.

(** ** A slug is left as it is *)

Lemma well_formed_single (a : bool) (s : list ascii) :
  well_formed a s = true -> single_underscores a s = true.
Proof.
  revert a. induction s as [| c s IH]; intros a; [reflexivity |].
  cbn [well_formed single_underscores]. destruct (is_slug_char c); [apply IH |].
  intros H. apply andb_true_iff in H. destruct H as [H Hs]. rewrite H.
  apply IH. exact Hs.
Qed.

Lemma lower_slug_char (c : ascii) :
  is_slug_char c = true \/ is_underscore c = true -> Str.lower_char c = c.
Proof.
  unfold Str.lower_char, is_slug_char, is_underscore, Str.is_digit, Str.in_range.
  intros [H | H].
  - destruct ((65 <=? Str.code c) && (Str.code c <=? 90)) eqn:E; [| reflexivity].
    apply andb_true_iff in E. rewrite !Z.leb_le in E.
    apply orb_true_iff in H. rewrite !andb_true_iff, !Z.leb_le in H. lia.
  - unfold is_underscore in H. apply Ascii.eqb_eq in H. subst c. reflexivity.
Qed.

Lemma lower_single (a : bool) (s : list ascii) :
  single_underscores a s = true -> map Str.lower_char s = s.
Proof.
  revert a. induction s as [| c s IH]; intros a; [reflexivity |].
  cbn [single_underscores map]. destruct (is_slug_char c) eqn:Hc.
  - intros H. rewrite (IH _ H), lower_slug_char by (left; exact Hc). reflexivity.
  - intros H. apply andb_true_iff in H. destruct H as [H Hs].
    apply andb_true_iff in H. destruct H as [Hu _].
    rewrite (IH _ Hs), lower_slug_char by (right; exact Hu). reflexivity.
Qed.

Lemma collapse_keeps (a : bool) (s : list ascii) :
  single_underscores a s = true -> collapse a s = s.
Proof.
  revert a. induction s as [| c s IH]; intros a; [reflexivity |].
  cbn [single_underscores collapse]. destruct (is_slug_char c).
  - intros H. rewrite (IH _ H). reflexivity.
  - intros H. apply andb_true_iff in H. destruct H as [H Hs].
    apply andb_true_iff in H. destruct H as [Hu Ha].
    apply negb_true_iff in Ha. subst a. rewrite (IH _ Hs).
    unfold is_underscore in Hu. apply Ascii.eqb_eq in Hu. subst c. reflexivity.
Qed.

Lemma drop_leading_keeps (s : list ascii) :
  well_formed true s = true -> drop_leading s = s.
Proof.
  destruct s as [| c s]; [reflexivity |].
  cbn [well_formed drop_leading]. destruct (is_slug_char c) eqn:Hc.
  - rewrite (slug_char_no_underscore c Hc). reflexivity.
  - rewrite andb_false_r. discriminate.
Qed.

Lemma drop_trailing_keeps (a : bool) (s : list ascii) :
  well_formed a s = true -> drop_trailing s = s.
Proof.
  revert a. induction s as [| c s IH]; intros a; [reflexivity |].
  cbn [well_formed drop_trailing]. destruct (is_slug_char c) eqn:Hc.
  - intros H. rewrite (IH _ H), (slug_char_no_underscore c Hc).
    destruct s; reflexivity.
  - intros H. apply andb_true_iff in H. destruct H as [_ Hs].
    rewrite (IH _ Hs). destruct s; [discriminate Hs | reflexivity].
Qed.

Lemma slug_sanitized (slug : string) :
  is_slug slug = true -> sanitize_name (VStr slug) = Ok slug.
Proof.
  unfold is_slug. intros H. rewrite sanitize_name_text.
  unfold Str.lower.
  assert (Hs : single_underscores false (Str.chars slug) = true)
    by (apply single_after, well_formed_single; exact H).
  rewrite (lower_single _ _ Hs), of_chars_chars, (collapse_keeps _ _ Hs).
  rewrite (drop_leading_keeps _ H), (drop_trailing_keeps _ _ H).
  destruct (Str.chars slug) eqn:E; [discriminate H |].
  rewrite <- E, of_chars_chars. reflexivity.
Qed.

Lemma lower_char_twice (c : ascii) : Str.lower_char (Str.lower_char c) = Str.lower_char c.
Proof. destruct c as [[] [] [] [] [] [] [] []]; vm_compute; reflexivity. Qed.

Lemma lower_twice (text : string) : Str.lower (Str.lower text) = Str.lower text.
Proof.
  unfold Str.lower. rewrite chars_of_chars, map_map. f_equal.
  apply map_ext. intros c. apply lower_char_twice.
Qed.

(** X23.  [sanitize_name] does not see the case of the letters: a name and
    its lower-case form have the same slug, so two layers whose names differ
    in case only are written to the same file name. *)
Theorem sanitize_name_ignores_case (text : string) :
  sanitize_name (VStr (Str.lower text)) = sanitize_name (VStr text)
  /\ exists slug, sanitize_name (VStr text) = Ok slug.
Proof.
  split.
  - unfold sanitize_name. rewrite lower_twice. reflexivity.
  - destruct (sanitized_is_slug text) as [slug [H _]]. eauto.
Qed.

(** X14.  The file name of a layer is made of a slug: whatever the text,
    [sanitize_name] returns, and what it returns is not empty and holds
    only lower-case letters, digits and underscores, each underscore
    between two of the others.  A name that is not text has no [lower]
    method. *)
Theorem sanitize_name_gives_a_slug :
  (forall text, exists slug, sanitize_name (VStr text) = Ok slug /\ is_slug slug = true)
  /\ (forall name, (forall text, name <> VStr text) ->
                   sanitize_name name = Raise AttributeError).
Proof.
  split; [apply sanitized_is_slug |].
  intros name H. destruct name; try reflexivity. exfalso. eapply H. reflexivity.
Qed.

(** X15.  Sanitising twice is sanitising once: what [sanitize_name]
    returns is a slug, and [sanitize_name] returns a slug as it is. *)
Theorem sanitize_name_idempotent (name : value) (slug : string) :
  sanitize_name name = Ok slug ->
  is_slug slug = true /\ sanitize_name (VStr slug) = Ok slug.
Proof.
  intros H. apply sanitize_name_slug in H.
  split; [exact H | apply slug_sanitized; exact H].
Qed.

Lemma sanitize_name_idempotent_witness :
  sanitize_name (VStr "Informal Settlements (2019)") = Ok "informal_settlements_2019"
  /\ is_slug "informal_settlements_2019" = true
  /\ sanitize_name (VStr "informal_settlements_2019") = Ok "informal_settlements_2019".
Proof.
  assert (H : sanitize_name (VStr "Informal Settlements (2019)")
              = Ok "informal_settlements_2019") by (vm_compute; reflexivity).
  split; [exact H |].
  apply (sanitize_name_idempotent (VStr "Informal Settlements (2019)")). exact H.
Defined.

End SlugFacts.

(* ================================================================== *)
(** * What is exported: [export_feature_collection] and [process_webmap] *)
(* ================================================================== *)

Module WebmapFacts.
Import Atlas.
Import Webmap.

Lemma for_each_invariant {A S : Type} (P : S -> Prop) (body : S -> A -> result S)
  (xs : list A) (acc out : S) :
  (forall acc x acc', P acc -> body acc x = Ok acc' -> P acc') ->
  P acc -> for_each body xs acc = Ok out -> P out.
Proof.
  intros Hbody. revert acc. induction xs as [| x xs IH]; intros acc Hacc H.
  - inversion H. subst. exact Hacc.
  - cbn [for_each] in H. inv_bind H. eapply IH; [| exact H].
    eapply Hbody; eassumption.
Qed.

(** ** Missing keys *)

(** X16.  A point geometry without one of its coordinates raises
    [KeyError] with the name of the missing key; a polyline without paths
    and a polygon without rings give the null result, like an empty
    geometry, and raise nothing. *)
Theorem geometry_without_its_key (L : Libm) (d : list (string * value)) :
  d <> [] ->
  (Py.assoc "x" d = None ->
   convert_geometry L (VDict d) (VStr "esriGeometryPoint") = Raise (KeyError "x"))
  /\ (forall x, Py.assoc "x" d = Some x -> Py.assoc "y" d = None ->
      convert_geometry L (VDict d) (VStr "esriGeometryPoint") = Raise (KeyError "y"))
  /\ (Py.assoc "paths" d = None ->
      convert_geometry L (VDict d) (VStr "esriGeometryPolyline") = Ok None)
  /\ (Py.assoc "rings" d = None ->
      convert_geometry L (VDict d) (VStr "esriGeometryPolygon") = Ok None).
Proof.
  intros Hd. unfold convert_geometry.
  replace (Py.truthy (VDict d)) with true by (destruct d; [contradiction | reflexivity]).
  cbn [negb].
  split; [| split; [| split]].
  - intros Hx. cbn. rewrite Hx. reflexivity.
  - intros x Hx Hy. cbn. rewrite Hx, Hy. reflexivity.
  - intros Hp. cbn. rewrite Hp. reflexivity.
  - intros Hr. cbn. rewrite Hr. reflexivity.
Qed.

Lemma geometry_without_its_key_witness :
  convert_geometry Mercator.table_libm (Geometry.decoded "{'y': 0}")
    (VStr "esriGeometryPoint") = Raise (KeyError "x")
  /\ convert_geometry Mercator.table_libm (Geometry.decoded "{'y': 0}")
       (VStr "esriGeometryPolyline") = Ok None.
Proof.
  assert (Hd : [("y", VInt 0)] <> []) by discriminate.
  destruct (geometry_without_its_key Mercator.table_libm [("y", VInt 0)] Hd)
    as [Hx [_ [Hp _]]].
  split; [apply Hx; reflexivity | apply Hp; reflexivity].
Defined.

(** ** What is written *)

Lemma convert_geometry_types (L : Libm) (geometry geometry_type out : value) :
  convert_geometry L geometry geometry_type = Ok (Some out) ->
  exists type coordinates, In type geojson_types /\ out = geojson type coordinates.
Proof.
  unfold convert_geometry, geojson_types.
  destruct (negb (Py.truthy geometry)); [discriminate |].
  destruct (Py.eq_str geometry_type "esriGeometryPoint").
  { intros H. do 2 inv_bind H.
    apply bind_Ok_inv in H. destruct H as [[lon lat] [_ H]].
    inversion H. do 2 eexists. split; [| reflexivity]. cbn. auto. }
  destruct (Py.eq_str geometry_type "esriGeometryPolyline").
  { intros H. do 3 inv_bind H.
    destruct a1 as [| line [| line' rest]]; inversion H;
      do 2 eexists; (split; [| reflexivity]); cbn; auto. }
  destruct (Py.eq_str geometry_type "esriGeometryPolygon"); [| discriminate].
  intros H. do 3 inv_bind H.
  destruct a1 as [| ring [| ring' rest]]; inversion H;
    do 2 eexists; (split; [| reflexivity]); cbn; auto 6.
Qed.

Lemma add_feature_features (L : Libm) (geometry_type : value)
  (acc acc' : list value) (feature : value) :
  Forall is_feature acc ->
  add_feature L geometry_type acc feature = Ok acc' ->
  Forall is_feature acc'.
Proof.
  intros Hacc H. unfold add_feature in H.
  apply bind_Ok_inv in H. destruct H as [g [_ H]].
  apply bind_Ok_inv in H. destruct H as [converted [Hg H]].
  destruct converted as [geometry |]; [| inversion H; subst; exact Hacc].
  apply bind_Ok_inv in H. destruct H as [attributes [_ H]].
  inversion H.
  apply Forall_app. split; [exact Hacc |]. constructor; [| constructor].
  destruct (convert_geometry_types _ _ _ _ Hg) as [type [coordinates [Hin ->]]].
  exists type, coordinates, (Py.or_ attributes (VDict [])).
  split; [exact Hin | reflexivity].
Qed.

Lemma export_well_written (L : Libm) (layer fc_layer : value) (source_app_id : string)
  (file : string * value) :
  export_feature_collection L layer fc_layer source_app_id = Ok (Some file) ->
  well_written source_app_id file.
Proof.
  unfold export_feature_collection. intros H.
  do 5 inv_bind H.
  apply bind_Ok_inv in H. destruct H as [layer_name [_ H]].
  apply bind_Ok_inv in H. destruct H as [slug [Hslug H]].
  apply bind_Ok_inv in H. destruct H as [features [_ H]].
  apply bind_Ok_inv in H. destruct H as [geojson_features [Hloop H]].
  apply (for_each_invariant (Forall is_feature)) in Hloop;
    [| intros acc x acc'; apply add_feature_features | constructor].
  destruct geojson_features as [| f fs]; [discriminate |].
  do 2 inv_bind H. inversion H.
  exists slug, (f :: fs).
  pose proof (SlugFacts.sanitize_name_slug _ _ Hslug) as Hs.
  repeat split; try reflexivity; try assumption. discriminate.
Qed.

Lemma add_sublayer_well_written (L : Libm) (layer fc_layer : value)
  (acc acc' : list (string * value)) :
  Forall (well_written atlas_app_id) acc ->
  add_sublayer L layer acc fc_layer = Ok acc' ->
  Forall (well_written atlas_app_id) acc'.
Proof.
  intros Hacc H. unfold add_sublayer in H. do 3 inv_bind H.
  destruct (String.eqb a1 EmptyString); [inversion H; subst; exact Hacc |].
  inv_bind H. destruct a2 as [file |]; inversion H; [| subst; exact Hacc].
  apply Forall_app. split; [exact Hacc |]. constructor; [| constructor].
  eapply export_well_written. exact Ha2.
Qed.

Lemma add_layer_well_written (L : Libm) (layer : value)
  (acc acc' : list (string * value)) :
  Forall (well_written atlas_app_id) acc ->
  add_layer L acc layer = Ok acc' ->
  Forall (well_written atlas_app_id) acc'.
Proof.
  intros Hacc H. unfold add_layer in H. inv_bind H.
  destruct (negb (Py.truthy a)); [inversion H; subst; exact Hacc |].
  do 2 inv_bind H.
  eapply for_each_invariant; [| exact Hacc | exact H].
  intros acc0 x acc0'. apply add_sublayer_well_written.
Qed.

(** X17.  A file [export_feature_collection] writes is named
    atlas_of_informality_, a slug, .geojson; its document is a feature
    collection whose features are not empty, each with a geometry of one of
    the five types; the metadata hold the number of the features and the
    application id given. *)
Theorem export_writes_counted_features (L : Libm) (layer fc_layer : value)
  (source_app_id : string) (file : string * value) :
  export_feature_collection L layer fc_layer source_app_id = Ok (Some file) ->
  well_written source_app_id file.
Proof. apply export_well_written. Qed.

Lemma export_writes_witness : well_written atlas_app_id sites_file.
Proof.
  apply (export_writes_counted_features Mercator.table_libm sites_layer sites_sublayer).
  vm_compute. reflexivity.
Defined.

(** X18.  Every file [process_webmap] reports is a file as
    [export_feature_collection] writes it, with the application id of the
    atlas: none has an empty list of features, and each is named after a
    slug. *)
Theorem process_webmap_files (L : Libm) (text : string) (files : list (string * value)) :
  process_webmap L text = Ok files ->
  Forall (well_written atlas_app_id) files.
Proof.
  unfold process_webmap. intros H. do 3 inv_bind H.
  eapply for_each_invariant; [| constructor | exact H].
  intros acc x acc'. apply add_layer_well_written.
Qed.

Lemma process_webmap_witness :
  Forall (well_written atlas_app_id) sample_files /\ List.length sample_files = 1%nat.
Proof.
  split; [| reflexivity].
  apply (process_webmap_files Mercator.table_libm sample_webmap).
  vm_compute. reflexivity.
Defined.

End WebmapFacts.
